(** * Session manager of the tool library: a shallow embedding

    The development follows [src/claude-api/session_manager.py] (class
    [ClaudeSessionManager]) and [src/claude-api/claude_api_v2.py] (the HTTP
    handlers and [execute_claude]).

    Conventions.
    - A Python [str] is a Rocq [string], one [ascii] per character; a Python
      [int] is a [Z]; [None] is [None].
    - A session record is a Python dict with a fixed set of keys plus keys
      that handlers add later ([archived_at], [knowledge_received], ...);
      the later keys are [option] fields, [None] meaning the key is absent.
    - [session_manager.sessions] is a [gmap] from identifier to record.  A
      Python variable bound to a record of the table is an alias of the entry,
      so an assignment through the variable is an update of the table entry.
    - Handlers run in a monad [M] with the whole process state, exceptions
      and read access to the environment (clock, uuid source, outcome of the
      external process).  State changes made before an exception is raised
      are kept, as in Python.
    - The external executable is opaque: its outcome is read from the
      environment, and it leaves files in its own conversation-log directory.
      A workspace that is not a directory makes its start raise.  While a
      handler awaits it the server keeps serving requests, and the
      executable is told to send some itself ([register-claude-session],
      [receive-knowledge]): [execute_claude_during] and
      [clone_session_during] take what is served meanwhile as the state
      transformer [during]; [execute_claude] and [clone_session] are the
      instances where nothing is served meanwhile ([idle]). *)

From Stdlib Require Import ZArith String Ascii List Bool Lia.
From stdpp Require Import base option list strings gmap fin_maps.

Local Open Scope string_scope.
Local Open Scope Z_scope.

(** ** Strings *)

Module Str.

Definition nl : string := String (ascii_of_nat 10) EmptyString.
Definition dq : string := String (ascii_of_nat 34) EmptyString.
Definition bs : string := String (ascii_of_nat 92) EmptyString.

(** [s[:n]] *)
Definition take (n : nat) (s : string) : string := String.substring 0 n s.

(** [sep.join(l)] *)
Definition join (sep : string) (l : list string) : string := String.concat sep l.

(** [s * n] *)
Fixpoint mul (s : string) (n : nat) : string :=
    match n with
    | O => EmptyString
    | S k => s ++ mul s k
    end.

(** [s.replace(old, new)] for a non-empty [old]: occurrences are replaced
      from left to right and do not overlap.  [skip] counts the characters
      of an occurrence that are still to be dropped. *)
Fixpoint replace_from (old new : string) (skip : nat) (s : string) : string :=
    match s with
    | EmptyString => EmptyString
    | String c s' =>
        match skip with
        | S k => replace_from old new k s'
        | O =>
            if String.prefix old s
            then new ++ replace_from old new (String.length old - 1) s'
            else String c (replace_from old new 0 s')
        end
    end.

Definition replace (old new s : string) : string := replace_from old new 0 s.

(** Truth value of a string: non-empty. *)
Definition truthy (s : string) : bool :=
    match s with EmptyString => false | _ => true end.

(** Truth value of an optional string ([None] or a [str]). *)
Definition truthy_opt (o : option string) : bool :=
    match o with Some s => truthy s | None => false end.

End Str.

(** ** Data model *)

Module Participant.
Record t := mk { name : string; role : string; joined_at : string }.
End Participant.

Module Session.

Record t := mk {
    id : string;
    name : string;
    description : string;
    created_at : string;
    last_accessed : string;
    shared : bool;
    tags : list string;
    workspace : string;
    participants : list Participant.t;
    claude_session_id : option string;
    message_count : Z;
    tool_usage : gmap string Z;
    status : string;
    archived_at : option string;
    knowledge_received : option bool;
    parent_session : option string;
    knowledge_transfer : option string;
    fork_instruction_sent : option bool;
    awaiting_knowledge_transfer : option bool
}.

Definition set_description (v : string) (r : t) : t :=
    {| id := id r; name := name r; description := v;
       created_at := created_at r; last_accessed := last_accessed r;
       shared := shared r; tags := tags r; workspace := workspace r;
       participants := participants r;
       claude_session_id := claude_session_id r;
       message_count := message_count r; tool_usage := tool_usage r;
       status := status r; archived_at := archived_at r;
       knowledge_received := knowledge_received r;
       parent_session := parent_session r;
       knowledge_transfer := knowledge_transfer r;
       fork_instruction_sent := fork_instruction_sent r;
       awaiting_knowledge_transfer := awaiting_knowledge_transfer r |}.

Definition set_tags (v : list string) (r : t) : t :=
    {| id := id r; name := name r; description := description r;
       created_at := created_at r; last_accessed := last_accessed r;
       shared := shared r; tags := v; workspace := workspace r;
       participants := participants r;
       claude_session_id := claude_session_id r;
       message_count := message_count r; tool_usage := tool_usage r;
       status := status r; archived_at := archived_at r;
       knowledge_received := knowledge_received r;
       parent_session := parent_session r;
       knowledge_transfer := knowledge_transfer r;
       fork_instruction_sent := fork_instruction_sent r;
       awaiting_knowledge_transfer := awaiting_knowledge_transfer r |}.

Definition set_shared (v : bool) (r : t) : t :=
    {| id := id r; name := name r; description := description r;
       created_at := created_at r; last_accessed := last_accessed r;
       shared := v; tags := tags r; workspace := workspace r;
       participants := participants r;
       claude_session_id := claude_session_id r;
       message_count := message_count r; tool_usage := tool_usage r;
       status := status r; archived_at := archived_at r;
       knowledge_received := knowledge_received r;
       parent_session := parent_session r;
       knowledge_transfer := knowledge_transfer r;
       fork_instruction_sent := fork_instruction_sent r;
       awaiting_knowledge_transfer := awaiting_knowledge_transfer r |}.

Definition set_last_accessed (v : string) (r : t) : t :=
    {| id := id r; name := name r; description := description r;
       created_at := created_at r; last_accessed := v; shared := shared r;
       tags := tags r; workspace := workspace r;
       participants := participants r;
       claude_session_id := claude_session_id r;
       message_count := message_count r; tool_usage := tool_usage r;
       status := status r; archived_at := archived_at r;
       knowledge_received := knowledge_received r;
       parent_session := parent_session r;
       knowledge_transfer := knowledge_transfer r;
       fork_instruction_sent := fork_instruction_sent r;
       awaiting_knowledge_transfer := awaiting_knowledge_transfer r |}.

Definition set_participants (v : list Participant.t) (r : t) : t :=
    {| id := id r; name := name r; description := description r;
       created_at := created_at r; last_accessed := last_accessed r;
       shared := shared r; tags := tags r; workspace := workspace r;
       participants := v; claude_session_id := claude_session_id r;
       message_count := message_count r; tool_usage := tool_usage r;
       status := status r; archived_at := archived_at r;
       knowledge_received := knowledge_received r;
       parent_session := parent_session r;
       knowledge_transfer := knowledge_transfer r;
       fork_instruction_sent := fork_instruction_sent r;
       awaiting_knowledge_transfer := awaiting_knowledge_transfer r |}.

Definition set_claude_session_id (v : option string) (r : t) : t :=
    {| id := id r; name := name r; description := description r;
       created_at := created_at r; last_accessed := last_accessed r;
       shared := shared r; tags := tags r; workspace := workspace r;
       participants := participants r; claude_session_id := v;
       message_count := message_count r; tool_usage := tool_usage r;
       status := status r; archived_at := archived_at r;
       knowledge_received := knowledge_received r;
       parent_session := parent_session r;
       knowledge_transfer := knowledge_transfer r;
       fork_instruction_sent := fork_instruction_sent r;
       awaiting_knowledge_transfer := awaiting_knowledge_transfer r |}.

Definition set_message_count (v : Z) (r : t) : t :=
    {| id := id r; name := name r; description := description r;
       created_at := created_at r; last_accessed := last_accessed r;
       shared := shared r; tags := tags r; workspace := workspace r;
       participants := participants r;
       claude_session_id := claude_session_id r; message_count := v;
       tool_usage := tool_usage r; status := status r;
       archived_at := archived_at r;
       knowledge_received := knowledge_received r;
       parent_session := parent_session r;
       knowledge_transfer := knowledge_transfer r;
       fork_instruction_sent := fork_instruction_sent r;
       awaiting_knowledge_transfer := awaiting_knowledge_transfer r |}.

Definition set_status (v : string) (r : t) : t :=
    {| id := id r; name := name r; description := description r;
       created_at := created_at r; last_accessed := last_accessed r;
       shared := shared r; tags := tags r; workspace := workspace r;
       participants := participants r;
       claude_session_id := claude_session_id r;
       message_count := message_count r; tool_usage := tool_usage r;
       status := v; archived_at := archived_at r;
       knowledge_received := knowledge_received r;
       parent_session := parent_session r;
       knowledge_transfer := knowledge_transfer r;
       fork_instruction_sent := fork_instruction_sent r;
       awaiting_knowledge_transfer := awaiting_knowledge_transfer r |}.

Definition set_archived_at (v : option string) (r : t) : t :=
    {| id := id r; name := name r; description := description r;
       created_at := created_at r; last_accessed := last_accessed r;
       shared := shared r; tags := tags r; workspace := workspace r;
       participants := participants r;
       claude_session_id := claude_session_id r;
       message_count := message_count r; tool_usage := tool_usage r;
       status := status r; archived_at := v;
       knowledge_received := knowledge_received r;
       parent_session := parent_session r;
       knowledge_transfer := knowledge_transfer r;
       fork_instruction_sent := fork_instruction_sent r;
       awaiting_knowledge_transfer := awaiting_knowledge_transfer r |}.

Definition set_knowledge_received (v : option bool) (r : t) : t :=
    {| id := id r; name := name r; description := description r;
       created_at := created_at r; last_accessed := last_accessed r;
       shared := shared r; tags := tags r; workspace := workspace r;
       participants := participants r;
       claude_session_id := claude_session_id r;
       message_count := message_count r; tool_usage := tool_usage r;
       status := status r; archived_at := archived_at r;
       knowledge_received := v; parent_session := parent_session r;
       knowledge_transfer := knowledge_transfer r;
       fork_instruction_sent := fork_instruction_sent r;
       awaiting_knowledge_transfer := awaiting_knowledge_transfer r |}.

Definition set_parent_session (v : option string) (r : t) : t :=
    {| id := id r; name := name r; description := description r;
       created_at := created_at r; last_accessed := last_accessed r;
       shared := shared r; tags := tags r; workspace := workspace r;
       participants := participants r;
       claude_session_id := claude_session_id r;
       message_count := message_count r; tool_usage := tool_usage r;
       status := status r; archived_at := archived_at r;
       knowledge_received := knowledge_received r; parent_session := v;
       knowledge_transfer := knowledge_transfer r;
       fork_instruction_sent := fork_instruction_sent r;
       awaiting_knowledge_transfer := awaiting_knowledge_transfer r |}.

Definition set_knowledge_transfer (v : option string) (r : t) : t :=
    {| id := id r; name := name r; description := description r;
       created_at := created_at r; last_accessed := last_accessed r;
       shared := shared r; tags := tags r; workspace := workspace r;
       participants := participants r;
       claude_session_id := claude_session_id r;
       message_count := message_count r; tool_usage := tool_usage r;
       status := status r; archived_at := archived_at r;
       knowledge_received := knowledge_received r;
       parent_session := parent_session r; knowledge_transfer := v;
       fork_instruction_sent := fork_instruction_sent r;
       awaiting_knowledge_transfer := awaiting_knowledge_transfer r |}.

Definition set_fork_instruction_sent (v : option bool) (r : t) : t :=
    {| id := id r; name := name r; description := description r;
       created_at := created_at r; last_accessed := last_accessed r;
       shared := shared r; tags := tags r; workspace := workspace r;
       participants := participants r;
       claude_session_id := claude_session_id r;
       message_count := message_count r; tool_usage := tool_usage r;
       status := status r; archived_at := archived_at r;
       knowledge_received := knowledge_received r;
       parent_session := parent_session r;
       knowledge_transfer := knowledge_transfer r;
       fork_instruction_sent := v;
       awaiting_knowledge_transfer := awaiting_knowledge_transfer r |}.

Definition set_awaiting_knowledge_transfer (v : option bool) (r : t) : t :=
    {| id := id r; name := name r; description := description r;
       created_at := created_at r; last_accessed := last_accessed r;
       shared := shared r; tags := tags r; workspace := workspace r;
       participants := participants r;
       claude_session_id := claude_session_id r;
       message_count := message_count r; tool_usage := tool_usage r;
       status := status r; archived_at := archived_at r;
       knowledge_received := knowledge_received r;
       parent_session := parent_session r;
       knowledge_transfer := knowledge_transfer r;
       fork_instruction_sent := fork_instruction_sent r;
       awaiting_knowledge_transfer := v |}.

End Session.

(** The transfer record written to [.session/awaiting_transfer.json]. *)
Module Transfer.
Record t := mk {
    from_session_id : string;
    to_session_id : string;
    created_at : string;
    status : string;
    received_at : option string
}.

Definition mark_received (now : string) (d : t) : t :=
    {| from_session_id := from_session_id d; to_session_id := to_session_id d;
       created_at := created_at d; status := "received";
       received_at := Some now |}.
End Transfer.

(** ** The file system

    The file system is observed at the session workspaces (a directory tree
    per workspace path) and at the conversation-log directories of the
    external executable.  A file holding a JSON document is represented by
    the value the document parses to. *)

Inductive content :=
| Text (s : string)
| TransferDoc (d : Transfer.t).

#[warnings="-register-all"]
Inductive node :=
| File (c : content)
| Dir (entries : list (string * node)).

Module FS.

(** Directory entries are kept in listing order; names are looked up and
    replaced at their first occurrence. *)
Fixpoint lookup (n : string) (es : list (string * node)) : option node :=
  match es with
  | [] => None
  | (m, x) :: tl => if String.eqb m n then Some x else lookup n tl
  end.

Fixpoint set (n : string) (x : node) (es : list (string * node))
  : list (string * node) :=
  match es with
  | [] => [(n, x)]
  | (m, y) :: tl => if String.eqb m n then (m, x) :: tl else (m, y) :: set n x tl
  end.

Definition is_dir (o : option node) : bool :=
  match o with Some (Dir _) => true | _ => false end.

Definition is_file (o : option node) : bool :=
  match o with Some (File _) => true | _ => false end.

(** The node at a relative path below [n]. *)
Fixpoint lookup_path (p : list string) (n : node) : option node :=
  match p with
  | [] => Some n
  | d :: p' =>
      match n with
      | Dir es => match lookup d es with Some x => lookup_path p' x | None => None end
      | File _ => None
      end
  end.

(** [open(path, 'w')] followed by a write: the parent must be a directory and
    the target must not be one.  [None] stands for the [OSError] raised
    otherwise. *)
Fixpoint write_path (p : list string) (c : content) (n : node) : option node :=
  match p, n with
  | [], _ => None
  | _, File _ => None
  | [f], Dir es =>
      if is_dir (lookup f es) then None else Some (Dir (set f (File c) es))
  | d :: p', Dir es =>
      match lookup d es with
      | Some (Dir sub) =>
          match write_path p' c (Dir sub) with
          | Some x => Some (Dir (set d x es))
          | None => None
          end
      | _ => None
      end
  end.

(** [Path.mkdir(exist_ok=True)] of the entry [d] of a directory. *)
Definition mkdir_exist_ok (d : string) (n : node) : option node :=
  match n with
  | File _ => None
  | Dir es =>
      match lookup d es with
      | None => Some (Dir (set d (Dir []) es))
      | Some (Dir _) => Some n
      | Some (File _) => None
      end
  end.

End FS.

(** ** Conversation logs of the external executable

    One directory per workspace under [~/.claude/projects], holding
    [*.jsonl] files; a line of such a file is one JSON object.  The files
    are the executable's own: the value under [timestamp], when the key is
    present, is a string.  A line with another JSON value, or a timestamp
    that is [null] or not a string, is not represented; nothing is stated
    below about the order of a history. *)

Inductive item :=
| TextItem (text : option string)
| ToolUse (name : option string) (input : option string)
| OtherItem.

Module Entry.
Record t := mk {
  type : option string;
  timestamp : option string;
  (** [message.content] of a user turn *)
  user_content : option string;
  (** [message.content] of an assistant turn *)
  items : list item
}.
End Entry.

Inductive line :=
| Blank
| Malformed
| Parsed (e : Entry.t).

Record jsonl_file := { stem : string; mtime : Z; lines : list line }.

(** ** Exceptions and results *)

Inductive exn :=
| HTTPException (status_code : Z) (detail : string)
| ValueError (msg : string)
| OSError (msg : string)
| UnicodeDecodeError (msg : string)
| JSONDecodeError (msg : string)
| KeyError (key : string).

(** [str(e)] *)
Definition exn_str (e : exn) : string :=
  match e with
  | HTTPException _ d => d
  | ValueError m | OSError m | UnicodeDecodeError m | JSONDecodeError m => m
  | KeyError k => k
  end.

(** [isinstance(e, ValueError)]: the decoding errors derive from it. *)
Definition is_ValueError (e : exn) : bool :=
  match e with
  | ValueError _ | UnicodeDecodeError _ | JSONDecodeError _ => true
  | _ => false
  end.

Inductive result (A : Type) :=
| Returns (a : A)
| Raises (e : exn).
Arguments Returns {A} a.
Arguments Raises {A} e.

(** ** The external process *)

(** What [execute_claude] passes to [create_subprocess_exec] and
    [communicate]. *)
Record invocation := {
  resume : option string;
  cwd : string;
  env_session_id : string;
  env_session_name : string;
  stdin : string
}.

(** Outcome of [bytes.decode()] on an output stream. *)
Inductive decoded :=
| Decoded (s : string)
| Undecodable (why : string).

Inductive outcome :=
| SpawnRaises (why : string)
| Exits (returncode : Z) (stdout stderr : decoded)
        (logs : gmap string (list jsonl_file) -> gmap string (list jsonl_file)).

(** ** Live-update connections *)

Record connection := { conn_id : nat; alive : bool }.

Definition connection_eqb (a b : connection) : bool :=
  Nat.eqb (conn_id a) (conn_id b) && Bool.eqb (alive a) (alive b).

Record message_response := {
  r_session_id : string;
  r_participant : option string;
  r_prompt : string;
  r_response : string;
  r_timestamp : string
}.

(** ** Process state and environment *)

Inductive event :=
| Saved (doc : gmap string Session.t)
| Spawned (inv : invocation)
| Sent (conn : nat) (msg : message_response).

Record state := mkState {
  sessions : gmap string Session.t;
  metadata_file : option (gmap string Session.t);
  fs : gmap string node;
  projects : gmap string (list jsonl_file);
  active_connections : gmap string (list connection);
  ticks : nat;
  uuids : nat;
  spawns : nat;
  (** ghost: the input/output performed so far, oldest first *)
  trace : list event
}.

Record env := {
  clock : nat -> string;
  uuid : nat -> string;
  process : nat -> invocation -> outcome
}.

Definition with_sessions (m : gmap string Session.t) (st : state) : state :=
  mkState m (metadata_file st) (fs st) (projects st) (active_connections st)
          (ticks st) (uuids st) (spawns st) (trace st).

Definition with_fs (f : gmap string node) (st : state) : state :=
  mkState (sessions st) (metadata_file st) f (projects st)
          (active_connections st) (ticks st) (uuids st) (spawns st) (trace st).

Definition with_projects (p : gmap string (list jsonl_file)) (st : state) : state :=
  mkState (sessions st) (metadata_file st) (fs st) p (active_connections st)
          (ticks st) (uuids st) (spawns st) (trace st).

Definition with_connections (c : gmap string (list connection)) (st : state)
  : state :=
  mkState (sessions st) (metadata_file st) (fs st) (projects st) c
          (ticks st) (uuids st) (spawns st) (trace st).

Definition log_event (ev : event) (st : state) : state :=
  mkState (sessions st) (metadata_file st) (fs st) (projects st)
          (active_connections st) (ticks st) (uuids st) (spawns st)
          (trace st ++ [ev]).

(** ** The handler monad *)

Definition is_some {A} (o : option A) : bool :=
  match o with Some _ => true | None => false end.

Definition M (A : Type) : Type := env -> state -> state * result A.

Definition ret {A} (a : A) : M A := fun _ st => (st, Returns a).

Definition bind {A B} (m : M A) (k : A -> M B) : M B :=
  fun e st =>
    match m e st with
    | (st', Returns a) => k a e st'
    | (st', Raises x) => (st', Raises x)
    end.

Definition raise {A} (x : exn) : M A := fun _ st => (st, Raises x).

(** [try: m  except <handles>: h] *)
Definition try_except {A} (m : M A) (handles : exn -> bool) (h : exn -> M A)
  : M A :=
  fun e st =>
    match m e st with
    | (st', Raises x) => if handles x then h x e st' else (st', Raises x)
    | r => r
    end.

Definition gets {A} (f : state -> A) : M A := fun _ st => (st, Returns (f st)).

Definition modify (f : state -> state) : M unit := fun _ st => (f st, Returns tt).

Definition when (b : bool) (m : M unit) : M unit := if b then m else ret tt.

Notation "'let*' x ':=' c 'in' k" := (bind c (fun x => k))
  (at level 10, x name, c at level 100, k at level 200).
Notation "c >> k" := (bind c (fun _ => k))
  (at level 61, k at next level, right associativity).

Definition run {A} (m : M A) (e : env) (st : state) : state * result A := m e st.

(** [datetime.utcnow().isoformat()] *)
Definition utcnow : M string :=
  fun e st =>
    (mkState (sessions st) (metadata_file st) (fs st) (projects st)
             (active_connections st) (S (ticks st)) (uuids st) (spawns st)
             (trace st),
     Returns (clock e (ticks st))).

(** [str(uuid.uuid4())] *)
Definition uuid4 : M string :=
  fun e st =>
    (mkState (sessions st) (metadata_file st) (fs st) (projects st)
             (active_connections st) (ticks st) (S (uuids st)) (spawns st)
             (trace st),
     Returns (uuid e (uuids st))).

(** [create_subprocess_exec(..., cwd=...)]: a working directory that does
    not exist, or that is a file, makes the call raise; otherwise what the
    process does comes from the environment. *)
Definition create_subprocess_exec (inv : invocation) (e : env) (st : state)
  : outcome :=
  match fs st !! cwd inv with
  | Some (Dir _) => process e (spawns st) inv
  | Some (File _) =>
      SpawnRaises ("[Errno 20] Not a directory: '" ++ cwd inv ++ "'")
  | None =>
      SpawnRaises ("[Errno 2] No such file or directory: '" ++ cwd inv ++ "'")
  end.

(** While a handler awaits the process, the server goes on serving other
    requests, and the process itself may send some: [during] is what they
    do to the state.  [idle]: nothing is served meanwhile. *)
Definition idle : env -> state -> state := fun _ st => st.

(** [create_subprocess_exec] and [communicate]: what the process wrote to
    its conversation logs and what was served during the run are visible
    afterwards. *)
Definition communicate (during : env -> state -> state) (inv : invocation)
  : M outcome :=
  fun e st =>
    let o := create_subprocess_exec inv e st in
    let started :=
      mkState (sessions st) (metadata_file st) (fs st) (projects st)
              (active_connections st) (ticks st) (uuids st) (S (spawns st))
              (trace st ++ [Spawned inv]) in
    (match o with
     | Exits _ _ _ logs => during e (with_projects (logs (projects st)) started)
     | SpawnRaises _ => started
     end,
     Returns o).

(** [bytes.decode()] *)
Definition decode (d : decoded) : M string :=
  match d with
  | Decoded s => ret s
  | Undecodable why => raise (UnicodeDecodeError why)
  end.

(** *** Paths *)

Definition sessions_dir : string := "/tmp/claude-sessions".

(** [str(dir / name)] for a relative, non-empty [name] *)
Definition path_join (dir name : string) : string := dir ++ "/" ++ name.

(** [workspace.exists()] *)
Definition exists_ (path : string) : M bool :=
  gets (fun st => is_some (fs st !! path)).

(** [workspace.mkdir(exist_ok=True)] *)
Definition mkdir_exist_ok (path : string) : M unit :=
  let* o := gets (fun st => fs st !! path) in
  match o with
  | None => modify (fun st => with_fs (<[path := Dir []]> (fs st)) st)
  | Some (Dir _) => ret tt
  | Some (File _) => raise (OSError "File exists")
  end.

(** [(workspace / d).mkdir(exist_ok=True)] *)
Definition mkdir_in (path d : string) : M unit :=
  let* o := gets (fun st => fs st !! path) in
  match o with
  | None => raise (OSError "No such file or directory")
  | Some n =>
      match FS.mkdir_exist_ok d n with
      | Some n' => modify (fun st => with_fs (<[path := n']> (fs st)) st)
      | None => raise (OSError "File exists")
      end
  end.

(** Writing a file at the relative path [p] of a workspace, as
    [write_text] and [open(..., 'w')] with [json.dump] do. *)
Definition write_file (path : string) (p : list string) (c : content) : M unit :=
  let* o := gets (fun st => fs st !! path) in
  match o with
  | None => raise (OSError "No such file or directory")
  | Some n =>
      match FS.write_path p c n with
      | Some n' => modify (fun st => with_fs (<[path := n']> (fs st)) st)
      | None => raise (OSError "Is a directory")
      end
  end.

(** The node at the relative path [p] of a workspace, if any; [p] lists the
    names of the entries on the way.  A path that is absolute, or that has
    [.], [..] or empty components, is not a list of names. *)
Definition stat (path : string) (p : list string) : M (option node) :=
  gets (fun st => match fs st !! path with
                  | Some n => FS.lookup_path p n
                  | None => None
                  end).

(** The directory of the conversation logs of a workspace:
    [str(workspace).replace("/tmp/", "/private/tmp/").replace("/", "-")]
    below [~/.claude/projects]. *)
Definition project_dir (workspace : string) : string :=
  Str.replace "/" "-" (Str.replace "/tmp/" "/private/tmp/" workspace).

Fixpoint for_each {A} (l : list A) (f : A -> M unit) : M unit :=
  match l with
  | [] => ret tt
  | x :: tl => f x >> for_each tl f
  end.

(** *** Copying directory trees ([shutil]) *)

Module Shutil.

(** [shutil.copy2(src, dst)] of a file with content [c] to the entry [n] of
    the directory [dst]: an existing directory at the target receives the
    file under the same name.  [same] tells that source and target are one
    and the same path.  [None] stands for the [OSError] raised. *)
Definition copy2 (same : bool) (n : string) (c : content)
    (dst : list (string * node)) : option (list (string * node)) :=
  if same then None else
  match FS.lookup n dst with
  | Some (Dir sub) =>
      if FS.is_dir (FS.lookup n sub) then None
      else Some (FS.set n (Dir (FS.set n (File c) sub)) dst)
  | _ => Some (FS.set n (File c) dst)
  end.

(** [shutil.copytree(src, dst, dirs_exist_ok=True)] of the node [s] to the
    entry [n] of the directory [dst].  Errors below the top are collected
    while the copy goes on; the flag tells whether [shutil.Error] (or the
    [FileExistsError] of [os.makedirs]) is raised in the end. *)
Fixpoint copy_entry (same : bool) (n : string) (s : node)
    (dst : list (string * node)) {struct s} : list (string * node) * bool :=
  match s with
  | File c =>
      match copy2 same n c dst with
      | Some d => (d, false)
      | None => (dst, true)
      end
  | Dir sub =>
      match FS.lookup n dst with
      | Some (File _) => (dst, true)
      | o =>
          let base := match o with Some (Dir ds) => ds | _ => [] end in
          let r :=
            (fix each (es : list (string * node))
                 (acc : list (string * node) * bool) {struct es} :=
               match es with
               | [] => acc
               | (m, x) :: tl =>
                   let d := copy_entry same m x (fst acc) in
                   each tl (fst d, snd acc || snd d)
               end) sub (base, false) in
          (FS.set n (Dir (fst r)) dst, snd r)
      end
  end.

End Shutil.

(** ** [ClaudeSessionManager] *)

Module Manager.

(** [load_metadata] *)
Definition load_metadata : M unit :=
  modify (fun st => with_sessions (default ∅ (metadata_file st)) st).

(** [save_metadata]: the whole table overwrites the document on disk. *)
Definition save_metadata : M unit :=
  modify (fun st =>
    mkState (sessions st) (Some (sessions st)) (fs st) (projects st)
            (active_connections st) (ticks st) (uuids st) (spawns st)
            (trace st ++ [Saved (sessions st)])).

(** [self.sessions.get(session_id)] *)
Definition sessions_get (session_id : string) : M (option Session.t) :=
  gets (fun st => sessions st !! session_id).

(** [self.sessions[session_id]] *)
Definition sessions_item (session_id : string) : M Session.t :=
  let* o := sessions_get session_id in
  match o with
  | Some r => ret r
  | None => raise (KeyError session_id)
  end.

(** [self.sessions[session_id] = r] *)
Definition sessions_setitem (session_id : string) (r : Session.t) : M unit :=
  modify (fun st => with_sessions (<[session_id := r]> (sessions st)) st).

(** An assignment to a key of the record at [session_id], made through the
    table or through an alias of the entry. *)
Definition assign (session_id : string) (f : Session.t -> Session.t) : M unit :=
  let* r := sessions_item session_id in
  sessions_setitem session_id (f r).

Definition claude_md (s : Session.t) : string :=
  Str.join Str.nl [
    "# Session: " ++ Session.name s;
    "";
    "## Session Information";
    "- **ID**: " ++ Session.id s;
    "- **Created**: " ++ Session.created_at s;
    "- **Description**: " ++ Session.description s;
    "- **Tags**: " ++ Str.join ", " (Session.tags s);
    "- **Shared**: " ++ (if Session.shared s then "Yes" else "No");
    "";
    "## CRITICAL: Register Your Session ID";
    "";
    "As your FIRST action, please execute these commands to enable conversation memory:";
    "```bash";
    "# Create a marker file with your Claude session ID";
    "echo " ++ Str.dq ++ "CLAUDE_SESSION_REGISTERED" ++ Str.dq
      ++ " > .session/registration_marker.txt";
    "";
    "# Send your session ID to the API";
    "curl -X POST http://localhost:8001/sessions/" ++ Session.id s
      ++ "/register-claude-session " ++ Str.bs;
    "  -H " ++ Str.dq ++ "Content-Type: application/json" ++ Str.dq ++ " " ++ Str.bs;
    "  -d '{" ++ Str.dq ++ "marker_file" ++ Str.dq ++ ": " ++ Str.dq
      ++ ".session/registration_marker.txt" ++ Str.dq ++ "}'";
    "```";
    "";
    "This step is ESSENTIAL for conversation memory to work across API calls.";
    "";
    "## Session Guidelines";
    "You are participating in a persistent session that may involve multiple participants over time.";
    "- Maintain context across all interactions";
    "- Reference previous decisions and discussions";
    "- Keep track of action items and progress";
    "- Update session state when significant changes occur";
    "";
    "## Available Tools";
    "All standard tools are available, plus:";
    "- `session-update` - Update session metadata";
    "- `session-note` - Add notes to session history";
    "- `session-invite` - Invite participants (if shared)";
    "";
    "## Session State";
    "You can store and retrieve session state:";
    "```bash";
    "# Store state";
    "echo '{" ++ Str.dq ++ "key" ++ Str.dq ++ ": " ++ Str.dq ++ "value" ++ Str.dq
      ++ "}' > .session/state.json";
    "";
    "# Retrieve state  ";
    "cat .session/state.json";
    "```";
    "";
    "## Collaboration";
    "When multiple participants are involved:";
    "- Summarize recent changes when a new participant joins";
    "- Maintain a decision log in .session/decisions.md";
    "- Track action items in .session/todos.md";
    ""
  ].

(** [create_session_context] *)
Definition create_session_context (workspace : string) (session_info : Session.t)
  : M unit :=
  write_file workspace ["CLAUDE.md"] (Text (claude_md session_info)) >>
  mkdir_in workspace ".session" >>
  write_file workspace [".session"; "state.json"] (Text "{}") >>
  write_file workspace [".session"; "decisions.md"]
    (Text ("# Decisions Log - " ++ Session.name session_info ++ Str.nl ++ Str.nl)) >>
  write_file workspace [".session"; "todos.md"]
    (Text ("# Action Items - " ++ Session.name session_info ++ Str.nl ++ Str.nl)).

(** [create_session].  The returned record is the entry of the table. *)
Definition create_session (name description : string) (shared : bool)
    (tags : option (list string)) : M Session.t :=
  let* session_id := uuid4 in
  let workspace := path_join sessions_dir session_id in
  mkdir_exist_ok workspace >>
  let* created := utcnow in
  let* accessed := utcnow in
  let session_info :=
    {| Session.id := session_id;
       Session.name := name;
       Session.description := description;
       Session.created_at := created;
       Session.last_accessed := accessed;
       Session.shared := shared;
       Session.tags := default [] tags;
       Session.workspace := workspace;
       Session.participants := [];
       Session.claude_session_id := None;
       Session.message_count := 0;
       Session.tool_usage := ∅;
       Session.status := "active";
       Session.archived_at := None;
       Session.knowledge_received := None;
       Session.parent_session := None;
       Session.knowledge_transfer := None;
       Session.fork_instruction_sent := None;
       Session.awaiting_knowledge_transfer := None |} in
  sessions_setitem session_id session_info >>
  save_metadata >>
  create_session_context workspace session_info >>
  ret session_info.

(** [history.sort(key=lambda x: x.get('timestamp', ''))]: a stable sort. *)
Definition sort_key (e : Entry.t) : string := default "" (Entry.timestamp e).

Fixpoint insert_sorted (x : Entry.t) (l : list Entry.t) : list Entry.t :=
  match l with
  | [] => [x]
  | y :: tl =>
      if String.leb (sort_key y) (sort_key x) then y :: insert_sorted x tl
      else x :: y :: tl
  end.

Definition sort_by_timestamp (l : list Entry.t) : list Entry.t :=
  fold_left (fun acc x => insert_sorted x acc) l [].

(** The entries of the [*.jsonl] files of a directory, in reading order;
    [json.loads] raises on a line that is not JSON. *)
Fixpoint read_lines (ls : list line) : result (list Entry.t) :=
  match ls with
  | [] => Returns []
  | Blank :: tl => read_lines tl
  | Malformed :: _ => Raises (JSONDecodeError "Expecting value")
  | Parsed e :: tl =>
      match read_lines tl with
      | Returns es => Returns (e :: es)
      | Raises x => Raises x
      end
  end.

Definition read_jsonl (files : list jsonl_file) : M (list Entry.t) :=
  match read_lines (concat (map lines files)) with
  | Returns es => ret es
  | Raises x => raise x
  end.

(** [get_session_history] *)
Definition get_session_history (session_id : string) : M (list Entry.t) :=
  let* o := sessions_get session_id in
  match o with
  | None => ret []
  | Some session =>
      let* dir := gets (fun st => projects st !! project_dir (Session.workspace session)) in
      match dir with
      | None => ret []
      | Some files =>
          let* history := read_jsonl files in
          ret (sort_by_timestamp history)
      end
  end.

(** [add_participant] *)
Definition add_participant (session_id participant role : string) : M unit :=
  let* o := sessions_get session_id in
  match o with
  | None => ret tt
  | Some _ =>
      let* now := utcnow in
      assign session_id (fun r =>
        Session.set_participants
          (Session.participants r ++
             [{| Participant.name := participant; Participant.role := role;
                 Participant.joined_at := now |}]) r) >>
      save_metadata
  end.

(** [original_workspace.iterdir()] *)
Definition iterdir (path : string) : M (list (string * node)) :=
  let* o := gets (fun st => fs st !! path) in
  match o with
  | Some (Dir es) => ret es
  | Some (File _) => raise (OSError "Not a directory")
  | None => raise (OSError "No such file or directory")
  end.

(** One round of the copy loop of [clone_session]. *)
Definition copy_item (src dst : string) (it : string * node) : M unit :=
  let same := String.eqb src dst in
  let* target := gets (fun st => fs st !! dst) in
  match target with
  | Some (Dir es) =>
      match it with
      | (n, File c) =>
          match Shutil.copy2 same n c es with
          | Some es' => modify (fun st => with_fs (<[dst := Dir es']> (fs st)) st)
          | None => raise (OSError "copy2")
          end
      | (n, Dir sub) =>
          if String.eqb n ".claude" then ret tt
          else
            let r := Shutil.copy_entry same n (Dir sub) es in
            modify (fun st => with_fs (<[dst := Dir (fst r)]> (fs st)) st) >>
            when (snd r) (raise (OSError "copytree"))
      end
  | _ => raise (OSError "No such file or directory")
  end.

(** [clone_session] *)
Definition clone_session (session_id new_name : string) : M Session.t :=
  let* o := sessions_get session_id in
  match o with
  | None => raise (ValueError "Session not found")
  | Some original =>
      let* new_session :=
        create_session new_name ("Cloned from " ++ Session.name original)
          (Session.shared original)
          (Some (Session.tags original ++ ["cloned"])%list) in
      let new_id := Session.id new_session in
      when (Str.truthy_opt (Session.claude_session_id original))
        (assign new_id
           (Session.set_claude_session_id (Session.claude_session_id original)) >>
         save_metadata) >>
      let original_workspace := Session.workspace original in
      let new_workspace := Session.workspace new_session in
      let* items := iterdir original_workspace in
      for_each items (copy_item original_workspace new_workspace) >>
      sessions_item new_id
  end.

(** [archive_session] *)
Definition archive_session (session_id : string) : M unit :=
  let* o := sessions_get session_id in
  match o with
  | None => ret tt
  | Some _ =>
      assign session_id (Session.set_status "archived") >>
      let* now := utcnow in
      assign session_id (Session.set_archived_at (Some now)) >>
      save_metadata
  end.

(** [self.sessions.values()]; the order of the table is not modelled. *)
Definition values (st : state) : list Session.t := (map_to_list (sessions st)).*2.

(** [list_active_sessions] *)
Definition list_active_sessions (st : state) : list Session.t :=
  List.filter (fun s => String.eqb (Session.status s) "active") (values st).

(** [search_sessions(tags=tags)]; the handlers never pass a query. *)
Definition search_sessions (tags : list string) (st : state) : list Session.t :=
  List.filter
    (fun s =>
       negb (bool_decide (tags = [])) &&
       existsb (fun tag => bool_decide (tag ∈ Session.tags s)) tags)
    (values st).

End Manager.

(** ** The HTTP handlers ([claude_api_v2.py]) *)

Module SessionCreateRequest.
Record t := mk {
  name : string;
  description : string;
  shared : bool;
  tags : option (list string);
  initial_prompt : option string
}.
End SessionCreateRequest.

Module MessageRequest.
Record t := mk { prompt : string; participant : option string }.
End MessageRequest.

Module SessionUpdateRequest.
Record t := mk {
  description : option string;
  tags : option (list string);
  shared : option bool
}.
End SessionUpdateRequest.

Module ReceiveKnowledgeRequest.
Record t := mk { from_session : string; knowledge : string }.
End ReceiveKnowledgeRequest.

(** The dict [execute_claude] returns: [success] selects which of
    [response] and [error] is set. *)
Inductive exec_result :=
| Success (response : string)
| Failure (error : string).

Definition success (r : exec_result) : bool :=
  match r with Success _ => true | Failure _ => false end.

(** An entry of the formatted history. *)
Inductive turn :=
| UserTurn (content timestamp : string)
| AssistantTurn (content : string)
    (tools_used : list (option string * option string)) (timestamp : string).

Module Api.

(** [max(jsonl_files, key=lambda p: p.stat().st_mtime)]: the first file
    among the most recently modified. *)
Definition newest (files : list jsonl_file) : option jsonl_file :=
  match files with
  | [] => None
  | f :: tl =>
      Some (fold_left (fun best g => if mtime best <? mtime g then g else best) tl f)
  end.

(** The handle found in the conversation logs of a workspace, if any. *)
Definition discover (workspace : string) : M (option string) :=
  let* dir := gets (fun st => projects st !! project_dir workspace) in
  ret (match dir with
       | Some files =>
           match newest files with Some f => Some (stem f) | None => None end
       | None => None
       end).

(** The command line, the environment and the input that [execute_claude]
    gives to the process: the resume flag is set when the caller asks to
    continue and the record has a handle. *)
Definition build_invocation (session_info : option Session.t)
    (prompt workspace session_id : string) (continue_session : bool)
  : invocation :=
  let claude_session_id :=
    match session_info with
    | Some info => Session.claude_session_id info
    | None => None
    end in
  {| resume := if continue_session && Str.truthy_opt claude_session_id
               then claude_session_id else None;
     cwd := workspace;
     env_session_id := session_id;
     env_session_name := from_option Session.name "" session_info;
     stdin := prompt |}.

(** The block of [execute_claude] that follows a zero exit status: it
    updates the activity of the record, looks for the handle of the
    conversation when the record has none, and saves the table. *)
Definition record_activity (workspace session_id : string) : M unit :=
  let* present := Manager.sessions_get session_id in
  when (is_some present)
    (let* now := utcnow in
     Manager.assign session_id (Session.set_last_accessed now) >>
     Manager.assign session_id
       (fun r => Session.set_message_count (Session.message_count r + 1) r) >>
     let* r := Manager.sessions_item session_id in
     when (negb (Str.truthy_opt (Session.claude_session_id r)))
       (let* found := discover workspace in
        match found with
        | Some h =>
            Manager.assign session_id (Session.set_claude_session_id (Some h))
        | None => ret tt
        end) >>
     Manager.save_metadata).

(** [execute_claude], with [during] served while it awaits the process.
    Everything from the spawn to the construction of the returned dict is
    inside the [try]; any exception becomes a failure result. *)
Definition execute_claude_during (during : env -> state -> state)
    (prompt workspace session_id : string) (continue_session : bool)
  : M exec_result :=
  let* session_info := Manager.sessions_get session_id in
  let inv :=
    build_invocation session_info prompt workspace session_id continue_session in
  try_except
    (let* o := communicate during inv in
     match o with
     | SpawnRaises why => raise (OSError why)
     | Exits returncode stdout stderr _ =>
         if negb (returncode =? 0) then
           let* diagnostic := decode stderr in
           ret (Failure diagnostic)
         else
           record_activity workspace session_id >>
           let* response := decode stdout in
           ret (Success response)
     end)
    (fun _ => true)
    (fun e => ret (Failure (exn_str e))).

(** [execute_claude] when nothing else is served meanwhile. *)
Definition execute_claude : string -> string -> string -> bool -> M exec_result :=
  execute_claude_during idle.

(** The loop of [notify_session_update] over the list of connections of a
    session: the list is indexed afresh at every round, and a connection is
    removed from it while the loop runs when sending to it fails. *)
Fixpoint notify_loop (fuel i : nat) (l : list connection) (delivered : list nat)
  : list connection * list nat :=
  match fuel with
  | O => (l, delivered)
  | S fuel' =>
      match l !! i with
      | None => (l, delivered)
      | Some c =>
          if alive c then notify_loop fuel' (S i) l (delivered ++ [conn_id c])
          else
            let l' :=
              (fix remove (xs : list connection) :=
                 match xs with
                 | [] => []
                 | x :: tl => if connection_eqb x c then tl else x :: remove tl
                 end) l in
            notify_loop fuel' (S i) l' delivered
      end
  end.

(** [notify_session_update] *)
Definition notify_session_update (session_id : string) (data : message_response)
  : M unit :=
  let* conns := gets (fun st => active_connections st !! session_id) in
  match conns with
  | None => ret tt
  | Some l =>
      let r := notify_loop (length l) 0 l [] in
      modify (fun st =>
        fold_left (fun s c => log_event (Sent c data) s) (snd r)
          (with_connections (<[session_id := fst r]> (active_connections st)) st))
  end.

(** [POST /sessions] *)
Definition create_session (request : SessionCreateRequest.t)
  : M (Session.t * option exec_result) :=
  let* session :=
    Manager.create_session (SessionCreateRequest.name request)
      (SessionCreateRequest.description request)
      (SessionCreateRequest.shared request)
      (SessionCreateRequest.tags request) in
  let id := Session.id session in
  match SessionCreateRequest.initial_prompt request with
  | Some p =>
      if Str.truthy p then
        let* result := execute_claude p (Session.workspace session) id false in
        let* session := Manager.sessions_item id in
        ret (session, Some result)
      else ret (session, None)
  | None => ret (session, None)
  end.

(** [GET /sessions] *)
Definition list_sessions (active_only : bool) (tag : option string)
  : M (list Session.t * nat) :=
  let* l := gets (fun st =>
    if Str.truthy_opt tag then Manager.search_sessions (from_option (fun t => [t]) [] tag) st
    else if active_only then Manager.list_active_sessions st
    else Manager.values st) in
  ret (l, length l).

(** [GET /sessions/{session_id}] *)
Definition get_session (session_id : string) : M Session.t :=
  let* o := Manager.sessions_get session_id in
  match o with
  | None => raise (HTTPException 404 "Session not found")
  | Some session => ret session
  end.

(** The text and the tool invocations of the content of an assistant turn. *)
Fixpoint assistant_content (items : list item)
  : string * list (option string * option string) :=
  match items with
  | [] => ("", [])
  | it :: tl =>
      let r := assistant_content tl in
      match it with
      | TextItem text => (default "" text ++ fst r, snd r)
      | ToolUse name input => (fst r, (name, input) :: snd r)
      | OtherItem => r
      end
  end.

Fixpoint format_history (history : list Entry.t) : result (list turn) :=
  match history with
  | [] => Returns []
  | entry :: tl =>
      let rest (t : option turn) :=
        match format_history tl with
        | Returns ts => Returns (from_option (fun x => x :: ts) ts t)
        | Raises x => Raises x
        end in
      if bool_decide (Entry.type entry = Some "user") then
        match Entry.user_content entry, Entry.timestamp entry with
        | None, _ => Raises (KeyError "content")
        | Some _, None => Raises (KeyError "timestamp")
        | Some c, Some ts => rest (Some (UserTurn c ts))
        end
      else if bool_decide (Entry.type entry = Some "assistant") then
        match Entry.timestamp entry with
        | None => Raises (KeyError "timestamp")
        | Some ts =>
            let r := assistant_content (Entry.items entry) in
            rest (Some (AssistantTurn (fst r) (snd r) ts))
        end
      else rest None
  end.

(** [GET /sessions/{session_id}/history] *)
Definition get_session_history (session_id : string)
  : M (string * list turn * nat) :=
  let* history := Manager.get_session_history session_id in
  match history with
  | [] => raise (HTTPException 404 "Session history not found")
  | _ =>
      match format_history history with
      | Returns formatted => ret (session_id, formatted, length formatted)
      | Raises x => raise x
      end
  end.

(** The block of [send_message] that adds the sender to the participants
    of a shared session. *)
Definition note_participant (session_id : string) (session : Session.t)
    (participant : option string) : M unit :=
  when (Session.shared session && Str.truthy_opt participant)
    (let who := default "" participant in
     let participant_exists :=
       existsb (fun p => String.eqb (Participant.name p) who)
               (Session.participants session) in
     when (negb participant_exists)
       (Manager.add_participant session_id who "contributor")).

(** [POST /sessions/{session_id}/messages] *)
Definition send_message (session_id : string) (request : MessageRequest.t)
  : M message_response :=
  let participant := MessageRequest.participant request in
  let prompt := MessageRequest.prompt request in
  let* o := Manager.sessions_get session_id in
  match o with
  | None => raise (HTTPException 404 "Session not found")
  | Some session =>
      let workspace := Session.workspace session in
      let* present := exists_ workspace in
      if negb present then raise (HTTPException 500 "Session workspace not found")
      else
        note_participant session_id session participant >>
        let* result :=
          execute_claude
            (if Session.shared session
             then "[" ++ default "None" participant ++ "]: " ++ prompt
             else prompt)
            workspace session_id true in
        match result with
        | Failure error => raise (HTTPException 500 error)
        | Success response =>
            let* now := utcnow in
            let response :=
              {| r_session_id := session_id; r_participant := participant;
                 r_prompt := prompt; r_response := response;
                 r_timestamp := now |} in
            notify_session_update session_id response >>
            ret response
        end
  end.

(** [PUT /sessions/{session_id}] *)
Definition update_session (session_id : string) (request : SessionUpdateRequest.t)
  : M Session.t :=
  let* o := Manager.sessions_get session_id in
  match o with
  | None => raise (HTTPException 404 "Session not found")
  | Some _ =>
      match SessionUpdateRequest.description request with
      | Some d => Manager.assign session_id (Session.set_description d)
      | None => ret tt
      end >>
      match SessionUpdateRequest.tags request with
      | Some t => Manager.assign session_id (Session.set_tags t)
      | None => ret tt
      end >>
      match SessionUpdateRequest.shared request with
      | Some b => Manager.assign session_id (Session.set_shared b)
      | None => ret tt
      end >>
      Manager.save_metadata >>
      Manager.sessions_item session_id
  end.

Definition transfer_file : list string := [".session"; "awaiting_transfer.json"].

Definition fork_prompt (new_id session_id : string) : string :=
  Str.join Str.nl [
    "IMPORTANT: You need to fork your knowledge to a new session.";
    "";
    "A new session has been created as a fork of your current session. You need to transfer your knowledge to it.";
    "";
    "Please execute the following steps:";
    "1. Summarize everything important from our conversation";
    "2. Send this knowledge to the fork using this command:";
    "";
    "```bash";
    "curl -X POST http://localhost:8001/sessions/" ++ new_id
      ++ "/receive-knowledge " ++ Str.bs;
    "  -H " ++ Str.dq ++ "Content-Type: application/json" ++ Str.dq ++ " " ++ Str.bs;
    "  -d '{" ++ Str.dq ++ "from_session" ++ Str.dq ++ ": " ++ Str.dq ++ session_id
      ++ Str.dq ++ ", " ++ Str.dq ++ "knowledge" ++ Str.dq ++ ": " ++ Str.dq
      ++ "<YOUR_SUMMARY_HERE>" ++ Str.dq ++ "}'";
    "```";
    "";
    "Replace <YOUR_SUMMARY_HERE> with a comprehensive summary including:";
    "- All shared facts and context";
    "- Project state and decisions";
    "- Important files and their purposes";
    "- Current objectives and progress";
    "- Any other relevant information";
    "";
    "This will ensure your fork has all necessary context to continue the work."
  ].

(** [POST /sessions/{session_id}/clone], with [during] served while the
    handler awaits the process that is sent the fork instruction. *)
Definition clone_session_during (during : env -> state -> state)
    (session_id new_name : string) : M Session.t :=
  try_except
    (let* new_session := Manager.clone_session session_id new_name in
     let new_id := Session.id new_session in
     let* original := Manager.sessions_item session_id in
     let original_workspace := Session.workspace original in
     let new_workspace := Session.workspace new_session in
     let* now := utcnow in
     let transfer_data :=
       {| Transfer.from_session_id := session_id;
          Transfer.to_session_id := new_id;
          Transfer.created_at := now;
          Transfer.status := "pending";
          Transfer.received_at := None |} in
     write_file new_workspace transfer_file (TransferDoc transfer_data) >>
     let* fork_result :=
       execute_claude_during during (fork_prompt new_id session_id)
         original_workspace session_id true in
     Manager.assign new_id
       (Session.set_fork_instruction_sent (Some (success fork_result))) >>
     Manager.assign new_id (Session.set_awaiting_knowledge_transfer (Some true)) >>
     Manager.sessions_item new_id)
    is_ValueError
    (fun e => raise (HTTPException 404 (exn_str e))).

(** The clone handler when nothing else is served meanwhile. *)
Definition clone_session : string -> string -> M Session.t :=
  clone_session_during idle.

Definition init_prompt (knowledge : string) : string :=
  Str.join Str.nl [
    "You are a fork of another Claude session. You have just received a knowledge transfer from your parent session.";
    "";
    "---KNOWLEDGE TRANSFER FROM PARENT---";
    knowledge;
    "---END TRANSFER---";
    "";
    "Please:";
    "1. Acknowledge receipt of this knowledge";
    "2. Summarize what you now know";
    "3. Register your session ID as instructed in CLAUDE.md";
    "4. Indicate you're ready to continue the work"
  ].

(** The copy of the knowledge kept on the record:
    [knowledge[:500] + "..." if len(knowledge) > 500 else knowledge]. *)
Definition excerpt (knowledge : string) : string :=
  if (500 <? String.length knowledge)%nat
  then Str.take 500 knowledge ++ "..."
  else knowledge.

(** [POST /sessions/{session_id}/receive-knowledge].  A file at the place of
    the transfer record that does not hold one makes [json.load] or the
    access to its key raise. *)
Definition receive_knowledge (session_id : string)
    (request : ReceiveKnowledgeRequest.t) : M (string * string * string) :=
  let from_session := ReceiveKnowledgeRequest.from_session request in
  let knowledge := ReceiveKnowledgeRequest.knowledge request in
  let* o := Manager.sessions_get session_id in
  match o with
  | None => raise (HTTPException 404 "Session not found")
  | Some session =>
      let workspace := Session.workspace session in
      let* found := stat workspace transfer_file in
      match found with
      | None => ret tt
      | Some (Dir _) => raise (OSError "Is a directory")
      | Some (File (Text _)) => raise (JSONDecodeError "Expecting value")
      | Some (File (TransferDoc transfer_data)) =>
          if negb (String.eqb (Transfer.from_session_id transfer_data) from_session)
          then raise (HTTPException 403 "Unexpected knowledge source")
          else
            let* now := utcnow in
            write_file workspace transfer_file
              (TransferDoc (Transfer.mark_received now transfer_data))
      end >>
      let* result := execute_claude (init_prompt knowledge) workspace session_id false in
      match result with
      | Success response =>
          Manager.assign session_id (Session.set_knowledge_received (Some true)) >>
          Manager.assign session_id (Session.set_parent_session (Some from_session)) >>
          Manager.assign session_id
            (Session.set_knowledge_transfer (Some (excerpt knowledge))) >>
          Manager.save_metadata >>
          ret ("success", "Knowledge transfer received", response)
      | Failure error => raise (HTTPException 500 error)
      end
  end.

(** [POST /sessions/{session_id}/archive] *)
Definition archive_session (session_id : string) : M (string * string) :=
  Manager.archive_session session_id >>
  ret ("Session archived", session_id).

(** [POST /sessions/{session_id}/register-claude-session]; the marker is
    named by its path below the workspace. *)
Definition register_claude_session (session_id : string) (marker_file : list string)
  : M (string * string) :=
  let* o := Manager.sessions_get session_id in
  match o with
  | None => raise (HTTPException 404 "Session not found")
  | Some session =>
      let workspace := Session.workspace session in
      let* marker := stat workspace marker_file in
      match marker with
      | None => raise (HTTPException 400 "Marker file not found")
      | Some _ =>
          let* found := discover workspace in
          match found with
          | Some claude_session_id =>
              Manager.assign session_id
                (Session.set_claude_session_id (Some claude_session_id)) >>
              Manager.save_metadata >>
              ret (claude_session_id, session_id)
          | None => raise (HTTPException 500 "Could not find Claude session")
          end
      end
  end.

End Api.

(** ** Specification helpers *)

(** What a run of the external process that exits with status 0 leaves on
    the record of its session: the activity fields are updated and the
    handle is [h]. *)
Definition touched (now : string) (h : option string) (r : Session.t) : Session.t :=
  Session.set_claude_session_id h
    (Session.set_message_count (Session.message_count r + 1)
       (Session.set_last_accessed now r)).

(** The record after [participant] has joined at time [now]. *)
Definition joined (participant now : string) (r : Session.t) : Session.t :=
  Session.set_participants
    (Session.participants r ++
       [{| Participant.name := participant; Participant.role := "contributor";
           Participant.joined_at := now |}]) r.

(** [participant] is not yet among the participants of the record. *)
Definition is_new (who : string) (r : Session.t) : bool :=
  negb (existsb (fun p => String.eqb (Participant.name p) who)
                (Session.participants r)).

(** The workspace that [create_session] leaves for a new session. *)
Definition provisioned (info : Session.t) : node :=
  Dir [("CLAUDE.md", File (Text (Manager.claude_md info)));
       (".session",
        Dir [("state.json", File (Text "{}"));
             ("decisions.md",
              File (Text ("# Decisions Log - " ++ Session.name info ++ Str.nl ++ Str.nl)));
             ("todos.md",
              File (Text ("# Action Items - " ++ Session.name info ++ Str.nl ++ Str.nl)))])].

(** The text of a diagnostic: what [decode] returns or what [str] gives
    for the exception it raises. *)
Definition decoded_text (d : decoded) : string :=
  match d with Decoded s => s | Undecodable why => why end.

(** The handle that [execute_claude] leaves on a record after a run that
    exits with status 0: a recorded handle is kept, otherwise the handle is
    the stem of the newest log of the workspace, if there is one. *)
Definition handle_after (workspace : string) (logs : gmap string (list jsonl_file))
    (r : Session.t) : option string :=
  if Str.truthy_opt (Session.claude_session_id r) then Session.claude_session_id r
  else
    match logs !! project_dir workspace with
    | Some files =>
        match Api.newest files with
        | Some f => Some (stem f)
        | None => Session.claude_session_id r
        end
    | None => Session.claude_session_id r
    end.

(** [c in s] for a character [c]. *)
Fixpoint occurs (c : ascii) (s : string) : bool :=
  match s with
  | EmptyString => false
  | String d s' => Ascii.eqb c d || occurs c s'
  end.

(** The state in which a handler resumes when the process it awaited has
    returned: the process has written its logs, and [during] has been
    served. *)
Definition resumed (during : env -> state -> state) (inv : invocation)
    (e : env) (st : state) : state :=
  fst (communicate during inv e st).


(** A name that can be an entry of a directory. *)
Definition plain_name (c : string) : bool :=
  negb (String.eqb c "") && negb (String.eqb c ".") && negb (String.eqb c "..")
  && negb (occurs "/" c) && negb (occurs "000" c)
  && (String.length c <=? 255)%nat.

(** A relative path, given by its components, that names a place below
    [workspace]: every component is the name of an entry, and the whole path
    is short enough for the operating system to resolve it. *)
Definition plain_path (workspace : string) (p : list string) : bool :=
  forallb plain_name p
  && (String.length (path_join workspace (Str.join "/" p)) <? 4096)%nat.

(** What one pass of [notify_session_update] does to a list of distinct
    connections, as the connections left and the receivers in order: a live
    connection receives the message; a dead one is removed, the connection
    that follows it takes its place and is passed over. *)
Fixpoint sweep (l : list connection) : list connection * list nat :=
  match l with
  | [] => ([], [])
  | c :: tl =>
      if alive c then
        let r := sweep tl in (c :: fst r, conn_id c :: snd r)
      else
        match tl with
        | [] => ([], [])
        | c' :: tl' => let r := sweep tl' in (c' :: fst r, snd r)
        end
  end.

(** The document on disk is the table in memory. *)
Definition synced (st : state) : Prop := metadata_file st = Some (sessions st).

(** ** Requests

    The routes of the application that read or change the table of
    sessions; the answer of a handler is dropped here. *)

Inductive request :=
| CreateSession (r : SessionCreateRequest.t)
| ListSessions (active_only : bool) (tag : option string)
| GetSession (session_id : string)
| GetSessionHistory (session_id : string)
| SendMessage (session_id : string) (r : MessageRequest.t)
| UpdateSession (session_id : string) (r : SessionUpdateRequest.t)
| CloneSession (session_id new_name : string)
| ReceiveKnowledge (session_id : string) (r : ReceiveKnowledgeRequest.t)
| ArchiveSession (session_id : string)
| RegisterClaudeSession (session_id : string) (marker_file : list string).

Definition handle (q : request) : M unit :=
  match q with
  | CreateSession r => Api.create_session r >> ret tt
  | ListSessions a t => Api.list_sessions a t >> ret tt
  | GetSession i => Api.get_session i >> ret tt
  | GetSessionHistory i => Api.get_session_history i >> ret tt
  | SendMessage i r => Api.send_message i r >> ret tt
  | UpdateSession i r => Api.update_session i r >> ret tt
  | CloneSession i n => Api.clone_session i n >> ret tt
  | ReceiveKnowledge i r => Api.receive_knowledge i r >> ret tt
  | ArchiveSession i => Api.archive_session i >> ret tt
  | RegisterClaudeSession i m => Api.register_claude_session i m >> ret tt
  end.

(** The state after a sequence of requests, whatever their answers. *)
Fixpoint serve (qs : list request) (e : env) (st : state) : state :=
  match qs with
  | [] => st
  | q :: tl => serve tl e (fst (run (handle q) e st))
  end.

(** ** Archived for good

    [sid] is the identifier of an archived record, and the uuid source will
    not produce [sid] again (it produced it when the record was created). *)

Definition archived (sid : string) (st : state) : Prop :=
  exists r, sessions st !! sid = Some r /\ Session.status r = "archived".

Definition unused (e : env) (sid : string) (st : state) : Prop :=
  forall n, (uuids st <= n)%nat -> uuid e n <> sid.

Definition settled (e : env) (sid : string) (st : state) : Prop :=
  archived sid st /\ unused e sid st.

Definition keeps {A} (e : env) (sid : string) (m : M A) : Prop :=
  forall st, settled e sid st -> settled e sid (fst (m e st)).

(** ** How a record changes over time

    [evolves r r']: [r'] is a later state of the record [r]. *)

Definition evolves (r r' : Session.t) : Prop :=
  Session.id r' = Session.id r /\
  Session.name r' = Session.name r /\
  Session.created_at r' = Session.created_at r /\
  Session.workspace r' = Session.workspace r /\
  Session.message_count r <= Session.message_count r' /\
  Session.participants r `prefix_of` Session.participants r'.

Definition tracked (e : env) (sid : string) (r : Session.t) (st : state) : Prop :=
  (exists r', sessions st !! sid = Some r' /\ evolves r r') /\ unused e sid st.

Definition grows {A} (e : env) (sid : string) (r : Session.t) (m : M A) : Prop :=
  forall st, tracked e sid r st -> tracked e sid r (fst (m e st)).

(** The requests other than a clone. *)
Definition is_clone (q : request) : bool :=
  match q with CloneSession _ _ => true | _ => false end.

(** ** A small world to run the handlers in *)

Module Example.

Definition quiet (p : gmap string (list jsonl_file)) := p.

(** The clock and the uuid source give a fresh string at every reading;
    the external process answers [ok]. *)
Definition world : env :=
  {| clock := fun n => "t" ++ Str.mul "+" n;
     uuid := fun n => "u" ++ Str.mul "+" n;
     process := fun _ _ => Exits 0 (Decoded "ok") (Decoded "") quiet |}.

(** The external process exits with status 1. *)
Definition failing : env :=
  {| clock := clock world; uuid := uuid world;
     process := fun _ _ => Exits 1 (Decoded "") (Decoded "boom") quiet |}.

(** The external process exits with status 0 after writing bytes that are
    not valid UTF-8 (say, the single byte [0xff]) to its output. *)
Definition garbled : env :=
  {| clock := clock world; uuid := uuid world;
     process := fun _ _ =>
       Exits 0 (Undecodable "'utf-8' codec can't decode byte 0xff in position 0: invalid start byte")
             (Decoded "") quiet |}.

Definition empty : state := mkState ∅ None ∅ ∅ ∅ 0 0 0 [].

(** A shared session [u] has been created. *)
Definition one : state :=
  fst (run (Manager.create_session "A" "first" true (Some ["demo"])) world empty).

(** The record of [u] in [one]. *)
Definition a : Session.t :=
  {| Session.id := "u";
     Session.name := "A";
     Session.description := "first";
     Session.created_at := "t";
     Session.last_accessed := "t+";
     Session.shared := true;
     Session.tags := ["demo"];
     Session.workspace := "/tmp/claude-sessions/u";
     Session.participants := [];
     Session.claude_session_id := None;
     Session.message_count := 0;
     Session.tool_usage := ∅;
     Session.status := "active";
     Session.archived_at := None;
     Session.knowledge_received := None;
     Session.parent_session := None;
     Session.knowledge_transfer := None;
     Session.fork_instruction_sent := None;
     Session.awaiting_knowledge_transfer := None |}.

(** Session [u] has been cloned into [u+]. *)
Definition forked : state :=
  fst (run (Api.clone_session "u" "B-fork") world one).

(** The workspace of [u] has been removed from the disk. *)
Definition orphan : state := with_fs (delete "/tmp/claude-sessions/u" (fs one)) one.

(** The log that the external process of [chatty] leaves for [u]. *)
Definition log : jsonl_file :=
  {| stem := "h1"; mtime := 1;
     lines := [Parsed {| Entry.type := Some "user"; Entry.timestamp := Some "t2";
                         Entry.user_content := Some "[alice]: hi";
                         Entry.items := [] |};
               Blank;
               Parsed {| Entry.type := Some "assistant"; Entry.timestamp := Some "t3";
                         Entry.user_content := None;
                         Entry.items := [TextItem (Some "ok")] |}] |}.

(** The external process answers [ok] and leaves [log] in the directory of
    the conversation logs of [u]. *)
Definition chatty : env :=
  {| clock := clock world; uuid := uuid world;
     process := fun _ _ =>
       Exits 0 (Decoded "ok") (Decoded "")
             (fun p => <[project_dir "/tmp/claude-sessions/u" := [log]]> p) |}.


(** [alice] has sent a message to [u], and the process has answered. *)
Definition talked : state :=
  fst (run (Api.send_message "u" (MessageRequest.mk "hi" (Some "alice"))) chatty one).

(** Three clients follow [u]; the second one has gone away. *)
Definition watched : state :=
  with_connections
    {[ "u" := [ {| conn_id := 1; alive := true |};
                {| conn_id := 2; alive := false |};
                {| conn_id := 3; alive := true |} ] ]} one.

(** The workspace of [u] holds a settings directory and a note. *)
Definition configured : state :=
  match fs one !! "/tmp/claude-sessions/u" with
  | Some (Dir es) =>
      with_fs
        (<["/tmp/claude-sessions/u" :=
             Dir (es ++ [(".claude", Dir [("settings.json", File (Text "{}"))]);
                         ("notes.txt", File (Text "remember"))])%list]> (fs one))
        one
  | _ => one
  end.

End Example.

(** * Properties *)

(** ** Running handlers symbolically *)

Ltac munfold :=
  cbv [run bind ret raise gets modify when try_except
       Manager.sessions_get Manager.sessions_item Manager.sessions_setitem
       Manager.assign Manager.save_metadata utcnow uuid4 exists_ stat
       write_file mkdir_in mkdir_exist_ok decode communicate idle is_some
       from_option id] in *.

Ltac msimpl :=
  cbn [sessions metadata_file fs projects active_connections ticks
       uuids spawns trace with_sessions with_fs with_projects
       with_connections log_event fst snd negb andb orb Str.truthy_opt
       SessionUpdateRequest.description SessionUpdateRequest.tags
       SessionUpdateRequest.shared MessageRequest.prompt
       MessageRequest.participant ReceiveKnowledgeRequest.from_session
       ReceiveKnowledgeRequest.knowledge SessionCreateRequest.name
       SessionCreateRequest.description SessionCreateRequest.shared
       SessionCreateRequest.tags SessionCreateRequest.initial_prompt] in *.

Ltac mlookup :=
  match goal with
  | H : sessions _ !! _ = _ |- _ => rewrite H
  | H : fs _ !! _ = _ |- _ => rewrite H
  | H : projects _ !! _ = _ |- _ => rewrite H
  | |- _ => rewrite lookup_insert_eq
  end.

Ltac mrun := repeat (progress (munfold; msimpl) || mlookup).

(** ** The process executor *)

Lemma touched_same_handle now r :
  Session.set_message_count (Session.message_count r + 1)
    (Session.set_last_accessed now r)
  = touched now (Session.claude_session_id r) r.
Proof. by destruct r. Qed.

Lemma record_activity_absent ws sid e st :
  sessions st !! sid = None ->
  run (Api.record_activity ws sid) e st = (st, Returns tt).
Proof. intros H. unfold Api.record_activity. mrun. reflexivity. Qed.

Lemma record_activity_present ws sid e st r :
  sessions st !! sid = Some r ->
  exists st' h,
    run (Api.record_activity ws sid) e st = (st', Returns tt) /\
    sessions st' = <[sid := touched (clock e (ticks st)) h r]> (sessions st) /\
    metadata_file st' = Some (sessions st') /\
    fs st' = fs st /\ projects st' = projects st /\
    active_connections st' = active_connections st /\
    ticks st' = S (ticks st) /\ uuids st' = uuids st /\ spawns st' = spawns st /\
    trace st' = (trace st ++ [Saved (sessions st')])%list.
Proof.
  intros H. unfold Api.record_activity, Api.discover. mrun.
  rewrite !insert_insert_eq.
  destruct (Str.truthy_opt _) eqn:Ht; mrun.
  - eexists _, (Session.claude_session_id r). split; [reflexivity|]. msimpl.
    rewrite <- touched_same_handle. repeat split; reflexivity.
  - destruct (projects st !! project_dir ws) as [files|] eqn:Hp; mrun.
    + destruct (Api.newest files) as [f|]; mrun.
      * eexists _, (Some (stem f)). split; [reflexivity|]. msimpl.
        rewrite !insert_insert_eq. repeat split; reflexivity.
      * eexists _, (Session.claude_session_id r). split; [reflexivity|]. msimpl.
        rewrite <- touched_same_handle. repeat split; reflexivity.
    + eexists _, (Session.claude_session_id r). split; [reflexivity|]. msimpl.
      rewrite <- touched_same_handle. repeat split; reflexivity.
Qed.

(** [execute_claude] never raises; its effect is determined by the outcome
    of the process. *)
Lemma execute_claude_run p ws sid c e st :
  let inv := Api.build_invocation (sessions st !! sid) p ws sid c in
  exists st' res,
    run (Api.execute_claude p ws sid c) e st = (st', Returns res) /\
    fs st' = fs st /\ active_connections st' = active_connections st /\
    uuids st' = uuids st /\ spawns st' = S (spawns st) /\
    match create_subprocess_exec inv e st with
    | SpawnRaises why =>
        res = Failure why /\ sessions st' = sessions st /\
        metadata_file st' = metadata_file st /\ ticks st' = ticks st /\
        trace st' = (trace st ++ [Spawned inv])%list
    | Exits rc out err _ =>
        if rc =? 0 then
          res = match out with
                | Decoded s => Success s
                | Undecodable w => Failure w
                end /\
          match sessions st !! sid with
          | None =>
              sessions st' = sessions st /\
              metadata_file st' = metadata_file st /\ ticks st' = ticks st /\
              trace st' = (trace st ++ [Spawned inv])%list
          | Some r =>
              exists h,
                sessions st' = <[sid := touched (clock e (ticks st)) h r]> (sessions st) /\
                metadata_file st' = Some (sessions st') /\
                ticks st' = S (ticks st) /\
                trace st' = (trace st ++ [Spawned inv; Saved (sessions st')])%list
          end
        else
          res = Failure (decoded_text err) /\ sessions st' = sessions st /\
          metadata_file st' = metadata_file st /\ ticks st' = ticks st /\
          trace st' = (trace st ++ [Spawned inv])%list
    end.
Proof.
  intros inv. unfold Api.execute_claude, Api.execute_claude_during. munfold. fold inv.
  destruct (create_subprocess_exec inv e st) as [why|rc out err logs] eqn:Hp; msimpl.
  - eexists _, _. split; [reflexivity|]. msimpl. repeat split; reflexivity.
  - destruct (rc =? 0) eqn:Hrc; msimpl.
    + destruct (sessions st !! sid) as [r|] eqn:Hs.
      * match goal with
        | |- context [Api.record_activity ws sid e ?s] =>
            destruct (record_activity_present ws sid e s r Hs)
              as (st1 & h & Hrun & Hses & Hmeta & Hfs & Hproj & Hconn
                  & Hticks & Huu & Hsp & Htr)
        end.
        unfold run in Hrun. rewrite Hrun. msimpl.
        destruct out; msimpl; (eexists _, _; split; [reflexivity|]); msimpl;
          repeat split; try done; exists h; repeat split; try done;
          rewrite Htr, <- app_assoc; reflexivity.
      * match goal with
        | |- context [Api.record_activity ws sid e ?s] =>
            pose proof (record_activity_absent ws sid e s Hs) as Hrun
        end.
        unfold run in Hrun. rewrite Hrun. msimpl.
        destruct out; msimpl; (eexists _, _; split; [reflexivity|]); msimpl;
          repeat split; done.
    + destruct err; msimpl; (eexists _, _; split; [reflexivity|]); msimpl;
        repeat split; done.
Qed.

Lemma record_activity_handle ws sid e st r :
  sessions st !! sid = Some r ->
  sessions (fst (run (Api.record_activity ws sid) e st))
  = <[sid := touched (clock e (ticks st)) (handle_after ws (projects st) r) r]>
      (sessions st).
Proof.
  intros H. unfold Api.record_activity, Api.discover, handle_after. mrun.
  rewrite !insert_insert_eq.
  replace (Str.truthy_opt (Session.claude_session_id
            (Session.set_message_count
               (Session.message_count (Session.set_last_accessed (clock e (ticks st)) r) + 1)
               (Session.set_last_accessed (clock e (ticks st)) r))))
    with (Str.truthy_opt (Session.claude_session_id r)) by (by destruct r).
  destruct (Str.truthy_opt (Session.claude_session_id r)) eqn:Ht; mrun.
  - by rewrite <- touched_same_handle.
  - destruct (projects st !! project_dir ws) as [files|] eqn:Hp; mrun.
    + destruct (Api.newest files) as [f|]; mrun.
      * by rewrite !insert_insert_eq.
      * by rewrite <- touched_same_handle.
    + by rewrite <- touched_same_handle.
Qed.

(** [execute_claude], whatever is served while it awaits the process, in
    terms of the state in which it resumes. *)
Lemma execute_claude_during_run during p ws sid c e st :
  let inv := Api.build_invocation (sessions st !! sid) p ws sid c in
  let st1 := resumed during inv e st in
  exists st' res,
    run (Api.execute_claude_during during p ws sid c) e st = (st', Returns res) /\
    match create_subprocess_exec inv e st with
    | SpawnRaises why => res = Failure why /\ st' = st1
    | Exits rc out err _ =>
        if rc =? 0 then
          res = match out with
                | Decoded s => Success s
                | Undecodable w => Failure w
                end /\
          match sessions st1 !! sid with
          | None => st' = st1
          | Some r1 =>
              sessions st'
              = <[sid := touched (clock e (ticks st1))
                           (handle_after ws (projects st1) r1) r1]> (sessions st1) /\
              metadata_file st' = Some (sessions st') /\
              fs st' = fs st1 /\ projects st' = projects st1 /\
              active_connections st' = active_connections st1
          end
        else res = Failure (decoded_text err) /\ st' = st1
    end.
Proof.
  intros inv st1. subst st1. unfold resumed, Api.execute_claude_during.
  unfold communicate at 2. munfold. fold inv.
  destruct (create_subprocess_exec inv e st) as [why|rc out err logs] eqn:Hp; msimpl.
  - eexists _, _. split; [reflexivity|]. done.
  - match goal with |- context [during e ?s] => set (s1 := during e s) end.
    destruct (rc =? 0) eqn:Hrc; msimpl.
    + destruct (sessions s1 !! sid) as [r1|] eqn:Hs1.
      * pose proof (record_activity_handle ws sid e s1 r1 Hs1) as Hh.
        destruct (record_activity_present ws sid e s1 r1 Hs1)
          as (st2 & h & Hrun & _ & Hmeta & Hfs & Hproj & Hconn & _).
        rewrite Hrun in Hh. unfold run in Hrun. rewrite Hrun. msimpl.
        destruct out; msimpl; (eexists _, _; split; [reflexivity|]);
          repeat split; done.
      * pose proof (record_activity_absent ws sid e s1 Hs1) as Hrun.
        unfold run in Hrun. rewrite Hrun. msimpl.
        destruct out; msimpl; (eexists _, _; split; [reflexivity|]); done.
    + destruct err; msimpl; (eexists _, _; split; [reflexivity|]); done.
Qed.

(** What [idle] leaves of the state in which the process was started. *)
Lemma resumed_idle inv e st :
  sessions (resumed idle inv e st) = sessions st /\
  metadata_file (resumed idle inv e st) = metadata_file st /\
  fs (resumed idle inv e st) = fs st /\
  ticks (resumed idle inv e st) = ticks st /\
  projects (resumed idle inv e st)
  = match create_subprocess_exec inv e st with
    | Exits _ _ _ logs => logs (projects st)
    | SpawnRaises _ => projects st
    end.
Proof.
  unfold resumed, communicate, idle.
  by destruct (create_subprocess_exec inv e st).
Qed.

(** ** Sending a message *)

Lemma note_participant_new sid r who e st :
  sessions st !! sid = Some r ->
  Session.shared r = true -> Str.truthy who = true -> is_new who r = true ->
  exists st',
    run (Api.note_participant sid r (Some who)) e st = (st', Returns tt) /\
    sessions st' = <[sid := joined who (clock e (ticks st)) r]> (sessions st) /\
    metadata_file st' = Some (sessions st') /\
    trace st' = (trace st ++ [Saved (sessions st')])%list /\
    fs st' = fs st /\ spawns st' = spawns st.
Proof.
  intros Hs Hsh Hw Hn. unfold Api.note_participant, Manager.add_participant, is_new in *.
  apply negb_true_iff in Hn.
  rewrite Hsh. mrun. rewrite Hw. mrun. rewrite Hn. mrun.
  eexists. split; [reflexivity|]. msimpl. repeat split; reflexivity.
Qed.

Lemma note_participant_frame sid r p e st :
  sessions st !! sid = Some r ->
  exists st' r',
    run (Api.note_participant sid r p) e st = (st', Returns tt) /\
    sessions st' !! sid = Some r' /\
    Session.message_count r' = Session.message_count r /\
    Session.last_accessed r' = Session.last_accessed r /\
    Session.claude_session_id r' = Session.claude_session_id r /\
    fs st' = fs st /\ spawns st' = spawns st.
Proof.
  intros Hs. unfold Api.note_participant, Manager.add_participant.
  destruct (Session.shared r && Str.truthy_opt p); mrun.
  - destruct (existsb _ _); mrun.
    + eexists _, _. split; [reflexivity|]. repeat split; try done.
    + eexists _, _. split; [reflexivity|]. mrun. repeat split; try done.
  - eexists _, _. split; [reflexivity|]. repeat split; try done.
Qed.

Lemma send_message_not_found e st sid req :
  sessions st !! sid = None ->
  run (Api.send_message sid req) e st
  = (st, Raises (HTTPException 404 "Session not found")).
Proof. intros H. unfold Api.send_message. mrun. reflexivity. Qed.

Lemma send_message_no_workspace e st sid req r :
  sessions st !! sid = Some r ->
  fs st !! Session.workspace r = None ->
  run (Api.send_message sid req) e st
  = (st, Raises (HTTPException 500 "Session workspace not found")).
Proof. intros H1 H2. unfold Api.send_message. mrun. reflexivity. Qed.

Ltac use_note_participant Hs :=
  match goal with
  | |- context [Api.note_participant ?sid ?r ?p ?e ?st] =>
      let H := fresh "Hnote" in
      destruct (note_participant_frame sid r p e st Hs)
        as (?st1 & ?r1 & H & ?Hs1 & ?Hmc & ?Hla & ?Hh & ?Hfs1 & ?Hsp1);
      unfold run in H; rewrite H; clear H; msimpl
  end.

Ltac use_execute_claude :=
  match goal with
  | |- context [Api.execute_claude ?p ?ws ?sid ?c ?e ?st] =>
      let H := fresh "Hexec" in
      destruct (execute_claude_run p ws sid c e st)
        as (?st2 & ?res & H & ?Hfs2 & ?Hconn2 & ?Huu2 & ?Hsp2 & ?Hout);
      unfold run in H; rewrite H; clear H; msimpl
  end.

Lemma create_subprocess_exec_frame inv e st st' :
  fs st' = fs st -> spawns st' = spawns st ->
  create_subprocess_exec inv e st' = create_subprocess_exec inv e st.
Proof. intros Hf Hs. unfold create_subprocess_exec. by rewrite Hf, Hs. Qed.

Lemma create_subprocess_exec_dir inv e st es :
  fs st !! cwd inv = Some (Dir es) ->
  create_subprocess_exec inv e st = process e (spawns st) inv.
Proof. intros H. unfold create_subprocess_exec. by rewrite H. Qed.

Lemma create_subprocess_exec_cases inv e st :
  create_subprocess_exec inv e st = process e (spawns st) inv \/
  exists why, create_subprocess_exec inv e st = SpawnRaises why.
Proof.
  unfold create_subprocess_exec.
  destruct (fs st !! cwd inv) as [[c|es]|]; eauto.
Qed.

Lemma send_message_failed_run e st sid req r n :
  sessions st !! sid = Some r ->
  fs st !! Session.workspace r = Some n ->
  (forall inv, match process e (spawns st) inv with
               | SpawnRaises _ => True
               | Exits rc _ _ _ => rc <> 0
               end) ->
  exists st' detail r',
    run (Api.send_message sid req) e st = (st', Raises (HTTPException 500 detail)) /\
    sessions st' !! sid = Some r' /\
    Session.message_count r' = Session.message_count r /\
    Session.last_accessed r' = Session.last_accessed r.
Proof.
  intros Hs Hw Hp. unfold Api.send_message. mrun.
  use_note_participant Hs. use_execute_claude.
  match type of Hout with
  | match create_subprocess_exec ?inv e st1 with _ => _ end =>
      rewrite (create_subprocess_exec_frame inv e st st1 Hfs1 Hsp1) in Hout;
      specialize (Hp inv);
      destruct (create_subprocess_exec_cases inv e st) as [Hc|(why & Hc)];
      rewrite Hc in Hout
  end.
  - destruct (process e (spawns st) _) as [why|rc out err logs].
    + destruct Hout as (-> & Hses & _). eexists _, _, _. split; [reflexivity|].
      rewrite Hses. eauto.
    + destruct (rc =? 0) eqn:Hrc; [apply Z.eqb_eq in Hrc; contradiction|].
      destruct Hout as (-> & Hses & _). eexists _, _, _. split; [reflexivity|].
      rewrite Hses. eauto.
  - destruct Hout as (-> & Hses & _). eexists _, _, _. split; [reflexivity|].
    rewrite Hses. eauto.
Qed.

Lemma send_message_garbled_run e st sid req r es :
  sessions st !! sid = Some r ->
  fs st !! Session.workspace r = Some (Dir es) ->
  (forall inv, exists why err logs,
      process e (spawns st) inv = Exits 0 (Undecodable why) err logs) ->
  exists st' detail r',
    run (Api.send_message sid req) e st = (st', Raises (HTTPException 500 detail)) /\
    sessions st' !! sid = Some r' /\
    metadata_file st' = Some (sessions st') /\
    Session.message_count r' = Session.message_count r + 1.
Proof.
  intros Hs Hw Hp. unfold Api.send_message. mrun.
  use_note_participant Hs. use_execute_claude.
  match type of Hout with
  | match create_subprocess_exec ?inv e st1 with _ => _ end =>
      rewrite (create_subprocess_exec_frame inv e st st1 Hfs1 Hsp1) in Hout;
      rewrite (create_subprocess_exec_dir inv e st es Hw) in Hout;
      destruct (Hp inv) as (why & err & logs & Hproc)
  end.
  rewrite Hproc, Hs1 in Hout. cbn in Hout.
  destruct Hout as (-> & h & Hses & Hmeta & _).
  eexists _, _, _. split; [reflexivity|].
  split; [rewrite Hses; apply lookup_insert_eq|]. split; [done|].
  cbn. lia.
Qed.

(** C1, at a failing input.  [send] fails with [Session not found] on an
    unknown identifier and with [Session workspace not found] on a missing
    workspace without touching the state, and a run that exits with a
    non-zero status or cannot be spawned leaves [message_count] and
    [last_accessed] as they were (the lemmas above).  A failing call
    that changes the counters exists all the same: when the process exits
    with status 0 and its output does not decode, [execute_claude] has
    already updated and saved the record when [stdout.decode()] raises
    inside the same [try]; the caller gets the 500 answer, and
    [message_count] went from 0 to 1 and [last_accessed] moved. *)
Theorem send_counts_a_failed_run :
  let req := MessageRequest.mk "hi" (Some "anonymous") in
  let out := run (Api.send_message "u" req) Example.garbled Example.one in
  snd out
  = Raises (HTTPException 500
      "'utf-8' codec can't decode byte 0xff in position 0: invalid start byte") /\
  (Session.message_count <$> sessions Example.one !! "u") = Some 0 /\
  (Session.message_count <$> sessions (fst out) !! "u") = Some 1 /\
  (Session.last_accessed <$> sessions Example.one !! "u") = Some "t+" /\
  (Session.last_accessed <$> sessions (fst out) !! "u") = Some "t+++" /\
  metadata_file (fst out) = Some (sessions (fst out)).
Proof. vm_compute. repeat split. Qed.

Lemma log_sent_frame data (l : list nat) st :
  let st' := fold_left (fun s c => log_event (Sent c data) s) l st in
  sessions st' = sessions st /\ metadata_file st' = metadata_file st /\
  fs st' = fs st /\ projects st' = projects st /\
  active_connections st' = active_connections st /\
  trace st' = (trace st ++ map (fun c => Sent c data) l)%list.
Proof.
  revert st. induction l as [|c l IH]; intros st; cbn.
  - rewrite app_nil_r. done.
  - destruct (IH (log_event (Sent c data) st)) as (H1 & H2 & H3 & H4 & H5 & H6).
    cbn in *. rewrite H1, H2, H3, H4, H5, H6, <- app_assoc. done.
Qed.

Lemma notify_session_update_run sid data e st :
  exists st' sent,
    run (Api.notify_session_update sid data) e st = (st', Returns tt) /\
    sessions st' = sessions st /\ metadata_file st' = metadata_file st /\
    fs st' = fs st /\ trace st' = (trace st ++ map (fun c => Sent c data) sent)%list.
Proof.
  unfold Api.notify_session_update. mrun.
  destruct (active_connections st !! sid) as [l|]; mrun.
  - eexists _, (snd (Api.notify_loop (length l) 0 l [])). split; [reflexivity|].
    match goal with |- context [fold_left _ ?cs ?s] =>
      destruct (log_sent_frame data cs s) as (H1 & H2 & H3 & H4 & H5 & H6) end.
    cbn in *. rewrite H1, H2, H3, H6. done.
  - exists st, []. rewrite app_nil_r. done.
Qed.

Ltac use_notify :=
  match goal with
  | |- context [Api.notify_session_update ?sid ?d ?e ?st] =>
      let H := fresh "Hnotify" in
      destruct (notify_session_update_run sid d e st)
        as (?st3 & ?sent & H & ?Hses3 & ?Hmeta3 & ?Hfs3 & ?Htr3);
      unfold run in H; rewrite H; clear H; msimpl
  end.

(** C10.  A send to a shared session (whose workspace exists, so that the
    external process is reached) naming a participant that is not in the
    list: the table with the new participant entry is saved before the
    process is spawned, and whatever the outcome of the process the entry
    is on the record afterwards, in memory and in the saved document. *)
Theorem participant_persisted_before_run e st sid req r n who :
  sessions st !! sid = Some r ->
  fs st !! Session.workspace r = Some n ->
  Session.shared r = true ->
  MessageRequest.participant req = Some who ->
  Str.truthy who = true ->
  is_new who r = true ->
  let entry := {| Participant.name := who; Participant.role := "contributor";
                  Participant.joined_at := clock e (ticks st) |} in
  exists st' res doc inv rest,
    run (Api.send_message sid req) e st = (st', res) /\
    trace st' = (trace st ++ Saved doc :: Spawned inv :: rest)%list /\
    (exists r0, doc !! sid = Some r0 /\
       Session.participants r0 = (Session.participants r ++ [entry])%list) /\
    (exists r1, sessions st' !! sid = Some r1 /\
       Session.participants r1 = (Session.participants r ++ [entry])%list) /\
    (exists m r2, metadata_file st' = Some m /\ m !! sid = Some r2 /\
       Session.participants r2 = (Session.participants r ++ [entry])%list).
Proof.
  intros Hs Hw Hsh Hp Hwho Hnew entry. unfold Api.send_message. mrun.
  rewrite Hp.
  destruct (note_participant_new sid r who e st Hs Hsh Hwho Hnew)
    as (st1 & Hnote & Hses1 & Hmeta1 & Htr1 & Hfs1 & Hsp1).
  unfold run in Hnote. rewrite Hnote. msimpl.
  assert (Hs1 : sessions st1 !! sid = Some (joined who (clock e (ticks st)) r))
    by (rewrite Hses1; apply lookup_insert_eq).
  use_execute_claude. rewrite Hs1 in Hout.
  set (inv := Api.build_invocation _ _ _ _ _) in Hout.
  destruct (create_subprocess_exec inv e st1) as [why|rc out err logs].
  - destruct Hout as (-> & Hses2 & Hmeta2 & _ & Htr2). msimpl.
    eexists _, _, (sessions st1), inv, []. split; [reflexivity|].
    rewrite Htr2, Htr1, <- app_assoc, Hses2, Hmeta2, Hmeta1. cbn.
    repeat split; eauto 6.
  - destruct (rc =? 0).
    + destruct Hout as (-> & h & Hses2 & Hmeta2 & _ & Htr2).
      assert (Hs2 : sessions st2 !! sid
                    = Some (touched (clock e (ticks st1)) h (joined who (clock e (ticks st)) r)))
        by (rewrite Hses2; apply lookup_insert_eq).
      destruct out as [text|bad]; msimpl.
      * mrun. use_notify.
        eexists _, _, (sessions st1), inv, _. split; [reflexivity|].
        rewrite Htr3. cbn. rewrite Htr2, Htr1, <- !app_assoc, Hses3, Hmeta3, Hmeta2.
        cbn. repeat split; eauto 6.
      * eexists _, _, (sessions st1), inv, _. split; [reflexivity|].
        rewrite Htr2, Htr1, <- !app_assoc, Hmeta2. cbn. repeat split; eauto 6.
    + destruct Hout as (-> & Hses2 & Hmeta2 & _ & Htr2). msimpl.
      eexists _, _, (sessions st1), inv, []. split; [reflexivity|].
      rewrite Htr2, Htr1, <- app_assoc, Hses2, Hmeta2, Hmeta1. cbn.
      repeat split; eauto 6.
Qed.

Lemma participant_persisted_before_run_witness :
  let req := MessageRequest.mk "hi" (Some "alice") in
  let entry := {| Participant.name := "alice"; Participant.role := "contributor";
                  Participant.joined_at := "t++" |} in
  sessions Example.one !! "u" = Some Example.a /\
  is_new "alice" Example.a = true /\
  exists st' res doc inv rest,
    run (Api.send_message "u" req) Example.failing Example.one = (st', res) /\
    trace st' = (trace Example.one ++ Saved doc :: Spawned inv :: rest)%list /\
    (exists r0, doc !! "u" = Some r0 /\ Session.participants r0 = [entry]) /\
    (exists r1, sessions st' !! "u" = Some r1 /\ Session.participants r1 = [entry]) /\
    (exists m r2, metadata_file st' = Some m /\ m !! "u" = Some r2 /\
       Session.participants r2 = [entry]).
Proof.
  intros req entry. split; [reflexivity|]. split; [reflexivity|].
  eapply (participant_persisted_before_run Example.failing Example.one "u" req
            Example.a _ "alice"); [reflexivity | vm_compute; reflexivity | reflexivity..].
Defined.

(** ** Simple handlers *)

(** C9.  Archiving an identifier that is not in the table leaves the whole
    state unchanged and answers [Session archived]. *)
Theorem archive_unknown_session e st sid :
  sessions st !! sid = None ->
  run (Api.archive_session sid) e st = (st, Returns ("Session archived", sid)).
Proof.
  intros H. unfold Api.archive_session, Manager.archive_session. mrun. reflexivity.
Qed.

Lemma archive_unknown_session_witness :
  sessions Example.one !! "nobody" = None /\
  run (Api.archive_session "nobody") Example.world Example.one
  = (Example.one, Returns ("Session archived", "nobody")).
Proof.
  split; [reflexivity | apply archive_unknown_session; reflexivity].
Defined.

(** C6.  [update] on an existing session changes exactly the fields that
    the request sets among [description], [tags] and [shared], leaves every
    other field of the record and every other record as they were, and with
    no field set leaves the record unchanged. *)
Theorem update_session_frame e st sid req r :
  sessions st !! sid = Some r ->
  exists st' r',
    run (Api.update_session sid req) e st = (st', Returns r') /\
    sessions st' = <[sid := r']> (sessions st) /\
    fs st' = fs st /\
    r' = Session.set_shared (default (Session.shared r) (SessionUpdateRequest.shared req))
           (Session.set_tags (default (Session.tags r) (SessionUpdateRequest.tags req))
              (Session.set_description
                 (default (Session.description r) (SessionUpdateRequest.description req)) r)) /\
    Session.description r' = default (Session.description r) (SessionUpdateRequest.description req) /\
    Session.tags r' = default (Session.tags r) (SessionUpdateRequest.tags req) /\
    Session.shared r' = default (Session.shared r) (SessionUpdateRequest.shared req) /\
    Session.id r' = Session.id r /\
    Session.name r' = Session.name r /\
    Session.created_at r' = Session.created_at r /\
    Session.last_accessed r' = Session.last_accessed r /\
    Session.workspace r' = Session.workspace r /\
    Session.participants r' = Session.participants r /\
    Session.claude_session_id r' = Session.claude_session_id r /\
    Session.message_count r' = Session.message_count r /\
    Session.tool_usage r' = Session.tool_usage r /\
    Session.status r' = Session.status r /\
    Session.archived_at r' = Session.archived_at r /\
    (SessionUpdateRequest.description req = None ->
     SessionUpdateRequest.tags req = None ->
     SessionUpdateRequest.shared req = None -> r' = r).
Proof.
  intros H. destruct req as [[d|] [t|] [b|]]; unfold Api.update_session; mrun;
    (eexists _, _; split; [reflexivity|]); mrun; rewrite ?insert_insert_eq;
    (split; [first [reflexivity | symmetry; by apply insert_id]|]);
    (split; [reflexivity|]);
    (split; [by destruct r|]); repeat split; try done.
Qed.

Lemma update_session_frame_witness :
  let req := SessionUpdateRequest.mk (Some "second") None None in
  sessions Example.one !! "u" = Some Example.a /\
  exists st' r',
    run (Api.update_session "u" req) Example.world Example.one = (st', Returns r') /\
    sessions st' = <[ "u" := r' ]> (sessions Example.one) /\
    Session.description r' = "second" /\
    Session.tags r' = ["demo"] /\
    Session.shared r' = true /\
    Session.status r' = "active" /\
    Session.message_count r' = 0.
Proof.
  intros req. split; [reflexivity|].
  destruct (update_session_frame Example.world Example.one "u" req Example.a)
    as (st' & r' & Hrun & Hses & _ & _ & Hd & Ht & Hs & _ & _ & _ & _ & _ & _ & _
        & Hm & _ & Hst & _); [reflexivity|].
  exists st', r'. repeat split; assumption.
Defined.

(** C8, amended.  For an existing session without a conversation-log
    directory the session manager returns the empty history, and the history
    handler turns the empty history into the 404 answer
    [Session history not found]. *)
Theorem history_without_logs e st sid r :
  sessions st !! sid = Some r ->
  projects st !! project_dir (Session.workspace r) = None ->
  run (Manager.get_session_history sid) e st = (st, Returns []) /\
  run (Api.get_session_history sid) e st
  = (st, Raises (HTTPException 404 "Session history not found")).
Proof.
  intros Hs Hp.
  assert (H : run (Manager.get_session_history sid) e st = (st, Returns []))
    by (unfold Manager.get_session_history; mrun; reflexivity).
  split; [exact H|].
  unfold Api.get_session_history, run, bind in *. rewrite H. reflexivity.
Qed.

(** C8 as stated fails: for session [u], which has no conversation-log
    directory, the history handler does not return. *)
Lemma history_without_logs_counterexample :
  exists r,
    sessions Example.one !! "u" = Some r /\
    projects Example.one !! project_dir (Session.workspace r) = None /\
    forall out,
      snd (run (Api.get_session_history "u") Example.world Example.one) <> Returns out.
Proof.
  eexists. split; [reflexivity|]. split; [reflexivity|].
  intros out. vm_compute. discriminate.
Qed.

Lemma history_without_logs_witness :
  sessions Example.one !! "u" = Some Example.a /\
  projects Example.one !! project_dir (Session.workspace Example.a) = None /\
  run (Manager.get_session_history "u") Example.world Example.one
  = (Example.one, Returns []) /\
  run (Api.get_session_history "u") Example.world Example.one
  = (Example.one, Raises (HTTPException 404 "Session history not found")).
Proof.
  split; [reflexivity|]. split; [reflexivity|].
  apply (history_without_logs Example.world Example.one "u" Example.a); reflexivity.
Defined.

(** C2.  When the workspace holds a pending transfer record and the request
    names another parent than the recorded one, [receive_knowledge] fails
    with 403 and the state (the session record, the transfer record) is
    unchanged. *)
Theorem receive_knowledge_forbidden e st sid req r n d :
  sessions st !! sid = Some r ->
  fs st !! Session.workspace r = Some n ->
  FS.lookup_path Api.transfer_file n = Some (File (TransferDoc d)) ->
  Transfer.status d = "pending" ->
  Transfer.from_session_id d <> ReceiveKnowledgeRequest.from_session req ->
  run (Api.receive_knowledge sid req) e st
  = (st, Raises (HTTPException 403 "Unexpected knowledge source")).
Proof.
  intros Hs Hw Ht _ Hne. unfold Api.receive_knowledge. mrun. rewrite Ht.
  apply String.eqb_neq in Hne. rewrite Hne. reflexivity.
Qed.

Lemma receive_knowledge_forbidden_witness :
  let req := ReceiveKnowledgeRequest.mk "intruder" "anything" in
  exists r n d,
    sessions Example.forked !! "u+" = Some r /\
    fs Example.forked !! Session.workspace r = Some n /\
    FS.lookup_path Api.transfer_file n = Some (File (TransferDoc d)) /\
    Transfer.status d = "pending" /\
    Transfer.from_session_id d <> "intruder" /\
    run (Api.receive_knowledge "u+" req) Example.world Example.forked
    = (Example.forked, Raises (HTTPException 403 "Unexpected knowledge source")).
Proof.
  intros req. eexists _, _, _.
  split; [vm_compute; reflexivity|]. split; [vm_compute; reflexivity|].
  split; [vm_compute; reflexivity|]. split; [reflexivity|].
  split; [vm_compute; discriminate|].
  eapply (receive_knowledge_forbidden Example.world Example.forked "u+" req);
    [vm_compute; reflexivity | vm_compute; reflexivity | vm_compute; reflexivity
    | reflexivity | vm_compute; discriminate].
Defined.


(** ** Archiving *)

Section Archived.

Variables (e : env) (sid : string).

Lemma keeps_ret {A} (a : A) : keeps e sid (ret a).
Proof. intros st H. exact H. Qed.

Lemma keeps_raise {A} x : keeps e sid (@raise A x).
Proof. intros st H. exact H. Qed.

Lemma keeps_gets {A} (f : state -> A) : keeps e sid (gets f).
Proof. intros st H. exact H. Qed.

Lemma keeps_bind {A B} (m : M A) (k : A -> M B) :
  keeps e sid m -> (forall a, keeps e sid (k a)) -> keeps e sid (bind m k).
Proof.
  intros Hm Hk st H. unfold bind. specialize (Hm st H).
  destruct (m e st) as [st' [a|x]]; cbn in *; [apply Hk|]; done.
Qed.

Lemma keeps_try_except {A} (m : M A) hs h :
  keeps e sid m -> (forall x, keeps e sid (h x)) -> keeps e sid (try_except m hs h).
Proof.
  intros Hm Hh st H. unfold try_except. specialize (Hm st H).
  destruct (m e st) as [st' [a|x]]; cbn in *; [done|].
  destruct (hs x); [apply Hh|]; done.
Qed.

Lemma keeps_when b m : keeps e sid m -> keeps e sid (when b m).
Proof. destruct b; [done|]. intros _. apply keeps_ret. Qed.

Lemma keeps_for_each {A} (l : list A) f :
  (forall x, keeps e sid (f x)) -> keeps e sid (for_each l f).
Proof.
  intros Hf. induction l as [|x l IH]; cbn; [apply keeps_ret|].
  apply keeps_bind; [apply Hf | intros _; exact IH].
Qed.

Lemma keeps_frame {A} (m : M A) :
  (forall st, sessions (fst (m e st)) = sessions st /\
              uuids (fst (m e st)) = uuids st) ->
  keeps e sid m.
Proof.
  intros Hf st [(r & H1 & H2) H3]. destruct (Hf st) as [Hs Hu].
  split; [exists r; by rewrite Hs|]. unfold unused. by rewrite Hu.
Qed.

Lemma keeps_modify f :
  (forall st, sessions (f st) = sessions st /\ uuids (f st) = uuids st) ->
  keeps e sid (modify f).
Proof. intros Hf. apply keeps_frame. intros st. apply Hf. Qed.

Lemma keeps_setitem k r :
  k <> sid -> keeps e sid (Manager.sessions_setitem k r).
Proof.
  intros Hk st [(r0 & H1 & H2) H3]. split; [|exact H3].
  exists r0. cbn. by rewrite lookup_insert_ne.
Qed.

Lemma keeps_assign k f :
  (forall r, Session.status r = "archived" -> Session.status (f r) = "archived") ->
  keeps e sid (Manager.assign k f).
Proof.
  intros Hf st [(r0 & H1 & H2) H3]. unfold settled, archived, Manager.assign.
  munfold.
  destruct (sessions st !! k) as [r|] eqn:Hk; msimpl; [|split; [by exists r0|done]].
  split; [|exact H3].
  destruct (decide (k = sid)) as [->|Hne].
  - exists (f r). rewrite lookup_insert_eq. split; [done|]. apply Hf. congruence.
  - exists r0. by rewrite lookup_insert_ne.
Qed.

End Archived.

Create HintDb keeps.

Ltac keeps_prim :=
  first
    [ solve [auto with keeps nocore] | apply keeps_ret | apply keeps_raise | apply keeps_gets
    | apply keeps_modify; intros ?; split; reflexivity
    | apply keeps_frame; intros ?; split; reflexivity
    | apply keeps_assign; intros ? ?; assumption
    | apply keeps_assign; intros ? ?; reflexivity ].

Ltac keeps_step :=
  first
    [ keeps_prim
    | apply keeps_bind; [|intros ?]
    | apply keeps_try_except; [|intros ?]
    | apply keeps_when
    | apply keeps_for_each; intros ?
    | match goal with
      | |- keeps _ _ (match ?x with _ => _ end) => destruct x
      | |- keeps _ _ (if ?x then _ else _) => destruct x
      end ].

Ltac keeps_auto := cbv zeta; repeat keeps_step.

Lemma log_sent_uuids data (l : list nat) st :
  uuids (fold_left (fun s c => log_event (Sent c data) s) l st) = uuids st.
Proof. revert st. induction l as [|c l IH]; intros st; cbn; [done|]. by rewrite IH. Qed.

Section Handlers.

Variables (e : env) (sid : string).

Lemma keeps_save_metadata : keeps e sid Manager.save_metadata.
Proof. unfold Manager.save_metadata. keeps_auto. Qed.

Lemma keeps_utcnow : keeps e sid utcnow.
Proof. apply keeps_frame. by split. Qed.

Lemma keeps_write_file p q c : keeps e sid (write_file p q c).
Proof. unfold write_file. keeps_auto. Qed.

Lemma keeps_mkdir_in p d : keeps e sid (mkdir_in p d).
Proof. unfold mkdir_in. keeps_auto. Qed.

Lemma keeps_mkdir_exist_ok p : keeps e sid (mkdir_exist_ok p).
Proof. unfold mkdir_exist_ok. keeps_auto. Qed.

Lemma keeps_communicate inv : keeps e sid (communicate idle inv).
Proof.
  apply keeps_frame. intros st. unfold communicate, idle.
  by destruct (create_subprocess_exec inv e st).
Qed.

Lemma keeps_decode d : keeps e sid (decode d).
Proof. unfold decode. keeps_auto. Qed.

Lemma keeps_sessions_item k : keeps e sid (Manager.sessions_item k).
Proof. unfold Manager.sessions_item, Manager.sessions_get. keeps_auto. Qed.

#[local] Hint Resolve keeps_save_metadata keeps_utcnow keeps_write_file keeps_mkdir_in
  keeps_mkdir_exist_ok keeps_communicate keeps_decode keeps_sessions_item : keeps.

Lemma keeps_create_session_context ws info :
  keeps e sid (Manager.create_session_context ws info).
Proof. unfold Manager.create_session_context. keeps_auto. Qed.

#[local] Hint Resolve keeps_create_session_context : keeps.

Lemma keeps_create_session name description shared tags :
  keeps e sid (Manager.create_session name description shared tags).
Proof.
  intros st [Ha Hu]. unfold Manager.create_session. unfold bind at 1, uuid4 at 1.
  match goal with
  | |- settled _ _ (fst (?m _ ?s)) => assert (Hk : keeps e sid m); [| apply Hk]
  end.
  - keeps_auto. apply keeps_setitem, Hu. lia.
  - split; [exact Ha|]. intros n Hn. apply Hu. cbn in Hn. lia.
Qed.

#[local] Hint Resolve keeps_create_session : keeps.

Lemma keeps_record_activity ws k : keeps e sid (Api.record_activity ws k).
Proof. unfold Api.record_activity, Api.discover, Manager.sessions_get. keeps_auto. Qed.

#[local] Hint Resolve keeps_record_activity : keeps.

Lemma keeps_execute_claude p ws k c : keeps e sid (Api.execute_claude p ws k c).
Proof. unfold Api.execute_claude, Api.execute_claude_during, Manager.sessions_get. keeps_auto. Qed.

#[local] Hint Resolve keeps_execute_claude : keeps.

Lemma keeps_notify k d : keeps e sid (Api.notify_session_update k d).
Proof.
  unfold Api.notify_session_update. keeps_auto.
  apply keeps_modify. intros st.
  match goal with |- context [fold_left _ ?cs ?s] =>
    destruct (log_sent_frame d cs s) as (H1 & _)
  end.
  split; [exact H1|]. by rewrite log_sent_uuids.
Qed.

#[local] Hint Resolve keeps_notify : keeps.

Lemma keeps_add_participant k p role : keeps e sid (Manager.add_participant k p role).
Proof. unfold Manager.add_participant, Manager.sessions_get. keeps_auto. Qed.

#[local] Hint Resolve keeps_add_participant : keeps.

Lemma keeps_copy_item src dst it : keeps e sid (Manager.copy_item src dst it).
Proof. unfold Manager.copy_item. keeps_auto. Qed.

#[local] Hint Resolve keeps_copy_item : keeps.

Lemma keeps_manager_clone k new_name : keeps e sid (Manager.clone_session k new_name).
Proof.
  unfold Manager.clone_session, Manager.iterdir, Manager.sessions_get. keeps_auto.
Qed.

Lemma keeps_manager_archive k : keeps e sid (Manager.archive_session k).
Proof. unfold Manager.archive_session, Manager.sessions_get. keeps_auto. Qed.

#[local] Hint Resolve keeps_manager_clone keeps_manager_archive : keeps.

Lemma archived_is_final q : keeps e sid (handle q).
Proof.
  destruct q; cbn [handle];
    unfold Api.create_session, Api.list_sessions, Api.get_session,
      Api.get_session_history, Manager.get_session_history, Manager.read_jsonl,
      Api.send_message, Api.note_participant, Api.update_session,
      Api.clone_session, Api.clone_session_during, Api.receive_knowledge,
      Api.archive_session,
      Api.register_claude_session, Api.discover, Manager.sessions_get, stat, exists_;
    change (Api.execute_claude_during idle) with Api.execute_claude;
    keeps_auto.
Qed.

Lemma serve_keeps qs st : settled e sid st -> settled e sid (serve qs e st).
Proof.
  revert st. induction qs as [|q qs IH]; intros st H; cbn; [done|].
  apply IH, archived_is_final, H.
Qed.

End Handlers.

Lemma archived_not_listed st r :
  Session.status r = "archived" -> r ∉ Manager.list_active_sessions st.
Proof.
  intros H Hin. apply list_elem_of_In, filter_In in Hin. destruct Hin as [_ Heq].
  apply String.eqb_eq in Heq. congruence.
Qed.

Lemma list_sessions_default e st :
  run (Api.list_sessions true None) e st
  = (st, Returns (Manager.list_active_sessions st,
                  length (Manager.list_active_sessions st))).
Proof. reflexivity. Qed.

(** C3, amended.  Archiving an existing session twice answers twice and
    leaves [status] at [archived]; [archived_at] is the time of the latest
    call, so the second call replaces the time of the first.  From then on,
    whatever requests are served, the record stays in the table with status
    [archived], and the default listing does not contain it. *)
Theorem archive_twice e st sid r :
  sessions st !! sid = Some r ->
  unused e sid st ->
  exists st1 st2 r1 r2,
    run (Api.archive_session sid) e st = (st1, Returns ("Session archived", sid)) /\
    run (Api.archive_session sid) e st1 = (st2, Returns ("Session archived", sid)) /\
    sessions st1 !! sid = Some r1 /\ Session.status r1 = "archived" /\
    Session.archived_at r1 = Some (clock e (ticks st)) /\
    sessions st2 !! sid = Some r2 /\ Session.status r2 = "archived" /\
    Session.archived_at r2 = Some (clock e (S (ticks st))) /\
    forall qs,
      let st' := serve qs e st1 in
      exists r' l,
        sessions st' !! sid = Some r' /\ Session.status r' = "archived" /\
        run (Api.list_sessions true None) e st' = (st', Returns (l, length l)) /\
        r' ∉ l.
Proof.
  intros Hs Hu.
  assert (Hrun : exists st1,
    run (Api.archive_session sid) e st = (st1, Returns ("Session archived", sid)) /\
    sessions st1 = <[sid := Session.set_archived_at (Some (clock e (ticks st)))
                              (Session.set_status "archived" r)]> (sessions st) /\
    ticks st1 = S (ticks st) /\ uuids st1 = uuids st).
  { unfold Api.archive_session, Manager.archive_session. mrun.
    eexists. split; [reflexivity|]. mrun. rewrite insert_insert_eq. done. }
  destruct Hrun as (st1 & Hrun1 & Hses1 & Hticks1 & Huu1).
  assert (Hrun : exists st2,
    run (Api.archive_session sid) e st1 = (st2, Returns ("Session archived", sid)) /\
    sessions st2 = <[sid := Session.set_archived_at (Some (clock e (ticks st1)))
                              (Session.set_status "archived" r)]> (sessions st)).
  { assert (Hs1 : sessions st1 !! sid = Some (Session.set_archived_at
               (Some (clock e (ticks st))) (Session.set_status "archived" r)))
      by (rewrite Hses1; apply lookup_insert_eq).
    unfold Api.archive_session, Manager.archive_session. mrun.
    eexists. split; [reflexivity|]. mrun. rewrite Hses1, !insert_insert_eq. done. }
  destruct Hrun as (st2 & Hrun2 & Hses2).
  eexists st1, st2, _, _. split; [exact Hrun1|]. split; [exact Hrun2|].
  split; [rewrite Hses1; apply lookup_insert_eq|]. split; [reflexivity|].
  split; [reflexivity|].
  split; [rewrite Hses2; apply lookup_insert_eq|]. split; [reflexivity|].
  split; [cbn; by rewrite Hticks1|].
  intros qs st'.
  assert (Hset : settled e sid st1).
  { split.
    - eexists. split; [rewrite Hses1; apply lookup_insert_eq|reflexivity].
    - unfold unused. rewrite Huu1. exact Hu. }
  destruct (serve_keeps e sid qs st1 Hset) as [(r' & Hr' & Hst') _].
  exists r', (Manager.list_active_sessions st').
  split; [exact Hr'|]. split; [exact Hst'|]. split; [apply list_sessions_default|].
  by apply archived_not_listed.
Qed.

Lemma archive_twice_witness :
  exists r, sessions Example.one !! "u" = Some r /\
  unused Example.world "u" Example.one /\
  exists st1 st2 r1 r2,
    run (Api.archive_session "u") Example.world Example.one
      = (st1, Returns ("Session archived", "u")) /\
    run (Api.archive_session "u") Example.world st1
      = (st2, Returns ("Session archived", "u")) /\
    sessions st1 !! "u" = Some r1 /\ Session.status r1 = "archived" /\
    Session.archived_at r1 = Some (clock Example.world (ticks Example.one)) /\
    sessions st2 !! "u" = Some r2 /\ Session.status r2 = "archived" /\
    Session.archived_at r2 = Some (clock Example.world (S (ticks Example.one))) /\
    forall qs,
      let st' := serve qs Example.world st1 in
      exists r' l,
        sessions st' !! "u" = Some r' /\ Session.status r' = "archived" /\
        run (Api.list_sessions true None) Example.world st' = (st', Returns (l, length l)) /\
        r' ∉ l.
Proof.
  assert (Hu : unused Example.world "u" Example.one)
    by (intros [|n] Hn; [vm_compute in Hn; lia | discriminate]).
  eexists. split; [reflexivity|]. split; [exact Hu|].
  eapply archive_twice; [reflexivity | exact Hu].
Defined.

(** C3 as stated fails: the second call alters [archived_at]. *)
Lemma archive_twice_counterexample :
  let st1 := fst (run (Api.archive_session "u") Example.world Example.one) in
  let st2 := fst (run (Api.archive_session "u") Example.world st1) in
  (Session.archived_at <$> sessions st1 !! "u") = Some (Some "t++") /\
  (Session.archived_at <$> sessions st2 !! "u") = Some (Some "t+++") /\
  (Session.archived_at <$> sessions st2 !! "u")
  <> (Session.archived_at <$> sessions st1 !! "u").
Proof. vm_compute. repeat split; discriminate. Qed.

(** ** Receiving knowledge *)

Lemma length_take n s :
  String.length (Str.take n s) = Nat.min n (String.length s).
Proof.
  unfold Str.take. revert n. induction s as [|c s IH]; intros [|n]; cbn; try done.
  by rewrite IH.
Qed.

Lemma length_append (s1 s2 : string) :
  String.length (s1 ++ s2) = (String.length s1 + String.length s2)%nat.
Proof. induction s1 as [|c s1 IH]; simpl; [done|]. by rewrite IH. Qed.

Lemma excerpt_short k :
  (String.length k <= 500)%nat -> Api.excerpt k = k.
Proof.
  intros H. unfold Api.excerpt.
  destruct (Nat.ltb_spec 500 (String.length k)); [lia|done].
Qed.

Lemma excerpt_long k :
  (500 < String.length k)%nat ->
  Api.excerpt k = Str.take 500 k ++ "..." /\
  String.length (Api.excerpt k) = 503%nat.
Proof.
  intros H. unfold Api.excerpt.
  destruct (Nat.ltb_spec 500 (String.length k)); [|lia].
  split; [done|]. rewrite length_append, length_take.
  change (String.length "...") with 3%nat. lia.
Qed.

Lemma execute_claude_present p ws k c e st sid r :
  sessions st !! sid = Some r ->
  exists st' res r',
    run (Api.execute_claude p ws k c) e st = (st', Returns res) /\
    sessions st' !! sid = Some r' /\
    Session.id r' = Session.id r /\ Session.tags r' = Session.tags r /\
    Session.workspace r' = Session.workspace r /\
    (k <> sid -> r' = r) /\
    fs st' = fs st /\ uuids st' = uuids st.
Proof.
  intros Hs.
  destruct (execute_claude_run p ws k c e st)
    as (st' & res & Hrun & Hfs & _ & Huu & _ & Hout).
  assert (Hcase :
    sessions st' = sessions st \/
    exists now h r0, sessions st !! k = Some r0 /\
      sessions st' = <[k := touched now h r0]> (sessions st)).
  { destruct (create_subprocess_exec _ e st) as [why|rc out err logs].
    - left. tauto.
    - destruct (rc =? 0); [|left; tauto].
      destruct Hout as (_ & Hout). destruct (sessions st !! k) as [r0|] eqn:Hk.
      + destruct Hout as (h & Hses & _). right. eauto 6.
      + left. tauto. }
  destruct Hcase as [Hsame | (now & h & r0 & Hk & Hses)].
  - exists st', res, r. rewrite Hsame. repeat split; done.
  - destruct (decide (k = sid)) as [->|Hne].
    + exists st', res, (touched now h r). rewrite Hses, lookup_insert_eq.
      assert (r0 = r) as -> by congruence. repeat split; try done.
    + exists st', res, r. rewrite Hses, lookup_insert_ne by done.
      repeat split; done.
Qed.

Ltac use_execute_present Hs :=
  match goal with
  | |- context [Api.execute_claude ?p ?ws ?k ?c ?e ?st] =>
      let H := fresh "Hexec" in
      destruct (execute_claude_present p ws k c e st _ _ Hs)
        as (?st2 & ?res & ?r2 & H & ?Hs2 & ?Hid2 & ?Htags2 & ?Hws2 & ?Hother2
            & ?Hfs2 & ?Huu2);
      unfold run in H; rewrite H; clear H; msimpl
  end.

Lemma receive_knowledge_stores e st sid req :
  match run (Api.receive_knowledge sid req) e st with
  | (st', Returns _) =>
      exists r',
        sessions st' !! sid = Some r' /\
        Session.knowledge_received r' = Some true /\
        Session.parent_session r' = Some (ReceiveKnowledgeRequest.from_session req) /\
        Session.knowledge_transfer r'
        = Some (Api.excerpt (ReceiveKnowledgeRequest.knowledge req))
  | (_, Raises _) => True
  end.
Proof.
  unfold Api.receive_knowledge. mrun.
  destruct (sessions st !! sid) as [r|] eqn:Hs; mrun; [|done].
  assert (Hfin : forall st1, sessions st1 !! sid = Some r ->
    match
      (let* result := Api.execute_claude
           (Api.init_prompt (ReceiveKnowledgeRequest.knowledge req))
           (Session.workspace r) sid false in
       match result with
       | Success response =>
           Manager.assign sid (Session.set_knowledge_received (Some true)) >>
           Manager.assign sid
             (Session.set_parent_session
                (Some (ReceiveKnowledgeRequest.from_session req))) >>
           Manager.assign sid
             (Session.set_knowledge_transfer
                (Some (Api.excerpt (ReceiveKnowledgeRequest.knowledge req)))) >>
           Manager.save_metadata >>
           ret ("success", "Knowledge transfer received", response)
       | Failure error => raise (HTTPException 500 error)
       end) e st1
    with
    | (st', Returns _) =>
        exists r',
          sessions st' !! sid = Some r' /\
          Session.knowledge_received r' = Some true /\
          Session.parent_session r' = Some (ReceiveKnowledgeRequest.from_session req) /\
          Session.knowledge_transfer r'
          = Some (Api.excerpt (ReceiveKnowledgeRequest.knowledge req))
    | (_, Raises _) => True
    end).
  { intros st1 Hs1. mrun. use_execute_present Hs1.
    destruct res; mrun; [|done].
    eexists. split; [reflexivity|]. done. }
  destruct (fs st !! Session.workspace r) as [n|] eqn:Hw; mrun.
  - destruct (FS.lookup_path Api.transfer_file n) as [[[text|d]|es]|] eqn:Ht; mrun;
      try done.
    + destruct (negb _); mrun; [done|].
      destruct (FS.write_path _ _ _); mrun; [|done].
      munfold. apply Hfin. done.
    + apply (Hfin st Hs).
  - apply (Hfin st Hs).
Qed.

(** C4, amended.  After a [receive_knowledge] that succeeds the record holds
    the excerpt of the knowledge: the text itself when it is at most 500
    characters long, and otherwise its first 500 characters followed by
    three dots, 503 characters in all. *)
Theorem knowledge_excerpt e st sid req st' out :
  run (Api.receive_knowledge sid req) e st = (st', Returns out) ->
  let k := ReceiveKnowledgeRequest.knowledge req in
  exists r',
    sessions st' !! sid = Some r' /\
    Session.knowledge_transfer r' = Some (Api.excerpt k) /\
    ((String.length k <= 500)%nat -> Api.excerpt k = k) /\
    ((500 < String.length k)%nat ->
     Api.excerpt k = Str.take 500 k ++ "..." /\
     String.length (Api.excerpt k) = 503%nat) /\
    (String.length (Api.excerpt k) <= 503)%nat.
Proof.
  intros Hrun k. pose proof (receive_knowledge_stores e st sid req) as H.
  rewrite Hrun in H. destruct H as (r' & Hs & _ & _ & Hk).
  exists r'. split; [exact Hs|]. split; [exact Hk|].
  split; [apply excerpt_short|]. split; [apply excerpt_long|].
  destruct (Nat.le_gt_cases (String.length k) 500) as [Hle|Hgt].
  - rewrite excerpt_short by done. lia.
  - destruct (excerpt_long k Hgt) as [_ ->]. lia.
Qed.

Lemma knowledge_excerpt_witness :
  let req := ReceiveKnowledgeRequest.mk "parent" "hello" in
  exists st' out,
    run (Api.receive_knowledge "u" req) Example.world Example.one = (st', Returns out) /\
    exists r',
      sessions st' !! "u" = Some r' /\
      Session.knowledge_transfer r' = Some (Api.excerpt "hello") /\
      ((String.length "hello" <= 500)%nat -> Api.excerpt "hello" = "hello") /\
      ((500 < String.length "hello")%nat ->
       Api.excerpt "hello" = Str.take 500 "hello" ++ "..." /\
       String.length (Api.excerpt "hello") = 503%nat) /\
      (String.length (Api.excerpt "hello") <= 503)%nat.
Proof.
  intros req. eexists _, _. split; [vm_compute; reflexivity|].
  eapply (knowledge_excerpt Example.world Example.one "u" req).
  vm_compute. reflexivity.
Defined.

(** C4 as stated fails: a text of 501 characters is stored as 503. *)
Lemma knowledge_excerpt_counterexample :
  let req := ReceiveKnowledgeRequest.mk "parent" (Str.mul "a" 501) in
  let out := run (Api.receive_knowledge "u" req) Example.world Example.one in
  snd out = Returns ("success", "Knowledge transfer received", "ok") /\
  exists r' s,
    sessions (fst out) !! "u" = Some r' /\
    Session.knowledge_transfer r' = Some s /\
    String.length s = 503%nat /\
    ~ (String.length s <= 500)%nat.
Proof.
  intros req out. split; [vm_compute; reflexivity|].
  eexists _, _. split; [vm_compute; reflexivity|]. split; [reflexivity|].
  split; [vm_compute; reflexivity|]. vm_compute. lia.
Qed.

(** ** Cloning *)

(** Case analysis on a scrutinee that blocks the run. *)
Ltac mcase :=
  match goal with
  | |- context [match ?x with _ => _ end] =>
      lazymatch x with
      | context [match _ with _ => _ end] => fail
      | _ => destruct x eqn:?
      end
  end.

Ltac mcases := repeat (mrun; try done; mcase).

Lemma create_session_returns name description shared tags e st :
  match run (Manager.create_session name description shared tags) e st with
  | (st', Returns info) =>
      Session.id info = uuid e (uuids st) /\
      Session.tags info = default [] tags /\
      Session.claude_session_id info = None /\
      Session.workspace info = path_join sessions_dir (uuid e (uuids st)) /\
      sessions st' = <[uuid e (uuids st) := info]> (sessions st) /\
      uuids st' = S (uuids st)
  | (_, Raises _) => True
  end.
Proof.
  unfold Manager.create_session, Manager.create_session_context.
  mcases; mrun; repeat split; done.
Qed.

Lemma copy_item_frame src dst it e st :
  sessions (fst (Manager.copy_item src dst it e st)) = sessions st /\
  uuids (fst (Manager.copy_item src dst it e st)) = uuids st.
Proof.
  unfold Manager.copy_item. mrun. mcases; done.
Qed.

Lemma copy_loop_frame src dst items e st :
  sessions (fst (for_each items (Manager.copy_item src dst) e st)) = sessions st /\
  uuids (fst (for_each items (Manager.copy_item src dst) e st)) = uuids st.
Proof.
  revert st. induction items as [|it items IH]; intros st; cbn; [done|].
  unfold bind. destruct (copy_item_frame src dst it e st) as [H1 H2].
  destruct (Manager.copy_item src dst it e st) as [st1 [[]|x]]; cbn in *; [|done].
  destruct (IH st1) as [H3 H4]. by rewrite H3, H4.
Qed.

Lemma manager_clone_returns sid new_name a e st :
  sessions st !! sid = Some a ->
  uuid e (uuids st) <> sid ->
  match run (Manager.clone_session sid new_name) e st with
  | (st', Returns b) =>
      Session.id b = uuid e (uuids st) /\
      Session.tags b = (Session.tags a ++ ["cloned"])%list /\
      Session.claude_session_id b
      = (if Str.truthy_opt (Session.claude_session_id a)
         then Session.claude_session_id a else None) /\
      Session.workspace b = path_join sessions_dir (uuid e (uuids st)) /\
      sessions st' = <[uuid e (uuids st) := b]> (sessions st)
  | (_, Raises _) => True
  end.
Proof.
  intros Hs Hne. unfold Manager.clone_session. mrun.
  pose proof (create_session_returns new_name ("Cloned from " ++ Session.name a)
                (Session.shared a) (Some (Session.tags a ++ ["cloned"])%list) e st) as Hc.
  unfold run in Hc.
  destruct (Manager.create_session _ _ _ _ e st) as [st1 [info|x]]; [|done].
  destruct Hc as (Hid & Htags & Hh & Hws & Hses & Huu).
  rewrite Hid. set (new_id := uuid e (uuids st)) in *.
  assert (Hinfo : sessions st1 !! new_id = Some info)
    by (rewrite Hses; apply lookup_insert_eq).
  unfold Manager.iterdir.
  destruct (Str.truthy_opt (Session.claude_session_id a)) eqn:Htr; mrun.
  - destruct (fs st1 !! Session.workspace a) as [[c|items]|]; mrun; try done.
    match goal with |- context [for_each items ?f ?e ?s] =>
      destruct (copy_loop_frame (Session.workspace a) (Session.workspace info) items e s)
        as [H1 H2];
      destruct (for_each items f e s) as [st2 [[]|x]]; [|done]
    end.
    cbn in H1. mrun. rewrite H1, lookup_insert_eq.
    rewrite H1, Hses, insert_insert_eq. cbn. repeat split; done.
  - destruct (fs st1 !! Session.workspace a) as [[c|items]|]; mrun; try done.
    match goal with |- context [for_each items ?f ?e ?s] =>
      destruct (copy_loop_frame (Session.workspace a) (Session.workspace info) items e s)
        as [H1 H2];
      destruct (for_each items f e s) as [st2 [[]|x]]; [|done]
    end.
    mrun. rewrite H1, Hinfo. rewrite H1, Hses. repeat split; done.
Qed.

Lemma lookup_set n x es : FS.lookup n (FS.set n x es) = Some x.
Proof.
  induction es as [|[m y] es IH]; cbn.
  - by rewrite String.eqb_refl.
  - destruct (String.eqb m n) eqn:E; cbn; rewrite E; done.
Qed.

Lemma write_path_below d d' p c es :
  FS.write_path (d :: d' :: p) c (Dir es)
  = match FS.lookup d es with
    | Some (Dir sub) =>
        match FS.write_path (d' :: p) c (Dir sub) with
        | Some x => Some (Dir (FS.set d x es))
        | None => None
        end
    | _ => None
    end.
Proof. reflexivity. Qed.

Lemma write_path_lookup p c n n' :
  FS.write_path p c n = Some n' -> FS.lookup_path p n' = Some (File c).
Proof.
  revert n n'. induction p as [|d p IH]; intros n n' H; [by destruct n|].
  destruct n as [c0|es]; [destruct p; cbn in H; done|].
  destruct p as [|d' p].
  - cbn in H. destruct (FS.is_dir (FS.lookup d es)); [done|].
    injection H as <-. cbn. by rewrite lookup_set.
  - rewrite write_path_below in H.
    destruct (FS.lookup d es) as [[c1|sub]|]; try done.
    destruct (FS.write_path (d' :: p) c (Dir sub)) as [x|] eqn:Hw; [|done].
    injection H as <-. cbn [FS.lookup_path]. rewrite lookup_set.
    by apply (IH (Dir sub)).
Qed.

Lemma try_reraise {A} (m : M A) hs (f : exn -> exn) e st (P : state -> A -> Prop) :
  match m e st with (st', Returns b) => P st' b | (_, Raises _) => True end ->
  match try_except m hs (fun x => raise (f x)) e st with
  | (st', Returns b) => P st' b
  | (_, Raises _) => True
  end.
Proof.
  unfold try_except, raise. destruct (m e st) as [st' [b|x]]; [done|].
  intros _. by destruct (hs x).
Qed.




(** A fresh workspace is provisioned without an error. *)
Lemma create_session_provisions name description shared tags e st :
  fs st !! path_join sessions_dir (uuid e (uuids st)) = None ->
  exists st' info,
    run (Manager.create_session name description shared tags) e st
    = (st', Returns info) /\
    fs st' = <[path_join sessions_dir (uuid e (uuids st)) := provisioned info]> (fs st).
Proof.
  intros Hf. unfold Manager.create_session, Manager.create_session_context.
  mrun. cbn. mrun. cbn. mrun. cbn. mrun. cbn. mrun.
  eexists _, _. split; [reflexivity|]. cbn. rewrite !insert_insert_eq. reflexivity.
Qed.

Lemma lookup_set_ne m n x es : m <> n -> FS.lookup m (FS.set n x es) = FS.lookup m es.
Proof.
  intros Hne. induction es as [|[k y] es IH]; cbn.
  - destruct (String.eqb_spec n m); [congruence|done].
  - destruct (String.eqb_spec k n) as [->|Hk]; cbn.
    + destruct (String.eqb_spec n m); [congruence|done].
    + destruct (String.eqb_spec k m); [done|exact IH].
Qed.

Lemma copy2_other same n c es es' m :
  Shutil.copy2 same n c es = Some es' -> m <> n ->
  FS.lookup m es' = FS.lookup m es.
Proof.
  unfold Shutil.copy2. intros H Hne. destruct same; [done|].
  destruct (FS.lookup n es) as [[c0|sub]|];
    try (injection H as <-; by apply lookup_set_ne).
  destruct (FS.is_dir _); [done|]. injection H as <-. by apply lookup_set_ne.
Qed.

Lemma copy2_file n c es es' :
  Shutil.copy2 false n c es = Some es' ->
  FS.is_dir (FS.lookup n es) = false ->
  FS.lookup n es' = Some (File c).
Proof.
  unfold Shutil.copy2. intros H Hd.
  destruct (FS.lookup n es) as [[c0|sub]|]; try done;
    injection H as <-; apply lookup_set.
Qed.

Lemma copy_entry_other same n s es m :
  m <> n -> FS.lookup m (fst (Shutil.copy_entry same n s es)) = FS.lookup m es.
Proof.
  intros Hne. destruct s as [c|sub]; cbn.
  - destruct (Shutil.copy2 same n c es) as [es'|] eqn:H; cbn; [|done].
    by apply (copy2_other same n c es).
  - destruct (FS.lookup n es) as [[c0|ds]|]; cbn; try done; by apply lookup_set_ne.
Qed.

(** A round of the copy loop changes the entry named as the item only. *)
Lemma copy_item_other src dst n x e st es m :
  fs st !! dst = Some (Dir es) -> m <> n ->
  exists es',
    fs (fst (Manager.copy_item src dst (n, x) e st)) !! dst = Some (Dir es') /\
    FS.lookup m es' = FS.lookup m es.
Proof.
  intros Hd Hne. unfold Manager.copy_item. mrun. destruct x as [c|sub].
  - destruct (Shutil.copy2 _ n c es) as [es'|] eqn:H; mrun.
    + exists es'. rewrite ?lookup_insert_eq. split; [done|].
      by apply (copy2_other (String.eqb src dst) n c es).
    + exists es. done.
  - destruct (String.eqb n ".claude"); mrun; [by exists es|].
    eexists. split.
    + destruct (snd _); mrun; rewrite ?lookup_insert_eq; done.
    + by apply copy_entry_other.
Qed.

Lemma copy_item_file src dst n c e st st' es :
  Manager.copy_item src dst (n, File c) e st = (st', Returns tt) ->
  src <> dst ->
  fs st !! dst = Some (Dir es) ->
  FS.is_dir (FS.lookup n es) = false ->
  exists es', fs st' !! dst = Some (Dir es') /\ FS.lookup n es' = Some (File c).
Proof.
  intros Hrun Hne Hd Hnd. unfold Manager.copy_item in Hrun. revert Hrun. mrun.
  apply String.eqb_neq in Hne. rewrite Hne.
  destruct (Shutil.copy2 false n c es) as [es'|] eqn:H; mrun; [|done].
  intros [= <-]. exists es'. cbn. rewrite ?lookup_insert_eq. split; [done|].
  by apply (copy2_file n c es).
Qed.

Lemma copy_loop_other src dst items e st es m :
  fs st !! dst = Some (Dir es) -> m ∉ items.*1 ->
  exists es',
    fs (fst (for_each items (Manager.copy_item src dst) e st)) !! dst = Some (Dir es') /\
    FS.lookup m es' = FS.lookup m es.
Proof.
  revert st es. induction items as [|[n x] items IH]; intros st es Hd Hm; cbn.
  - by exists es.
  - apply not_elem_of_cons in Hm as [Hne Hm]. cbn in Hne.
    destruct (copy_item_other src dst n x e st es m Hd Hne) as (es1 & Hd1 & Hl1).
    unfold bind.
    destruct (Manager.copy_item src dst (n, x) e st) as [st1 [[]|err]]; cbn in *.
    + destruct (IH st1 es1 Hd1 Hm) as (es2 & Hd2 & Hl2).
      exists es2. split; [done|]. congruence.
    + by exists es1.
Qed.

Lemma copy_loop_file src dst items e st st' es n c :
  for_each items (Manager.copy_item src dst) e st = (st', Returns tt) ->
  src <> dst ->
  NoDup items.*1 ->
  (n, File c) ∈ items ->
  fs st !! dst = Some (Dir es) ->
  FS.is_dir (FS.lookup n es) = false ->
  exists es', fs st' !! dst = Some (Dir es') /\ FS.lookup n es' = Some (File c).
Proof.
  revert st es. induction items as [|[m x] items IH]; intros st es Hrun Hne Hnd Hin Hd His.
  - by apply elem_of_nil in Hin.
  - cbn in Hrun. unfold bind in Hrun. cbn in Hnd. apply NoDup_cons in Hnd as [Hm Hnd].
    destruct (Manager.copy_item src dst (m, x) e st) as [st1 [[]|err]] eqn:Hitem;
      [|done].
    apply elem_of_cons in Hin as [[= <- <-]|Hin].
    + destruct (copy_item_file src dst n c e st st1 es Hitem Hne Hd His)
        as (es1 & Hd1 & Hl1).
      destruct (copy_loop_other src dst items e st1 es1 n Hd1 Hm) as (es2 & Hd2 & Hl2).
      rewrite Hrun in Hd2. cbn in Hd2. exists es2. split; [done|]. congruence.
    + assert (Hmn : n <> m).
      { intros ->. apply Hm. apply list_elem_of_fmap. by exists (m, File c). }
      destruct (copy_item_other src dst m x e st es n Hd Hmn) as (es1 & Hd1 & Hl1).
      rewrite Hitem in Hd1. cbn in Hd1.
      apply (IH st1 es1); try done. by rewrite Hl1.
Qed.

Lemma provisioned_no_dir info n :
  n <> ".session" ->
  match provisioned info with
  | Dir es => FS.is_dir (FS.lookup n es) = false
  | File _ => False
  end.
Proof.
  intros Hn. unfold provisioned. cbn [FS.lookup].
  destruct (String.eqb "CLAUDE.md" n); [reflexivity|].
  destruct (String.eqb_spec ".session" n); [congruence|reflexivity].
Qed.

Lemma manager_clone_copies sid new_name a items e st :
  sessions st !! sid = Some a ->
  fs st !! Session.workspace a = Some (Dir items) ->
  NoDup items.*1 ->
  fs st !! path_join sessions_dir (uuid e (uuids st)) = None ->
  match run (Manager.clone_session sid new_name) e st with
  | (st', Returns b) =>
      forall n c, (n, File c) ∈ items -> n <> ".session" ->
        exists dst,
          fs st' !! Session.workspace b = Some (Dir dst) /\
          FS.lookup n dst = Some (File c)
  | (_, Raises _) => True
  end.
Proof.
  intros Hs Hw Hnd Hfresh. unfold Manager.clone_session. mrun.
  destruct (create_session_provisions new_name ("Cloned from " ++ Session.name a)
              (Session.shared a) (Some (Session.tags a ++ ["cloned"])%list) e st Hfresh)
    as (st1 & info & Hrun & Hfs1).
  pose proof (create_session_returns new_name ("Cloned from " ++ Session.name a)
                (Session.shared a) (Some (Session.tags a ++ ["cloned"])%list) e st) as Hc.
  rewrite Hrun in Hc. unfold run in Hrun. rewrite Hrun. clear Hrun.
  destruct Hc as (Hid & _ & _ & Hws & Hses & _).
  rewrite Hid, Hws. set (new_id := uuid e (uuids st)) in *.
  set (dst := path_join sessions_dir new_id) in *.
  assert (Hne : Session.workspace a <> dst) by congruence.
  assert (Hinfo : sessions st1 !! new_id = Some info)
    by (rewrite Hses; apply lookup_insert_eq).
  assert (Hsrc : fs st1 !! Session.workspace a = Some (Dir items))
    by (rewrite Hfs1, lookup_insert_ne; done).
  assert (Hdst : fs st1 !! dst = Some (provisioned info))
    by (rewrite Hfs1; apply lookup_insert_eq).
  unfold Manager.iterdir.
  assert (Hloop : forall s, fs s = fs st1 ->
    match for_each items (Manager.copy_item (Session.workspace a) dst) e s with
    | (st2, Returns _) =>
        forall n c, (n, File c) ∈ items -> n <> ".session" ->
          exists es, fs st2 !! dst = Some (Dir es) /\ FS.lookup n es = Some (File c)
    | (_, Raises _) => True
    end).
  { intros s Hfs.
    destruct (for_each items _ e s) as [st2 [[]|x]] eqn:Hrun; [|done].
    intros n c Hin Hn. pose proof (provisioned_no_dir info n Hn) as Hp.
    destruct (provisioned info) as [|es0] eqn:Hes0; [done|].
    eapply copy_loop_file; try done. by rewrite Hfs. }
  destruct (Str.truthy_opt (Session.claude_session_id a)); mrun.
  - match goal with |- context [for_each items ?f ?e ?s] =>
      specialize (Hloop s eq_refl);
      destruct (copy_loop_frame (Session.workspace a) dst items e s) as [H1 _];
      destruct (for_each items f e s) as [st2 [[]|x]]; [|done]
    end.
    cbn in H1. mrun. rewrite H1, lookup_insert_eq. cbn. rewrite Hws. exact Hloop.
  - match goal with |- context [for_each items ?f ?e ?s] =>
      specialize (Hloop s eq_refl);
      destruct (copy_loop_frame (Session.workspace a) dst items e s) as [H1 _];
      destruct (for_each items f e s) as [st2 [[]|x]]; [|done]
    end.
    mrun. rewrite H1, Hinfo. rewrite Hws. exact Hloop.
Qed.

(** The copy loop of [clone_session] copies every file at the top of the
    source workspace to the workspace of the child, [CLAUDE.md] included. *)
Lemma clone_copies_files sid new_name a items e st st' b :
  sessions st !! sid = Some a ->
  fs st !! Session.workspace a = Some (Dir items) ->
  NoDup items.*1 ->
  fs st !! path_join sessions_dir (uuid e (uuids st)) = None ->
  run (Manager.clone_session sid new_name) e st = (st', Returns b) ->
  forall n c, (n, File c) ∈ items -> n <> ".session" ->
    exists dst,
      fs st' !! Session.workspace b = Some (Dir dst) /\
      FS.lookup n dst = Some (File c).
Proof.
  intros Hs Hw Hnd Hfresh Hrun.
  pose proof (manager_clone_copies sid new_name a items e st Hs Hw Hnd Hfresh) as H.
  by rewrite Hrun in H.
Qed.

Lemma manager_clone_provisioned sid new_name a a0 e st :
  sessions st !! sid = Some a ->
  fs st !! Session.workspace a = Some (provisioned a0) ->
  fs st !! path_join sessions_dir (uuid e (uuids st)) = None ->
  exists st' b es,
    run (Manager.clone_session sid new_name) e st = (st', Returns b) /\
    fs st' !! Session.workspace b = Some (Dir es) /\
    FS.lookup_path [".session"] (Dir es)
    = FS.lookup_path [".session"] (provisioned a0).
Proof.
  intros Hs Hw Hfresh. unfold Manager.clone_session. mrun.
  destruct (create_session_provisions new_name ("Cloned from " ++ Session.name a)
              (Session.shared a) (Some (Session.tags a ++ ["cloned"])%list) e st Hfresh)
    as (st1 & info & Hrun & Hfs1).
  pose proof (create_session_returns new_name ("Cloned from " ++ Session.name a)
                (Session.shared a) (Some (Session.tags a ++ ["cloned"])%list) e st) as Hc.
  rewrite Hrun in Hc. unfold run in Hrun. rewrite Hrun. clear Hrun.
  destruct Hc as (Hid & _ & _ & Hws & Hses & _).
  rewrite Hid, Hws. set (new_id := uuid e (uuids st)) in *.
  set (dst := path_join sessions_dir new_id) in *.
  assert (Hne : Session.workspace a <> dst) by congruence.
  assert (Hinfo : sessions st1 !! new_id = Some info)
    by (rewrite Hses; apply lookup_insert_eq).
  assert (Hsrc : fs st1 !! Session.workspace a = Some (provisioned a0))
    by (rewrite Hfs1, lookup_insert_ne; done).
  apply String.eqb_neq in Hne.
  assert (Hdst : fs st1 !! dst = Some (provisioned info))
    by (rewrite Hfs1; apply lookup_insert_eq).
  unfold Manager.iterdir, provisioned in *.
  destruct (Str.truthy_opt (Session.claude_session_id a)); mrun.
  - unfold for_each, Manager.copy_item. mrun. rewrite Hne. cbn. mrun. cbn. mrun.
    eexists _, _, _. split; [reflexivity|]. cbn. rewrite Hws, lookup_insert_eq.
    split; reflexivity.
  - unfold for_each, Manager.copy_item. mrun. rewrite Hne. cbn. mrun. cbn. mrun.
    eexists _, _, _. split; [reflexivity|]. cbn. rewrite Hws, lookup_insert_eq.
    split; reflexivity.
Qed.

(** A clone of a session whose workspace is as [create_session] left it,
    with a fresh identifier for the child, returns. *)
Lemma clone_session_returns sid new_name a a0 e st :
  sessions st !! sid = Some a ->
  fs st !! Session.workspace a = Some (provisioned a0) ->
  fs st !! path_join sessions_dir (uuid e (uuids st)) = None ->
  uuid e (uuids st) <> sid ->
  exists st' b, run (Api.clone_session sid new_name) e st = (st', Returns b).
Proof.
  intros Hs Hw Hfresh Hne.
  destruct (manager_clone_provisioned sid new_name a a0 e st Hs Hw Hfresh)
    as (st1 & b & es & Hrun & Hfs & Hsub).
  pose proof (manager_clone_returns sid new_name a e st Hs Hne) as Hm.
  rewrite Hrun in Hm. destruct Hm as (Hid & _ & _ & _ & Hses).
  unfold Api.clone_session, Api.clone_session_during, try_except, run in *.
  change (Api.execute_claude_during idle) with Api.execute_claude.
  unfold bind at 1. rewrite Hrun.
  set (new_id := uuid e (uuids st)) in *.
  assert (Hb : sessions st1 !! new_id = Some b)
    by (rewrite Hses; apply lookup_insert_eq).
  assert (Ha : sessions st1 !! sid = Some a)
    by (rewrite Hses, lookup_insert_ne; done).
  rewrite Hid. mrun.
  cbn in Hsub. destruct (FS.lookup ".session" es) as [x|] eqn:Hx; [|done].
  injection Hsub as ->. unfold Api.transfer_file. rewrite write_path_below, Hx.
  match goal with
  | |- context [FS.write_path ["awaiting_transfer.json"] ?c ?d] =>
      let v := eval cbn in (FS.write_path ["awaiting_transfer.json"] c d) in
      change (FS.write_path ["awaiting_transfer.json"] c d) with v
  end.
  mrun.
  match goal with
  | |- context [Api.execute_claude ?p ?ws ?k ?c ?e ?s] =>
      destruct (execute_claude_present p ws k c e s new_id b)
        as (st2 & res & b2 & Hexec & Hb2 & _); [exact Hb|]
  end.
  unfold run in Hexec. rewrite Hexec. mrun. eexists _, _. reflexivity.
Qed.





(** C5, at a failing input.  Every file at the top of the source workspace
    is copied to the child ([clone_copies_files]), and that includes
    [CLAUDE.md]: [create_session] writes the context document of the child
    (with the identifier of the child) to the workspace of the child, and
    the copy loop of [clone_session] then copies the [CLAUDE.md] of the
    source over it, so the child ends with the context document of the
    source. *)
Theorem clone_overwrites_context :
  let created :=
    run (Manager.create_session "B-fork" "Cloned from A" true (Some ["demo"; "cloned"]))
        Example.world Example.one in
  let cloned := run (Manager.clone_session "u" "B-fork") Example.world Example.one in
  exists a b own dst,
    sessions Example.one !! "u" = Some a /\
    snd created = Returns b /\
    snd cloned = Returns b /\
    Session.id b = "u+" /\
    fs (fst created) !! Session.workspace b = Some own /\
    FS.lookup_path ["CLAUDE.md"] own = Some (File (Text (Manager.claude_md b))) /\
    fs (fst cloned) !! Session.workspace b = Some dst /\
    FS.lookup_path ["CLAUDE.md"] dst = Some (File (Text (Manager.claude_md a))) /\
    Manager.claude_md a <> Manager.claude_md b.
Proof.
  eexists _, _, _, _. split; [reflexivity|]. split; [vm_compute; reflexivity|].
  split; [vm_compute; reflexivity|]. split; [reflexivity|].
  split; [vm_compute; reflexivity|]. split; [vm_compute; reflexivity|].
  split; [vm_compute; reflexivity|]. split; [vm_compute; reflexivity|].
  vm_compute. discriminate.
Qed.

(** ** The process executor, continued *)

(** A run that exits with status 0, for a session of the table, when
    nothing else is served meanwhile. *)
Lemma execute_claude_exit_zero p ws sid c e st r out err logs :
  sessions st !! sid = Some r ->
  create_subprocess_exec (Api.build_invocation (Some r) p ws sid c) e st
  = Exits 0 out err logs ->
  exists st',
    run (Api.execute_claude p ws sid c) e st
    = (st', Returns match out with
                    | Decoded s => Success s
                    | Undecodable w => Failure w
                    end) /\
    sessions st'
    = <[sid := touched (clock e (ticks st)) (handle_after ws (logs (projects st)) r) r]>
        (sessions st) /\
    metadata_file st' = Some (sessions st').
Proof.
  intros Hs Hp.
  destruct (execute_claude_during_run idle p ws sid c e st)
    as (st' & res & Hrun & Hout).
  cbv zeta in Hout. rewrite Hs in Hout.
  destruct (resumed_idle (Api.build_invocation (Some r) p ws sid c) e st)
    as (H1 & _ & _ & H4 & H5).
  rewrite Hp in Hout, H5. change (0 =? 0) with true in Hout. cbv iota in Hout.
  rewrite H1, Hs, H4, H5 in Hout. destruct Hout as (-> & Hses & Hmeta & _).
  exists st'. split; [exact Hrun|]. split; [exact Hses | exact Hmeta].
Qed.

(** X1.  [execute_claude] never raises, whatever is served while it awaits
    the process.  When the process cannot be started (also when the
    workspace does not exist) or exits with a non-zero status, the result
    is a failure that carries the text of the exception or of the error
    output, and [execute_claude] changes nothing itself: it leaves the
    state in which it resumed. *)
Theorem execute_claude_captures_failures during p ws sid c e st :
  let inv := Api.build_invocation (sessions st !! sid) p ws sid c in
  exists st' res,
    run (Api.execute_claude_during during p ws sid c) e st = (st', Returns res) /\
    match create_subprocess_exec inv e st with
    | SpawnRaises why => res = Failure why /\ st' = resumed during inv e st
    | Exits rc _ err _ =>
        rc = 0 \/
        (res = Failure (decoded_text err) /\ st' = resumed during inv e st)
    end.
Proof.
  intros inv.
  destruct (execute_claude_during_run during p ws sid c e st)
    as (st' & res & Hrun & Hout).
  exists st', res. split; [exact Hrun|]. cbv zeta in Hout. fold inv in Hout.
  destruct (create_subprocess_exec inv e st) as [why|rc out err logs]; [tauto|].
  destruct (Z.eqb_spec rc 0); [by left|right; tauto].
Qed.

(** X2.  A run that exits with status 0 counts as one message of the
    session, whether or not the output decodes.  The record is read when
    the process has returned: if the session is in the table then,
    on that record, [message_count] grows by one, [last_accessed] is the time at which the
    handler resumed, the handle is [handle_after], nothing else of the
    record and no other record changes, and the table is saved. *)
Theorem execute_claude_counts_a_run during p ws sid c e st r1 out err logs :
  let inv := Api.build_invocation (sessions st !! sid) p ws sid c in
  let st1 := resumed during inv e st in
  create_subprocess_exec inv e st = Exits 0 out err logs ->
  sessions st1 !! sid = Some r1 ->
  exists st' r',
    run (Api.execute_claude_during during p ws sid c) e st
    = (st', Returns match out with
                    | Decoded s => Success s
                    | Undecodable w => Failure w
                    end) /\
    sessions st' = <[sid := r']> (sessions st1) /\
    metadata_file st' = Some (sessions st') /\
    fs st' = fs st1 /\
    r' = Session.set_claude_session_id (handle_after ws (projects st1) r1)
           (Session.set_message_count (Session.message_count r1 + 1)
              (Session.set_last_accessed (clock e (ticks st1)) r1)) /\
    Session.message_count r' = Session.message_count r1 + 1 /\
    Session.last_accessed r' = clock e (ticks st1).
Proof.
  intros inv st1 Hp Hs1.
  destruct (execute_claude_during_run during p ws sid c e st)
    as (st' & res & Hrun & Hout).
  cbv zeta in Hout. fold inv st1 in Hout. rewrite Hp in Hout.
  change (0 =? 0) with true in Hout. cbv iota in Hout. rewrite Hs1 in Hout.
  destruct Hout as (-> & Hses & Hmeta & Hfs & _).
  eexists st', _. split; [exact Hrun|]. split; [exact Hses|]. split; [exact Hmeta|].
  split; [exact Hfs|]. repeat split.
Qed.

Lemma execute_claude_counts_a_run_witness :
  let during := serve [RegisterClaudeSession "u" ["CLAUDE.md"]] in
  exists st' r',
    run (Api.execute_claude_during during "hi" "/tmp/claude-sessions/u" "u" true)
        Example.chatty Example.one
    = (st', Returns (Success "ok")) /\
    sessions st' !! "u" = Some r' /\
    metadata_file st' = Some (sessions st') /\
    Session.claude_session_id r' = Some "h1" /\
    Session.message_count r' = 1 /\
    Session.last_accessed r' = "t++".
Proof.
  intros during.
  edestruct (execute_claude_counts_a_run during "hi" "/tmp/claude-sessions/u" "u" true
               Example.chatty Example.one)
    as (st' & r' & Hrun & Hses & Hmeta & _ & Hr' & Hmc & Hla);
    [reflexivity | vm_compute; reflexivity |].
  exists st', r'. split; [exact Hrun|].
  split; [rewrite Hses; apply lookup_insert_eq|]. split; [exact Hmeta|].
  split; [rewrite Hr'; vm_compute; reflexivity|].
  split; [rewrite Hmc; reflexivity | rewrite Hla; vm_compute; reflexivity].
Defined.

(** X3.  [execute_claude] assigns a handle only to a record that has none:
    a record that has a (non-empty) handle when the process has returned,
    from before the run or from a registration served during it, has the
    same handle when [execute_claude] returns, whatever the process did
    and whatever logs it left. *)
Theorem execute_claude_keeps_handle during p ws sid c e st r1 :
  let inv := Api.build_invocation (sessions st !! sid) p ws sid c in
  let st1 := resumed during inv e st in
  sessions st1 !! sid = Some r1 ->
  Str.truthy_opt (Session.claude_session_id r1) = true ->
  exists r',
    sessions (fst (run (Api.execute_claude_during during p ws sid c) e st)) !! sid
    = Some r' /\
    Session.claude_session_id r' = Session.claude_session_id r1.
Proof.
  intros inv st1 Hs1 Ht.
  destruct (execute_claude_during_run during p ws sid c e st)
    as (st' & res & Hrun & Hout).
  rewrite Hrun. cbn [fst]. cbv zeta in Hout. fold inv st1 in Hout.
  destruct (create_subprocess_exec inv e st) as [why|rc out err logs].
  - destruct Hout as (_ & ->). eauto.
  - destruct (rc =? 0).
    + rewrite Hs1 in Hout. destruct Hout as (_ & Hses & _).
      eexists. rewrite Hses, lookup_insert_eq. split; [reflexivity|].
      unfold handle_after. rewrite Ht. reflexivity.
    + destruct Hout as (_ & ->). eauto.
Qed.

Lemma execute_claude_keeps_handle_witness :
  let during := serve [RegisterClaudeSession "u" ["CLAUDE.md"]] in
  sessions Example.one !! "u" = Some Example.a /\
  Session.claude_session_id Example.a = None /\
  exists r',
    sessions (fst (run (Api.execute_claude_during during "hi"
                          "/tmp/claude-sessions/u" "u" true)
                       Example.chatty Example.one)) !! "u" = Some r' /\
    Session.claude_session_id r' = Some "h1".
Proof.
  intros during. split; [reflexivity|]. split; [reflexivity|].
  edestruct (execute_claude_keeps_handle during "hi" "/tmp/claude-sessions/u" "u" true
               Example.chatty Example.one)
    as (r' & Hs' & Hh); [vm_compute; reflexivity | reflexivity |].
  exists r'. split; [exact Hs' | exact Hh].
Defined.

(** ** Conversation logs *)

Lemma newest_fold (l : list jsonl_file) (best : jsonl_file) :
  let f := fold_left (fun best g => if mtime best <? mtime g then g else best) l best in
  (f = best \/ f ∈ l) /\ mtime best <= mtime f /\
  forall g, g ∈ l -> mtime g <= mtime f.
Proof.
  revert best. induction l as [|x l IH]; intros best; cbn.
  - split; [by left|]. split; [lia|]. intros g Hg. by apply elem_of_nil in Hg.
  - destruct (Z.ltb_spec (mtime best) (mtime x)) as [Hlt|Hge].
    + destruct (IH x) as (Hin & Hle & Hall). split; [|split].
      * right. destruct Hin as [->|Hin]; [apply list_elem_of_here|by apply list_elem_of_further].
      * lia.
      * intros g Hg. apply elem_of_cons in Hg as [->|Hg]; [done|by apply Hall].
    + destruct (IH best) as (Hin & Hle & Hall). split; [|split].
      * destruct Hin as [->|Hin]; [by left|right; by apply list_elem_of_further].
      * done.
      * intros g Hg. apply elem_of_cons in Hg as [->|Hg]; [lia|by apply Hall].
Qed.

(** X4.  The log that [newest] selects is one of the given logs, and none
    of them was modified later; it selects nothing only when there is no
    log. *)
Theorem newest_is_most_recent (files : list jsonl_file) :
  match Api.newest files with
  | Some f => f ∈ files /\ forall g, g ∈ files -> mtime g <= mtime f
  | None => files = []
  end.
Proof.
  destruct files as [|x l]; cbn; [done|].
  destruct (newest_fold l x) as (Hin & Hle & Hall). split.
  - destruct Hin as [->|Hin]; [apply list_elem_of_here|by apply list_elem_of_further].
  - intros g Hg. apply elem_of_cons in Hg as [->|Hg]; [done|by apply Hall].
Qed.

Lemma prefix_empty (s : string) : String.prefix "" s = true.
Proof. by destruct s. Qed.

Lemma replace_without_slash old new (s : string) :
  occurs "/" s = false ->
  Str.replace_from (String "/" old) new 0 s = s.
Proof.
  induction s as [|c s IH]; [done|]. cbn [occurs]. intros H.
  apply orb_false_elim in H as [Hc Hs]. apply Ascii.eqb_neq in Hc.
  cbn [Str.replace_from String.prefix].
  destruct (ascii_dec "/" c) as [E|_]; [congruence|]. by rewrite IH.
Qed.

Lemma tmp_not_prefix (s : string) :
  occurs "/" s = false -> String.prefix "tmp/" s = false.
Proof.
  intros H. destruct (String.prefix "tmp/" s) eqn:E; [exfalso|done].
  destruct s as [|a [|b [|c [|d s]]]]; cbn [String.prefix] in E;
    repeat (destruct (ascii_dec _ _) in E; [subst|discriminate]);
    try discriminate.
Qed.

(** X6.  The directory of the conversation logs of a session is named after
    its identifier alone: for an identifier without a slash it is
    [-private-tmp-claude-sessions-] followed by the identifier, so distinct
    sessions read distinct logs. *)
Theorem project_dir_of_session (session_id : string) :
  occurs "/" session_id = false ->
  project_dir (path_join sessions_dir session_id)
  = "-private-tmp-claude-sessions-" ++ session_id.
Proof.
  intros H. unfold project_dir, path_join, sessions_dir, Str.replace.
  unfold String.append. cbn.
  rewrite tmp_not_prefix, (replace_without_slash "tmp/") by done.
  unfold String.append. cbn.
  rewrite prefix_empty. unfold String.append. cbn.
  rewrite (replace_without_slash "") by done. reflexivity.
Qed.

Lemma project_dir_of_session_witness :
  occurs "/" "u" = false /\
  project_dir (path_join sessions_dir "u") = "-private-tmp-claude-sessions-" ++ "u".
Proof. split; [reflexivity | apply project_dir_of_session; reflexivity]. Defined.

(** ** Answers to requests that cannot be served *)

(** X7.  Every handler that works on one session answers 404 for an
    identifier that is not in the table, and leaves the whole state as it
    is: [Session not found] from [get], [send], [update], [clone],
    [receive_knowledge] and [register_claude_session], and
    [Session history not found] from [history]. *)
Theorem unknown_session_not_found e st sid :
  sessions st !! sid = None ->
  let not_found {A} : state * result A :=
    (st, Raises (HTTPException 404 "Session not found")) in
  run (Api.get_session sid) e st = not_found /\
  (forall req, run (Api.send_message sid req) e st = not_found) /\
  (forall req, run (Api.update_session sid req) e st = not_found) /\
  (forall new_name, run (Api.clone_session sid new_name) e st = not_found) /\
  (forall req, run (Api.receive_knowledge sid req) e st = not_found) /\
  (forall marker, run (Api.register_claude_session sid marker) e st = not_found) /\
  run (Api.get_session_history sid) e st
  = (st, Raises (HTTPException 404 "Session history not found")).
Proof.
  intros H not_found. unfold not_found.
  repeat split; intros;
    unfold Api.get_session, Api.send_message, Api.update_session, Api.clone_session,
      Api.clone_session_during,
      Manager.clone_session, Api.receive_knowledge, Api.register_claude_session,
      Api.get_session_history, Manager.get_session_history;
    mrun; reflexivity.
Qed.

Lemma unknown_session_not_found_witness :
  sessions Example.one !! "nobody" = None /\
  run (Api.get_session "nobody") Example.world Example.one
  = (Example.one, Raises (HTTPException 404 "Session not found")) /\
  run (Api.clone_session "nobody" "copy") Example.world Example.one
  = (Example.one, Raises (HTTPException 404 "Session not found")) /\
  run (Api.get_session_history "nobody") Example.world Example.one
  = (Example.one, Raises (HTTPException 404 "Session history not found")).
Proof.
  split; [reflexivity|].
  destruct (unknown_session_not_found Example.world Example.one "nobody")
    as (H1 & _ & _ & H4 & _ & _ & H7); [reflexivity|].
  split; [exact H1|]. split; [apply H4 | exact H7].
Defined.

(** X8.  [send] to a session whose workspace directory is missing answers
    500 [Session workspace not found] before anything else happens: no
    participant is added, no process is started, the state is unchanged. *)
Theorem send_message_workspace_missing e st sid req r :
  sessions st !! sid = Some r ->
  fs st !! Session.workspace r = None ->
  run (Api.send_message sid req) e st
  = (st, Raises (HTTPException 500 "Session workspace not found")).
Proof. intros H1 H2. unfold Api.send_message. mrun. reflexivity. Qed.

Lemma send_message_workspace_missing_witness :
  sessions Example.orphan !! "u" = Some Example.a /\
  fs Example.orphan !! Session.workspace Example.a = None /\
  run (Api.send_message "u" (MessageRequest.mk "hi" (Some "alice")))
      Example.world Example.orphan
  = (Example.orphan, Raises (HTTPException 500 "Session workspace not found")).
Proof.
  split; [reflexivity|]. split; [reflexivity|].
  apply (send_message_workspace_missing Example.world Example.orphan "u" _ Example.a);
    reflexivity.
Defined.

(** ** Registering the handle *)

(** X9.  [register_claude_session] on a session of the table, for a marker
    named by a path of plain names below the workspace: without the marker
    file it answers 400, with the marker but without a log of the workspace
    it answers 500, and in both cases the state is unchanged.  Otherwise the
    handle of the record becomes the stem of the newest log, also when the
    record had a handle already; nothing else of the record changes, the
    table is saved, and the answer carries the new handle. *)
Theorem register_claude_session_outcome e st sid marker r :
  sessions st !! sid = Some r ->
  plain_path (Session.workspace r) marker = true ->
  let marker_path :=
    match fs st !! Session.workspace r with
    | Some n => FS.lookup_path marker n
    | None => None
    end in
  let newest_file :=
    match projects st !! project_dir (Session.workspace r) with
    | Some files => Api.newest files
    | None => None
    end in
  match marker_path, newest_file with
  | None, _ =>
      run (Api.register_claude_session sid marker) e st
      = (st, Raises (HTTPException 400 "Marker file not found"))
  | Some _, None =>
      run (Api.register_claude_session sid marker) e st
      = (st, Raises (HTTPException 500 "Could not find Claude session"))
  | Some _, Some f =>
      exists st',
        run (Api.register_claude_session sid marker) e st
        = (st', Returns (stem f, sid)) /\
        sessions st'
        = <[sid := Session.set_claude_session_id (Some (stem f)) r]> (sessions st) /\
        metadata_file st' = Some (sessions st') /\
        fs st' = fs st
  end.
Proof.
  intros Hs _ marker_path newest_file. subst marker_path newest_file.
  unfold Api.register_claude_session, Api.discover. mrun.
  destruct (fs st !! Session.workspace r) as [n|]; [|reflexivity].
  destruct (FS.lookup_path marker n) as [x|]; [|reflexivity].
  destruct (projects st !! project_dir (Session.workspace r)) as [files|];
    [|reflexivity].
  destruct (Api.newest files) as [f|]; [|reflexivity].
  mrun. eexists. split; [reflexivity|]. done.
Qed.

Lemma register_claude_session_outcome_witness :
  exists r st',
    sessions Example.talked !! "u" = Some r /\
    plain_path (Session.workspace r) ["CLAUDE.md"] = true /\
    Session.claude_session_id r = Some "h1" /\
    run (Api.register_claude_session "u" ["CLAUDE.md"]) Example.world Example.talked
    = (st', Returns ("h1", "u")) /\
    sessions st'
    = <["u" := Session.set_claude_session_id (Some "h1") r]> (sessions Example.talked) /\
    metadata_file st' = Some (sessions st') /\
    fs st' = fs Example.talked.
Proof.
  eexists.
  assert (Hs : sessions Example.talked !! "u" = Some _) by (vm_compute; reflexivity).
  pose proof (register_claude_session_outcome Example.world Example.talked "u"
                ["CLAUDE.md"] _ Hs eq_refl) as H.
  vm_compute in H. destruct H as (st' & H1 & H2 & H3 & H4).
  exists st'. split; [exact Hs|]. split; [reflexivity|]. split; [reflexivity|].
  split; [vm_compute; exact H1|]. split; [vm_compute; exact H2|].
  split; [exact H3 | vm_compute; exact H4].
Defined.

(** ** Listing *)

Lemma elem_of_values st r :
  r ∈ Manager.values st <-> exists sid, sessions st !! sid = Some r.
Proof.
  unfold Manager.values. rewrite list_elem_of_fmap. split.
  - intros ([sid r'] & -> & Hin). exists sid. by apply elem_of_map_to_list in Hin.
  - intros (sid & Hs). exists (sid, r). split; [done|]. by apply elem_of_map_to_list.
Qed.

Lemma elem_of_filter_bool {A} (f : A -> bool) (l : list A) (x : A) :
  x ∈ List.filter f l <-> x ∈ l /\ f x = true.
Proof. rewrite !list_elem_of_In. apply filter_In. Qed.

(** X10.  [list_sessions] never changes the state, and [count] is the
    number of records listed.  With a non-empty tag it lists exactly the
    records that carry the tag, archived ones included, whatever
    [active_only] says; without a tag (or with the empty one) it lists the
    records with status [active] when [active_only] is set and every
    record otherwise. *)
Theorem list_sessions_selects e st active_only tag :
  exists l,
    run (Api.list_sessions active_only tag) e st = (st, Returns (l, length l)) /\
    forall r,
      r ∈ l <->
      (exists sid, sessions st !! sid = Some r) /\
      match tag with
      | Some (String c t) => String c t ∈ Session.tags r
      | _ => if active_only then Session.status r = "active" else True
      end.
Proof.
  unfold Api.list_sessions. mrun. eexists. split; [reflexivity|]. intros r.
  assert (Hplain :
    r ∈ (if active_only then Manager.list_active_sessions st else Manager.values st)
    <-> (exists sid, sessions st !! sid = Some r) /\
        (if active_only then Session.status r = "active" else True)).
  { destruct active_only.
    - unfold Manager.list_active_sessions.
      rewrite elem_of_filter_bool, elem_of_values, String.eqb_eq. done.
    - rewrite elem_of_values. tauto. }
  destruct tag as [[|c t]|]; cbn [Str.truthy_opt Str.truthy]; try exact Hplain.
  unfold Manager.search_sessions. cbn [existsb].
  rewrite elem_of_filter_bool, elem_of_values, orb_false_r.
  rewrite andb_true_iff, negb_true_iff, !bool_decide_eq_false, bool_decide_eq_true.
  intuition congruence.
Qed.

(** ** Reading *)

(** X11.  The handlers that read ([get], [list], [history]) and the
    history of the session manager leave the whole state as it is,
    whatever they answer. *)
Theorem reads_leave_the_state e st sid active_only tag :
  fst (run (Api.get_session sid) e st) = st /\
  fst (run (Api.list_sessions active_only tag) e st) = st /\
  fst (run (Manager.get_session_history sid) e st) = st /\
  fst (run (Api.get_session_history sid) e st) = st.
Proof.
  assert (Hm : fst (run (Manager.get_session_history sid) e st) = st).
  { unfold Manager.get_session_history, Manager.read_jsonl. mrun.
    destruct (sessions st !! sid) as [r|]; mrun; [|done].
    destruct (projects st !! _) as [files|]; mrun; [|done].
    destruct (Manager.read_lines _); done. }
  split; [|split; [|split]].
  - unfold Api.get_session. mrun. by destruct (sessions st !! sid).
  - done.
  - exact Hm.
  - unfold Api.get_session_history, run, bind in *.
    destruct (Manager.get_session_history sid e st) as [st' [h|x]]; cbn in Hm; subst;
      [|done].
    destruct h; [done|]. by destruct (Api.format_history _).
Qed.

(** ** Notifying the clients of a session *)

Section Notify.

Local Open Scope list_scope.

Lemma connection_eqb_id a b : connection_eqb a b = true -> conn_id a = conn_id b.
Proof.
  unfold connection_eqb. intros H. apply andb_true_iff in H as [H _].
  by apply Nat.eqb_eq.
Qed.

Lemma connection_eqb_refl a : connection_eqb a a = true.
Proof.
  unfold connection_eqb. rewrite Nat.eqb_refl. by destruct (alive a).
Qed.

(** [l.remove(c)] takes out the occurrence of [c] that the loop is at. *)
Lemma remove_here c kept tl :
  (forall x, x ∈ kept -> conn_id x <> conn_id c) ->
  (fix remove (xs : list connection) :=
     match xs with
     | [] => []
     | x :: tl => if connection_eqb x c then tl else x :: remove tl
     end) (kept ++ c :: tl)
  = kept ++ tl.
Proof.
  induction kept as [|k kept IH]; intros Hk; cbn.
  - by rewrite connection_eqb_refl.
  - destruct (connection_eqb k c) eqn:E.
    + apply connection_eqb_id in E. exfalso. apply (Hk k); [apply list_elem_of_here|done].
    + rewrite IH; [done|]. intros x Hx. apply Hk. by apply list_elem_of_further.
Qed.

Lemma notify_loop_sweep fuel kept rest delivered :
  NoDup (map conn_id (kept ++ rest)) ->
  (length rest <= fuel)%nat ->
  Api.notify_loop fuel (length kept) (kept ++ rest) delivered
  = (kept ++ fst (sweep rest), delivered ++ snd (sweep rest)).
Proof.
  revert kept rest delivered.
  induction fuel as [|fuel IH]; intros kept rest delivered Hnd Hlen.
  - destruct rest; [|cbn in Hlen; lia]. cbn. by rewrite !app_nil_r.
  - cbn [Api.notify_loop]. destruct rest as [|c tl].
    + rewrite app_nil_r, lookup_ge_None_2 by lia. cbn. by rewrite !app_nil_r.
    + rewrite list_lookup_middle by done. cbn [sweep]. cbn in Hlen.
      destruct (alive c) eqn:Hc.
      * change (kept ++ c :: tl) with (kept ++ [c] ++ tl). rewrite app_assoc.
        replace (S (length kept)) with (length (kept ++ [c]))
          by (rewrite length_app; cbn; lia).
        rewrite IH; [|by rewrite <- app_assoc|lia].
        cbn. by rewrite <- !app_assoc.
      * rewrite remove_here.
        2: { intros x Hx Heq. rewrite map_app in Hnd. cbn in Hnd.
             apply NoDup_app in Hnd as (_ & Hdis & _).
             apply (Hdis (conn_id x)).
             - apply list_elem_of_fmap. by exists x.
             - rewrite Heq. apply list_elem_of_here. }
        assert (Hnd' : NoDup (map conn_id (kept ++ tl))).
        { rewrite map_app in *. cbn in Hnd.
          apply NoDup_app in Hnd as (H1 & H2 & H3). apply NoDup_cons in H3 as [_ H3].
          apply NoDup_app. split; [done|]. split; [|done].
          intros x Hx Hin. apply (H2 x Hx). by apply list_elem_of_further. }
        destruct tl as [|c' tl'].
        -- rewrite app_nil_r. destruct fuel; cbn; [by rewrite !app_nil_r|].
           rewrite lookup_ge_None_2 by lia. by rewrite !app_nil_r.
        -- change (kept ++ c' :: tl') with (kept ++ [c'] ++ tl') in *.
           rewrite app_assoc in *.
           replace (S (length kept)) with (length (kept ++ [c']))
             by (rewrite length_app; cbn; lia).
           rewrite IH; [|done|cbn in Hlen; lia].
           cbn. by rewrite <- !app_assoc.
Qed.

Lemma sweep_all_alive l :
  forallb alive l = true -> sweep l = (l, map conn_id l).
Proof.
  induction l as [|c l IH]; cbn; [done|]. intros H.
  apply andb_true_iff in H as [Hc Hl]. by rewrite Hc, IH.
Qed.

Lemma sweep_receivers l n : n ∈ snd (sweep l) -> n ∈ map conn_id l.
Proof.
  revert n. induction l as [l IH] using (induction_ltof1 _ (@length _)).
  unfold ltof in IH. intros n. destruct l as [|c tl]; cbn; [done|].
  destruct (alive c).
  - cbn. intros Hn. apply elem_of_cons in Hn as [->|Hn]; [apply list_elem_of_here|].
    apply list_elem_of_further, IH; [cbn; lia|done].
  - destruct tl as [|c' tl']; cbn; [intros H; by apply elem_of_nil in H|]. intros Hn.
    do 2 apply list_elem_of_further. apply IH; [cbn; lia|done].
Qed.

Lemma sweep_kept l x : x ∈ fst (sweep l) -> x ∈ l.
Proof.
  revert x. induction l as [l IH] using (induction_ltof1 _ (@length _)).
  unfold ltof in IH. intros x. destruct l as [|c tl]; cbn; [done|].
  destruct (alive c).
  - cbn. intros Hx. apply elem_of_cons in Hx as [->|Hx]; [apply list_elem_of_here|].
    apply list_elem_of_further, IH; [cbn; lia|done].
  - destruct tl as [|c' tl']; cbn; [intros H; by apply elem_of_nil in H|]. intros Hx.
    apply list_elem_of_further.
    apply elem_of_cons in Hx as [->|Hx]; [apply list_elem_of_here|].
    apply list_elem_of_further, IH; [cbn; lia|done].
Qed.

Lemma sweep_app pre l :
  forallb alive pre = true ->
  sweep (pre ++ l) = (pre ++ fst (sweep l), map conn_id pre ++ snd (sweep l)).
Proof.
  induction pre as [|c pre IH]; cbn [forallb app map]; intros H.
  - by destruct (sweep l).
  - apply andb_true_iff in H as [Hc Hl]. cbn [sweep]. by rewrite Hc, IH.
Qed.

Lemma notify_session_update_sweep sid data e st l :
  active_connections st !! sid = Some l ->
  NoDup (map conn_id l) ->
  exists st',
    run (Api.notify_session_update sid data) e st = (st', Returns tt) /\
    active_connections st' = <[sid := fst (sweep l)]> (active_connections st) /\
    trace st' = (trace st ++ map (fun n => Sent n data) (snd (sweep l)))%list /\
    sessions st' = sessions st /\ metadata_file st' = metadata_file st /\
    fs st' = fs st.
Proof.
  intros Hl Hnd. unfold Api.notify_session_update. munfold. rewrite Hl.
  pose proof (notify_loop_sweep (length l) [] l [] Hnd (le_n _)) as Hloop.
  cbn in Hloop. rewrite Hloop. cbn [fst snd].
  eexists. split; [reflexivity|].
  match goal with |- context [fold_left _ ?cs ?s] =>
    destruct (log_sent_frame data cs s) as (H1 & H2 & H3 & H4 & H5 & H6) end.
  cbn in *. rewrite H1, H2, H3, H5, H6. done.
Qed.

(** X12.  When every client of the session is reachable, each of them is
    sent the message once, in the order in which the clients connected, and
    the list of clients stays as it is. *)
Theorem notify_reaches_all_clients sid data e st l :
  active_connections st !! sid = Some l ->
  NoDup (map conn_id l) ->
  forallb alive l = true ->
  exists st',
    run (Api.notify_session_update sid data) e st = (st', Returns tt) /\
    active_connections st' = active_connections st /\
    trace st' = (trace st ++ map (fun c => Sent (conn_id c) data) l)%list.
Proof.
  intros Hl Hnd Hall.
  destruct (notify_session_update_sweep sid data e st l Hl Hnd)
    as (st' & Hrun & Hconn & Htr & _).
  rewrite sweep_all_alive in Hconn, Htr by done. cbn in Hconn, Htr.
  exists st'. split; [exact Hrun|]. split.
  - rewrite Hconn. by apply insert_id.
  - rewrite Htr. by rewrite map_map.
Qed.

Lemma notify_reaches_all_clients_witness :
  let st := with_connections
              {[ "u" := [ {| conn_id := 1; alive := true |};
                          {| conn_id := 2; alive := true |} ] ]} Example.one in
  let data := {| r_session_id := "u"; r_participant := None; r_prompt := "hi";
                 r_response := "ok"; r_timestamp := "t" |} in
  exists st',
    run (Api.notify_session_update "u" data) Example.world st = (st', Returns tt) /\
    active_connections st' = active_connections st /\
    trace st' = (trace st ++ [Sent 1 data; Sent 2 data])%list.
Proof.
  intros st data.
  eapply (notify_reaches_all_clients "u" data Example.world st
            [ {| conn_id := 1; alive := true |}; {| conn_id := 2; alive := true |} ]);
    [reflexivity | compute_done | reflexivity].
Defined.

(** X13.  A client that has gone away is removed from the list while the
    loop runs over it, and the client that follows it in the list is then
    passed over: it stays in the list but is not sent the message. *)
Theorem notify_passes_over_next_client sid data e st pre d c post :
  active_connections st !! sid = Some (pre ++ d :: c :: post) ->
  NoDup (map conn_id (pre ++ d :: c :: post)) ->
  forallb alive pre = true ->
  alive d = false ->
  exists st' l' sent,
    run (Api.notify_session_update sid data) e st = (st', Returns tt) /\
    active_connections st' !! sid = Some l' /\
    trace st' = (trace st ++ map (fun n => Sent n data) sent)%list /\
    (d ∉ l') /\ (c ∈ l') /\ (conn_id c ∉ sent).
Proof.
  intros Hl Hnd Hpre Hd.
  destruct (notify_session_update_sweep sid data e st _ Hl Hnd)
    as (st' & Hrun & Hconn & Htr & _).
  rewrite sweep_app in Hconn, Htr by done. cbn [sweep] in Hconn, Htr.
  rewrite Hd in Hconn, Htr. cbn [fst snd] in Hconn, Htr.
  eexists st', _, _. split; [exact Hrun|].
  split; [rewrite Hconn; apply lookup_insert_eq|]. split; [exact Htr|].
  rewrite map_app in Hnd. cbn [map] in Hnd.
  apply NoDup_app in Hnd as (Hnd1 & Hdis & Hnd2).
  apply NoDup_cons in Hnd2 as [Hd2 Hnd2]. apply NoDup_cons in Hnd2 as [Hc2 Hnd2].
  split; [|split].
  - intros Hin. apply elem_of_app in Hin as [Hin|Hin].
    + apply (Hdis (conn_id d)); [|apply list_elem_of_here].
      apply list_elem_of_fmap. by exists d.
    + apply Hd2. apply elem_of_cons in Hin as [->|Hin]; [apply list_elem_of_here|].
      apply list_elem_of_further. apply list_elem_of_fmap. exists d.
      split; [done|]. by apply sweep_kept.
  - apply elem_of_app. right. apply list_elem_of_here.
  - intros Hin. apply elem_of_app in Hin as [Hin|Hin].
    + apply (Hdis (conn_id c)); [done|]. apply list_elem_of_further, list_elem_of_here.
    + apply Hc2. by apply sweep_receivers.
Qed.

Lemma notify_passes_over_next_client_witness :
  let data := {| r_session_id := "u"; r_participant := None; r_prompt := "hi";
                 r_response := "ok"; r_timestamp := "t" |} in
  exists st',
    run (Api.notify_session_update "u" data) Example.world Example.watched
    = (st', Returns tt) /\
    active_connections st' !! "u"
    = Some [ {| conn_id := 1; alive := true |}; {| conn_id := 3; alive := true |} ] /\
    trace st' = (trace Example.watched ++ [Sent 1 data])%list.
Proof.
  intros data.
  destruct (notify_passes_over_next_client "u" data Example.world Example.watched
              [ {| conn_id := 1; alive := true |} ]
              {| conn_id := 2; alive := false |}
              {| conn_id := 3; alive := true |} [])
    as (st' & l' & sent & Hrun & Hl' & Htr & _);
    [reflexivity | compute_done | reflexivity | reflexivity |].
  exists st'. split; [exact Hrun|].
  vm_compute in Hrun. injection Hrun as <-. split; reflexivity.
Defined.

End Notify.

(** ** The table and the document on disk *)

Lemma execute_claude_synced p ws k c e st :
  synced st ->
  exists st' res,
    Api.execute_claude p ws k c e st = (st', Returns res) /\ synced st' /\
    fs st' = fs st /\ uuids st' = uuids st /\
    forall sid r, sessions st !! sid = Some r ->
      exists r', sessions st' !! sid = Some r' /\ (k <> sid -> r' = r).
Proof.
  intros Hsync.
  destruct (execute_claude_run p ws k c e st)
    as (st' & res & Hrun & Hfs & _ & Huu & _ & Hout).
  exists st', res. split; [exact Hrun|]. cbv zeta in Hout.
  assert (Hcase :
    (sessions st' = sessions st /\ metadata_file st' = metadata_file st) \/
    (exists r0 r1, sessions st !! k = Some r0 /\
       sessions st' = <[k := r1]> (sessions st) /\
       metadata_file st' = Some (sessions st'))).
  { destruct (create_subprocess_exec _ e st) as [why|rc out err logs]; [left; tauto|].
    destruct (rc =? 0); [|left; tauto].
    destruct Hout as (_ & Hout). destruct (sessions st !! k) as [r0|] eqn:Hk.
    - destruct Hout as (h & Hses & Hmeta & _). right. eauto 6.
    - left. tauto. }
  unfold synced in *.
  destruct Hcase as [[Hs Hm] | (r0 & r1 & Hk & Hs & Hm)].
  - split; [congruence|]. split; [done|]. split; [done|].
    intros sid r Hr. exists r. by rewrite Hs.
  - split; [done|]. split; [done|]. split; [done|].
    intros sid r Hr. rewrite Hs. destruct (decide (k = sid)) as [->|Hne].
    + exists r1. by rewrite lookup_insert_eq.
    + exists r. by rewrite lookup_insert_ne.
Qed.

Ltac use_execute_synced Hsync :=
  match goal with
  | |- context [Api.execute_claude ?p ?ws ?k ?c ?e ?st] =>
      let H := fresh "Hexec" in
      destruct (execute_claude_synced p ws k c e st Hsync)
        as (?st2 & ?res & H & ?Hsync2 & ?Hfs2 & ?Huu2 & ?Hkeep2);
      rewrite H; clear H; msimpl
  end.

Lemma create_session_synced name description shared tags e st :
  synced st ->
  synced (fst (Manager.create_session name description shared tags e st)).
Proof.
  intros Hsync. unfold Manager.create_session, Manager.create_session_context.
  unfold synced in *. mcases; mrun; done.
Qed.

Lemma note_participant_synced sid r p e st :
  synced st ->
  exists st', Api.note_participant sid r p e st = (st', Returns tt) /\ synced st'.
Proof.
  intros Hsync. unfold Api.note_participant, Manager.add_participant, synced in *.
  destruct (Session.shared r && Str.truthy_opt p); mrun; [|eauto].
  destruct (existsb _ _); mrun; [eauto|].
  destruct (sessions st !! sid) eqn:Hs; mrun; eauto.
Qed.

Lemma notify_synced sid d e st :
  synced st -> synced (fst (Api.notify_session_update sid d e st)).
Proof.
  intros Hsync.
  destruct (notify_session_update_run sid d e st) as (st' & sent & Hrun & Hs & Hm & _).
  unfold run in Hrun. rewrite Hrun. unfold synced in *. cbn. congruence.
Qed.

Lemma fst_bind_ret {A} (m : M A) e st : fst ((m >> ret tt) e st) = fst (m e st).
Proof. unfold bind, ret. by destruct (m e st) as [? []]. Qed.

Lemma handle_synced q e st :
  is_clone q = false -> synced st -> synced (fst (run (handle q) e st)).
Proof.
  intros Hq Hsync. destruct q; try discriminate Hq; cbn [handle]; unfold run;
    rewrite fst_bind_ret.
  - (* create *)
    unfold Api.create_session. unfold bind at 1 2.
    pose proof (create_session_synced (SessionCreateRequest.name r)
                  (SessionCreateRequest.description r) (SessionCreateRequest.shared r)
                  (SessionCreateRequest.tags r) e st Hsync) as H1.
    destruct (Manager.create_session _ _ _ _ e st) as [st1 [info|x]]; cbn in H1;
      [|done].
    destruct (SessionCreateRequest.initial_prompt r) as [p|]; [|done].
    destruct (Str.truthy p); [|done].
    mrun. use_execute_synced H1. by destruct (sessions st2 !! Session.id info).
  - (* list *) done.
  - (* get *) unfold Api.get_session. mrun. by destruct (sessions st !! session_id).
  - (* history *)
    unfold Api.get_session_history, Manager.get_session_history, Manager.read_jsonl.
    mrun. destruct (sessions st !! session_id); mrun; [|done].
    destruct (projects st !! _); mrun; [|done].
    destruct (Manager.read_lines _) as [h|x]; mrun; [|done].
    destruct (Manager.sort_by_timestamp h); [done|].
    by destruct (Api.format_history _).
  - (* send *)
    unfold Api.send_message. mrun.
    destruct (sessions st !! session_id) as [s|]; mrun; [|done].
    destruct (fs st !! Session.workspace s); mrun; [|done].
    match goal with
    | |- context [Api.note_participant ?i ?s ?p ?e ?st] =>
        destruct (note_participant_synced i s p e st Hsync) as (st1 & Hnote & Hsync1);
        rewrite Hnote; clear Hnote; msimpl
    end.
    use_execute_synced Hsync1. destruct res; mrun; [|done].
    match goal with
    | |- context [Api.notify_session_update ?i ?d ?e ?s] =>
        pose proof (notify_synced i d e s) as Hn;
        destruct (Api.notify_session_update i d e s) as [st3 [[]|x]]
    end; cbn in *; apply Hn; exact Hsync2.
  - (* update *)
    unfold Api.update_session, synced in *.
    destruct (sessions st !! session_id) as [s|] eqn:Hs; mrun; [|done].
    destruct r as [[d0|] [t0|] [b0|]]; mrun; done.
  - (* receive *)
    unfold Api.receive_knowledge. mrun.
    destruct (sessions st !! session_id) as [s|] eqn:Hs; mrun; [|done].
    assert (Hfin : forall st1, synced st1 ->
      synced (fst (
        (let* result := Api.execute_claude
             (Api.init_prompt (ReceiveKnowledgeRequest.knowledge r))
             (Session.workspace s) session_id false in
         match result with
         | Success response =>
             Manager.assign session_id (Session.set_knowledge_received (Some true)) >>
             Manager.assign session_id
               (Session.set_parent_session
                  (Some (ReceiveKnowledgeRequest.from_session r))) >>
             Manager.assign session_id
               (Session.set_knowledge_transfer
                  (Some (Api.excerpt (ReceiveKnowledgeRequest.knowledge r)))) >>
             Manager.save_metadata >>
             ret ("success", "Knowledge transfer received", response)
         | Failure error => raise (HTTPException 500 error)
         end) e st1))).
    { intros st1 Hsync1. mrun. use_execute_synced Hsync1.
      destruct res; mrun; [|done].
      destruct (sessions st2 !! session_id); mrun; done. }
    destruct (fs st !! Session.workspace s) as [n|] eqn:Hw; mrun.
    + destruct (FS.lookup_path Api.transfer_file n) as [[[text|d]|es]|]; mrun;
        try done.
      * destruct (negb _); mrun; [done|].
        destruct (FS.write_path _ _ _); mrun; [|done].
        munfold. apply Hfin. exact Hsync.
      * apply (Hfin st Hsync).
    + apply (Hfin st Hsync).
  - (* archive *)
    unfold Api.archive_session, Manager.archive_session, synced in *.
    destruct (sessions st !! session_id) as [s|] eqn:Hs; mrun; done.
  - (* register *)
    unfold Api.register_claude_session, Api.discover, synced in *.
    destruct (sessions st !! session_id) as [s|] eqn:Hs; mrun; [|done].
    destruct (fs st !! Session.workspace s) as [n|]; [|done].
    destruct (FS.lookup_path marker_file n); [|done].
    destruct (projects st !! _) as [files|]; [|done].
    destruct (Api.newest files); mrun; done.
Qed.

(** X14.  Apart from [clone], every request leaves the document on disk
    equal to the table in memory when it found them equal, whatever it
    answers: after any sequence of such requests a restart
    ([load_metadata]) brings back the table as it was. *)
Theorem requests_keep_disk_in_sync qs e st :
  forallb (fun q => negb (is_clone q)) qs = true ->
  synced st ->
  synced (serve qs e st) /\
  sessions (fst (run Manager.load_metadata e (serve qs e st)))
  = sessions (serve qs e st).
Proof.
  intros Hqs Hsync.
  assert (H : synced (serve qs e st)).
  { revert st Hsync. induction qs as [|q qs IH]; intros st Hsync; cbn; [done|].
    cbn in Hqs. apply andb_true_iff in Hqs as [Hq Hqs].
    apply IH; [done|]. apply handle_synced; [|done]. by apply negb_true_iff. }
  split; [exact H|]. unfold Manager.load_metadata. cbn. by rewrite H.
Qed.

Lemma requests_keep_disk_in_sync_witness :
  let qs := [SendMessage "u" (MessageRequest.mk "hi" (Some "alice"));
             UpdateSession "u" (SessionUpdateRequest.mk (Some "second") None None);
             ArchiveSession "u"] in
  synced Example.one /\
  synced (serve qs Example.world Example.one) /\
  sessions (fst (run Manager.load_metadata Example.world (serve qs Example.world Example.one)))
  = sessions (serve qs Example.world Example.one).
Proof.
  intros qs. split; [reflexivity|].
  apply (requests_keep_disk_in_sync qs Example.world Example.one); reflexivity.
Defined.

Lemma create_session_saved name description shared tags e st :
  match run (Manager.create_session name description shared tags) e st with
  | (st', Returns info) =>
      metadata_file st' = Some (sessions st') /\
      Session.fork_instruction_sent info = None /\
      Session.awaiting_knowledge_transfer info = None
  | (_, Raises _) => True
  end.
Proof.
  unfold Manager.create_session, Manager.create_session_context.
  mcases; mrun; repeat split; done.
Qed.

Lemma copy_item_meta src dst it e st :
  metadata_file (fst (Manager.copy_item src dst it e st)) = metadata_file st.
Proof. unfold Manager.copy_item. mrun. mcases; done. Qed.

Lemma copy_loop_meta src dst items e st :
  metadata_file (fst (for_each items (Manager.copy_item src dst) e st))
  = metadata_file st.
Proof.
  revert st. induction items as [|it items IH]; intros st; cbn; [done|].
  unfold bind. pose proof (copy_item_meta src dst it e st) as H1.
  destruct (Manager.copy_item src dst it e st) as [st1 [[]|x]]; cbn in *; [|done].
  by rewrite IH.
Qed.

Lemma manager_clone_saved sid new_name a e st :
  sessions st !! sid = Some a ->
  match run (Manager.clone_session sid new_name) e st with
  | (st', Returns b) =>
      metadata_file st' = Some (sessions st') /\
      Session.fork_instruction_sent b = None /\
      Session.awaiting_knowledge_transfer b = None
  | (_, Raises _) => True
  end.
Proof.
  intros Hs. unfold Manager.clone_session. mrun.
  pose proof (create_session_saved new_name ("Cloned from " ++ Session.name a)
                (Session.shared a) (Some (Session.tags a ++ ["cloned"])%list) e st) as Hc.
  pose proof (create_session_returns new_name ("Cloned from " ++ Session.name a)
                (Session.shared a) (Some (Session.tags a ++ ["cloned"])%list) e st) as Hr.
  unfold run in Hc, Hr.
  destruct (Manager.create_session _ _ _ _ e st) as [st1 [info|x]]; [|done].
  destruct Hc as (Hmeta & Hf & Haw). destruct Hr as (Hid & _ & _ & _ & Hses & _).
  rewrite Hid. set (new_id := uuid e (uuids st)) in *.
  assert (Hinfo : sessions st1 !! new_id = Some info)
    by (rewrite Hses; apply lookup_insert_eq).
  unfold Manager.iterdir.
  destruct (Str.truthy_opt (Session.claude_session_id a)) eqn:Htr; mrun.
  - destruct (fs st1 !! Session.workspace a) as [[c|items]|]; mrun; try done.
    match goal with |- context [for_each items ?f ?e ?s] =>
      destruct (copy_loop_frame (Session.workspace a) (Session.workspace info) items e s)
        as [H1 _];
      pose proof (copy_loop_meta (Session.workspace a) (Session.workspace info) items e s)
        as H2;
      destruct (for_each items f e s) as [st2 [[]|x]]; [|done]
    end.
    cbn in H1, H2. mrun. rewrite H1, lookup_insert_eq. rewrite H1, H2.
    repeat split; done.
  - destruct (fs st1 !! Session.workspace a) as [[c|items]|]; mrun; try done.
    match goal with |- context [for_each items ?f ?e ?s] =>
      destruct (copy_loop_frame (Session.workspace a) (Session.workspace info) items e s)
        as [H1 _];
      pose proof (copy_loop_meta (Session.workspace a) (Session.workspace info) items e s)
        as H2;
      destruct (for_each items f e s) as [st2 [[]|x]]; [|done]
    end.
    cbn in H1, H2. mrun. rewrite H1, Hinfo. rewrite H1, H2. repeat split; done.
Qed.

Lemma api_clone_unsaved sid new_name a e st :
  sessions st !! sid = Some a ->
  uuid e (uuids st) <> sid ->
  match run (Api.clone_session sid new_name) e st with
  | (st', Returns b) =>
      exists sent on_disk b0,
        sessions st' !! Session.id b = Some b /\
        Session.fork_instruction_sent b = Some sent /\
        Session.awaiting_knowledge_transfer b = Some true /\
        metadata_file st' = Some on_disk /\
        on_disk !! Session.id b = Some b0 /\
        Session.fork_instruction_sent b0 = None /\
        Session.awaiting_knowledge_transfer b0 = None
  | (_, Raises _) => True
  end.
Proof.
  intros Hs Hne. unfold Api.clone_session, Api.clone_session_during, run.
  change (Api.execute_claude_during idle) with Api.execute_claude.
  apply (try_reraise _ _ (fun x => HTTPException 404 (exn_str x))).
  pose proof (manager_clone_returns sid new_name a e st Hs Hne) as Hm.
  pose proof (manager_clone_saved sid new_name a e st Hs) as Hsv.
  unfold run in Hm, Hsv. unfold bind at 1.
  destruct (Manager.clone_session sid new_name e st) as [st1 [b|x]]; [|done].
  destruct Hm as (Hid & _ & _ & _ & Hses). destruct Hsv as (Hmeta & Hf & Haw).
  set (new_id := uuid e (uuids st)) in *.
  assert (Hb : sessions st1 !! new_id = Some b)
    by (rewrite Hses; apply lookup_insert_eq).
  assert (Ha : sessions st1 !! sid = Some a)
    by (rewrite Hses, lookup_insert_ne; done).
  rewrite Hid. mrun.
  destruct (fs st1 !! Session.workspace b) as [n|] eqn:Hn; mrun; [|done].
  destruct (FS.write_path Api.transfer_file _ n) as [n'|] eqn:Hw; mrun; [|done].
  match goal with
  | |- context [Api.execute_claude ?p ?ws ?k ?c ?e ?s] =>
      destruct (execute_claude_synced p ws k c e s Hmeta)
        as (st2 & res & Hrun & Hsync2 & _ & _ & Hkeep)
  end.
  rewrite Hrun. clear Hrun. msimpl.
  destruct (Hkeep new_id b Hb) as (b2 & Hb2 & Hsame).
  rewrite (Hsame (not_eq_sym Hne)) in Hb2. mrun.
  cbn [Session.id Session.set_awaiting_knowledge_transfer
       Session.set_fork_instruction_sent Session.fork_instruction_sent
       Session.awaiting_knowledge_transfer].
  rewrite Hid. eexists _, (sessions st2), b.
  rewrite lookup_insert_eq. repeat split; done.
Qed.

(** X15.  A clone that returns leaves the two transfer flags of the child,
    [fork_instruction_sent] and [awaiting_knowledge_transfer], in the table
    only: they are set after the last save, so the document on disk holds
    the child without them, and a restart ([load_metadata]) loses them. *)
Theorem clone_leaves_flags_unsaved e st sid new_name a st' b :
  sessions st !! sid = Some a ->
  uuid e (uuids st) <> sid ->
  run (Api.clone_session sid new_name) e st = (st', Returns b) ->
  sessions st' !! Session.id b = Some b /\
  (exists sent, Session.fork_instruction_sent b = Some sent) /\
  Session.awaiting_knowledge_transfer b = Some true /\
  exists b0,
    sessions (fst (run Manager.load_metadata e st')) !! Session.id b = Some b0 /\
    Session.fork_instruction_sent b0 = None /\
    Session.awaiting_knowledge_transfer b0 = None.
Proof.
  intros Hs Hne Hrun. pose proof (api_clone_unsaved sid new_name a e st Hs Hne) as H.
  rewrite Hrun in H.
  destruct H as (sent & on_disk & b0 & Hb & Hf & Haw & Hmeta & Hb0 & Hf0 & Haw0).
  split; [exact Hb|]. split; [eauto|]. split; [exact Haw|].
  exists b0. unfold Manager.load_metadata. cbn. rewrite Hmeta. cbn. done.
Qed.

Lemma clone_leaves_flags_unsaved_witness :
  exists a st' b,
    sessions Example.one !! "u" = Some a /\
    uuid Example.world (uuids Example.one) <> "u" /\
    run (Api.clone_session "u" "B-fork") Example.world Example.one = (st', Returns b) /\
    sessions st' !! Session.id b = Some b /\
    (exists sent, Session.fork_instruction_sent b = Some sent) /\
    Session.awaiting_knowledge_transfer b = Some true /\
    exists b0,
      sessions (fst (run Manager.load_metadata Example.world st')) !! Session.id b
      = Some b0 /\
      Session.fork_instruction_sent b0 = None /\
      Session.awaiting_knowledge_transfer b0 = None.
Proof.
  eexists _, _, _. split; [reflexivity|]. split; [vm_compute; discriminate|].
  split; [vm_compute; reflexivity|].
  eapply (clone_leaves_flags_unsaved Example.world Example.one "u" "B-fork");
    [reflexivity | vm_compute; discriminate | vm_compute; reflexivity].
Defined.

(** ** Sending a message, continued *)

Lemma note_participant_run sid r p e st :
  sessions st !! sid = Some r ->
  let who := default "" p in
  let joins := Session.shared r && Str.truthy_opt p && is_new who r in
  let r1 := if joins then joined who (clock e (ticks st)) r else r in
  exists st',
    Api.note_participant sid r p e st = (st', Returns tt) /\
    sessions st' !! sid = Some r1 /\
    fs st' = fs st /\ spawns st' = spawns st /\
    trace st' = (trace st ++ if joins then [Saved (sessions st')] else [])%list.
Proof.
  intros Hs who joins r1. subst who joins r1.
  unfold Api.note_participant, Manager.add_participant, is_new.
  destruct (Session.shared r && Str.truthy_opt p); mrun.
  - destruct (existsb _ _); mrun.
    + eexists. split; [reflexivity|]. by rewrite app_nil_r.
    + eexists. split; [reflexivity|]. mrun. done.
  - eexists. split; [reflexivity|]. by rewrite app_nil_r.
Qed.

(** What a run of [execute_claude] does to the record of its session and to
    the trace. *)
Lemma execute_claude_spawns p ws sid c e st r :
  sessions st !! sid = Some r ->
  exists st' res r' rest,
    Api.execute_claude p ws sid c e st = (st', Returns res) /\
    sessions st' !! sid = Some r' /\
    (r' = r \/ exists now h, r' = touched now h r) /\
    fs st' = fs st /\
    trace st'
    = (trace st ++ Spawned (Api.build_invocation (Some r) p ws sid c) :: rest)%list.
Proof.
  intros Hs.
  destruct (execute_claude_run p ws sid c e st)
    as (st' & res & Hrun & Hfs & _ & _ & _ & Hout).
  cbv zeta in Hout. rewrite Hs in Hout. exists st', res.
  destruct (create_subprocess_exec _ e st) as [why|rc out err logs].
  - destruct Hout as (_ & Hses & _ & _ & Htr). exists r, [].
    rewrite Hses. repeat split; try done. by left.
  - destruct (rc =? 0).
    + destruct Hout as (_ & h & Hses & _ & _ & Htr). eexists _, _.
      rewrite Hses, lookup_insert_eq. repeat split; try done. right. eauto.
    + destruct Hout as (_ & Hses & _ & _ & Htr). exists r, [].
      rewrite Hses. repeat split; try done. by left.
Qed.

Lemma send_message_run e st sid req r n :
  sessions st !! sid = Some r ->
  fs st !! Session.workspace r = Some n ->
  let p := MessageRequest.participant req in
  let who := default "" p in
  let joins := Session.shared r && Str.truthy_opt p && is_new who r in
  let r1 := if joins then joined who (clock e (ticks st)) r else r in
  let inv :=
    Api.build_invocation (Some r1)
      (if Session.shared r
       then "[" ++ default "None" p ++ "]: " ++ MessageRequest.prompt req
       else MessageRequest.prompt req)
      (Session.workspace r) sid true in
  exists st' res r' saved rest,
    run (Api.send_message sid req) e st = (st', res) /\
    sessions st' !! sid = Some r' /\
    (r' = r1 \/ exists now h, r' = touched now h r1) /\
    trace st' = (trace st ++ saved ++ Spawned inv :: rest)%list /\
    (forall ev, ev ∈ saved -> exists doc, ev = Saved doc).
Proof.
  intros Hs Hw p who joins r1 inv. unfold Api.send_message. mrun.
  destruct (note_participant_run sid r p e st Hs) as (st1 & Hnote & Hs1 & Hfs1 & _ & Htr1).
  fold p. rewrite Hnote. msimpl. fold who joins r1 in Hs1, Htr1.
  match goal with
  | |- context [Api.execute_claude ?q ?ws ?k ?c e st1] =>
      destruct (execute_claude_spawns q ws k c e st1 r1 Hs1)
        as (st2 & res & r2 & rest & Hexec & Hs2 & Hr2 & Hfs2 & Htr2);
      rewrite Hexec; msimpl;
      change (Api.build_invocation (Some r1) q ws k c) with inv in Htr2
  end.
  assert (Hsaved : forall ev,
            ev ∈ (if joins then [Saved (sessions st1)] else []) -> exists doc, ev = Saved doc).
  { intros ev Hev. destruct joins; [|by apply elem_of_nil in Hev].
    apply list_elem_of_singleton in Hev. eauto. }
  destruct res as [text|error]; mrun.
  - match goal with
    | |- context [Api.notify_session_update ?i ?d ?e ?s] =>
        destruct (notify_session_update_run i d e s)
          as (st3 & sent & Hrun3 & Hses3 & _ & _ & Htr3)
    end.
    unfold run in Hrun3. rewrite Hrun3. msimpl.
    eexists _, _, r2, _, _. split; [reflexivity|].
    split; [by rewrite Hses3|]. split; [exact Hr2|]. split; [|exact Hsaved].
    rewrite Htr3. cbn. rewrite Htr2, Htr1, <- !app_assoc. cbn. reflexivity.
  - eexists _, _, r2, _, _. split; [reflexivity|].
    split; [exact Hs2|]. split; [exact Hr2|]. split; [|exact Hsaved].
    rewrite Htr2, Htr1, <- !app_assoc. reflexivity.
Qed.

(** X16.  [send] to a session whose workspace exists adds the sender to the
    participants only when the session is shared, a non-empty name is
    given and no participant has that name yet; it never removes or
    repeats a participant, so names that were distinct stay distinct. *)
Theorem send_message_adds_participant_once e st sid req r n :
  sessions st !! sid = Some r ->
  fs st !! Session.workspace r = Some n ->
  let p := MessageRequest.participant req in
  let who := default "" p in
  exists r',
    sessions (fst (run (Api.send_message sid req) e st)) !! sid = Some r' /\
    Session.participants r'
    = (if Session.shared r && Str.truthy_opt p && is_new who r
       then (Session.participants r ++
               [{| Participant.name := who; Participant.role := "contributor";
                   Participant.joined_at := clock e (ticks st) |}])%list
       else Session.participants r) /\
    (NoDup (map Participant.name (Session.participants r)) ->
     NoDup (map Participant.name (Session.participants r'))).
Proof.
  intros Hs Hw p who.
  destruct (send_message_run e st sid req r n Hs Hw)
    as (st' & res & r' & saved & rest & Hrun & Hs' & Hr' & _).
  rewrite Hrun. cbn [fst]. exists r'. split; [exact Hs'|]. fold p who in Hr'.
  assert (Hp : Session.participants r'
               = Session.participants
                   (if Session.shared r && Str.truthy_opt p && is_new who r
                    then joined who (clock e (ticks st)) r else r)).
  { destruct Hr' as [->|(now & h & ->)]; reflexivity. }
  rewrite Hp. split; [by destruct (_ && _ && _)|].
  destruct (Session.shared r && Str.truthy_opt p) ; cbn [andb]; [|done].
  destruct (is_new who r) eqn:Hnew; [|done]. intros Hnd. cbn.
  rewrite map_app. cbn. apply NoDup_app. split; [done|]. split; [|apply NoDup_singleton].
  intros x Hx Hin. apply list_elem_of_singleton in Hin. subst x.
  unfold is_new in Hnew. apply negb_true_iff in Hnew.
  apply list_elem_of_fmap in Hx as (q & Hq & Hin).
  assert (Hex : existsb (fun p0 => String.eqb (Participant.name p0) who)
                        (Session.participants r) = true).
  { apply existsb_exists. exists q. split; [by apply list_elem_of_In|].
    apply String.eqb_eq. done. }
  congruence.
Qed.

Lemma send_message_adds_participant_once_witness :
  exists r r',
    sessions Example.talked !! "u" = Some r /\
    map Participant.name (Session.participants r) = ["alice"] /\
    sessions (fst (run (Api.send_message "u" (MessageRequest.mk "again" (Some "alice")))
                       Example.failing Example.talked)) !! "u" = Some r' /\
    Session.participants r' = Session.participants r.
Proof.
  eexists.
  assert (Hs : sessions Example.talked !! "u" = Some _) by (vm_compute; reflexivity).
  destruct (send_message_adds_participant_once Example.failing Example.talked "u"
              (MessageRequest.mk "again" (Some "alice")) _ (provisioned Example.a) Hs)
    as (r' & Hs' & Hp & _); [vm_compute; reflexivity|].
  exists r'. split; [exact Hs|]. split; [reflexivity|]. split; [exact Hs'|].
  exact Hp.
Defined.

(** X17.  [send] starts the process in the workspace of the session, with
    the identifier of the session in its environment; it resumes the
    conversation of the recorded handle when the record has a non-empty
    one and starts a new conversation otherwise.  In a shared session the
    prompt is preceded by the name of the participant in brackets, and by
    [[None]] when the request names none.  Before the process is started
    nothing is done but saving the table. *)
Theorem send_message_invocation e st sid req r n :
  sessions st !! sid = Some r ->
  fs st !! Session.workspace r = Some n ->
  exists st' res inv saved rest,
    run (Api.send_message sid req) e st = (st', res) /\
    trace st' = (trace st ++ saved ++ Spawned inv :: rest)%list /\
    (forall ev, ev ∈ saved -> exists doc, ev = Saved doc) /\
    resume inv = (if Str.truthy_opt (Session.claude_session_id r)
                  then Session.claude_session_id r else None) /\
    cwd inv = Session.workspace r /\
    env_session_id inv = sid /\
    env_session_name inv = Session.name r /\
    stdin inv
    = (if Session.shared r
       then "[" ++ default "None" (MessageRequest.participant req) ++ "]: "
            ++ MessageRequest.prompt req
       else MessageRequest.prompt req).
Proof.
  intros Hs Hw.
  destruct (send_message_run e st sid req r n Hs Hw)
    as (st' & res & r' & saved & rest & Hrun & _ & _ & Htr & Hsaved).
  eexists st', res, _, saved, rest. split; [exact Hrun|]. split; [exact Htr|].
  split; [exact Hsaved|].
  cbn [Api.build_invocation resume cwd env_session_id env_session_name stdin andb
       from_option].
  by destruct (_ && _ && _).
Qed.

Lemma send_message_invocation_witness :
  exists st' res inv saved rest,
    run (Api.send_message "u" (MessageRequest.mk "again" None)) Example.world Example.talked
    = (st', res) /\
    trace st' = (trace Example.talked ++ saved ++ Spawned inv :: rest)%list /\
    resume inv = Some "h1" /\
    cwd inv = "/tmp/claude-sessions/u" /\
    stdin inv = "[None]: again".
Proof.
  assert (Hs : exists r, sessions Example.talked !! "u" = Some r
                         /\ Session.claude_session_id r = Some "h1"
                         /\ Session.workspace r = "/tmp/claude-sessions/u"
                         /\ Session.shared r = true)
    by (eexists; split; [vm_compute; reflexivity|repeat split]).
  destruct Hs as (r & Hs & Hh & Hws & Hsh).
  destruct (send_message_invocation Example.world Example.talked "u"
              (MessageRequest.mk "again" None) r (provisioned Example.a) Hs)
    as (st' & res & inv & saved & rest & Hrun & Htr & _ & Hres & Hcwd & _ & _ & Hin).
  { rewrite Hws. vm_compute. reflexivity. }
  exists st', res, inv, saved, rest. split; [exact Hrun|]. split; [exact Htr|].
  rewrite Hh in Hres. rewrite Hws in Hcwd. rewrite Hsh in Hin.
  split; [exact Hres|]. split; [exact Hcwd | exact Hin].
Defined.

(** ** Receiving knowledge, continued *)

(** A file can be written over. *)
Lemma write_path_over_file p c c0 n :
  FS.lookup_path p n = Some (File c0) ->
  p <> [] ->
  exists n', FS.write_path p c n = Some n'.
Proof.
  revert n. induction p as [|d p IH]; intros n H Hp; [done|].
  destruct n as [c1|es]; [done|]. cbn [FS.lookup_path] in H.
  destruct (FS.lookup d es) as [x|] eqn:Hd; [|done].
  destruct p as [|d' p].
  - cbn in H. injection H as ->. cbn. rewrite Hd. cbn. eauto.
  - rewrite write_path_below, Hd. destruct x as [c1|sub]; [done|].
    destruct (IH (Dir sub) H) as (x & Hx); [done|]. rewrite Hx. eauto.
Qed.

(** What a run of [execute_claude] leaves of the record of another or the
    same session. *)
Lemma execute_claude_touches p ws sid c e st r :
  sessions st !! sid = Some r ->
  exists st' res r',
    Api.execute_claude p ws sid c e st = (st', Returns res) /\
    sessions st' !! sid = Some r' /\
    (r' = r \/ exists now h, r' = touched now h r) /\
    fs st' = fs st /\
    (success res = true -> metadata_file st' = Some (sessions st') /\
                           Session.message_count r' = Session.message_count r + 1).
Proof.
  intros Hs.
  destruct (execute_claude_run p ws sid c e st)
    as (st' & res & Hrun & Hfs & _ & _ & _ & Hout).
  cbv zeta in Hout. rewrite Hs in Hout. unfold run in Hrun. exists st', res.
  destruct (create_subprocess_exec _ e st) as [why|rc out err logs].
  - destruct Hout as (-> & Hses & _). exists r.
    rewrite Hses. repeat split; try done. by left.
  - destruct (rc =? 0).
    + destruct Hout as (-> & h & Hses & Hmeta & _).
      exists (touched (clock e (ticks st)) h r).
      split; [done|]. split; [rewrite Hses; apply lookup_insert_eq|].
      split; [right; eauto|]. split; [done|]. intros _. split; [done|]. reflexivity.
    + destruct Hout as (-> & Hses & _). exists r.
      rewrite Hses. repeat split; try done. by left.
Qed.

(** X18.  When the workspace holds a transfer record from the session that
    the request names, [receive_knowledge] marks the record as received,
    with the time of the call, before it starts the process, and the mark
    stays when the process fails: the call then answers 500 and the session
    record shows no knowledge received. *)
Theorem receive_knowledge_marks_transfer e st sid req r n d :
  sessions st !! sid = Some r ->
  fs st !! Session.workspace r = Some n ->
  FS.lookup_path Api.transfer_file n = Some (File (TransferDoc d)) ->
  Transfer.from_session_id d = ReceiveKnowledgeRequest.from_session req ->
  exists st' res n',
    run (Api.receive_knowledge sid req) e st = (st', res) /\
    fs st' !! Session.workspace r = Some n' /\
    FS.lookup_path Api.transfer_file n'
    = Some (File (TransferDoc
        {| Transfer.from_session_id := Transfer.from_session_id d;
           Transfer.to_session_id := Transfer.to_session_id d;
           Transfer.created_at := Transfer.created_at d;
           Transfer.status := "received";
           Transfer.received_at := Some (clock e (ticks st)) |})) /\
    match res with
    | Returns _ => True
    | Raises x =>
        exists detail r',
          x = HTTPException 500 detail /\
          sessions st' !! sid = Some r' /\
          Session.knowledge_received r' = Session.knowledge_received r /\
          Session.parent_session r' = Session.parent_session r /\
          Session.knowledge_transfer r' = Session.knowledge_transfer r
    end.
Proof.
  intros Hs Hw Ht Hfrom. unfold Api.receive_knowledge. mrun. rewrite Ht.
  apply String.eqb_eq in Hfrom. rewrite Hfrom. msimpl. mrun.
  destruct (write_path_over_file Api.transfer_file
              (TransferDoc (Transfer.mark_received (clock e (ticks st)) d))
              (TransferDoc d) n Ht) as (n' & Hn'); [done|].
  rewrite Hn'. mrun.
  match goal with
  | |- context [Api.execute_claude ?p ?ws ?k ?c e ?s] =>
      destruct (execute_claude_touches p ws k c e s r Hs)
        as (st2 & res & r2 & Hexec & Hs2 & Hr2 & Hfs2 & _)
  end.
  rewrite Hexec. msimpl. apply write_path_lookup in Hn'.
  destruct res as [text|error]; mrun.
  - eexists _, _, n'. split; [reflexivity|]. msimpl.
    rewrite Hfs2. msimpl. rewrite lookup_insert_eq. done.
  - eexists _, _, n'. split; [reflexivity|].
    rewrite Hfs2. msimpl. rewrite lookup_insert_eq. split; [done|]. split; [done|].
    eexists _, r2. split; [reflexivity|]. split; [exact Hs2|].
    destruct Hr2 as [->|(now & h & ->)]; done.
Qed.

Lemma receive_knowledge_marks_transfer_witness :
  let req := ReceiveKnowledgeRequest.mk "u" "all I know" in
  exists r n d st' res n' d',
    sessions Example.forked !! "u+" = Some r /\
    fs Example.forked !! Session.workspace r = Some n /\
    FS.lookup_path Api.transfer_file n = Some (File (TransferDoc d)) /\
    Transfer.status d = "pending" /\
    run (Api.receive_knowledge "u+" req) Example.failing Example.forked = (st', res) /\
    res = Raises (HTTPException 500 "boom") /\
    fs st' !! Session.workspace r = Some n' /\
    FS.lookup_path Api.transfer_file n' = Some (File (TransferDoc d')) /\
    Transfer.status d' = "received".
Proof.
  intros req.
  assert (Hs : exists r, sessions Example.forked !! "u+" = Some r)
    by (eexists; vm_compute; reflexivity).
  destruct Hs as (r & Hs).
  assert (Hw : exists n d, fs Example.forked !! Session.workspace r = Some n /\
              FS.lookup_path Api.transfer_file n = Some (File (TransferDoc d)) /\
              Transfer.status d = "pending" /\
              Transfer.from_session_id d = "u").
  { vm_compute in Hs. injection Hs as <-. eexists _, _.
    split; [vm_compute; reflexivity|]. split; [vm_compute; reflexivity|].
    split; reflexivity. }
  destruct Hw as (n & d & Hw & Ht & Hst & Hfrom).
  destruct (receive_knowledge_marks_transfer Example.failing Example.forked "u+" req
              r n d Hs Hw Ht Hfrom) as (st' & res & n' & Hrun & Hw' & Ht' & _).
  eexists r, n, d, st', res, n', _.
  split; [exact Hs|]. split; [exact Hw|]. split; [exact Ht|]. split; [exact Hst|].
  split; [exact Hrun|].
  split; [vm_compute in Hrun; injection Hrun as _ <-; reflexivity|].
  split; [exact Hw'|]. split; [exact Ht' | reflexivity].
Defined.



(** ** What no request changes *)

Lemma evolves_refl r : evolves r r.
Proof. unfold evolves. repeat split; done. Qed.

Section Evolving.

Variables (e : env) (sid : string) (r : Session.t).

Lemma grows_ret {A} (a : A) : grows e sid r (ret a).
Proof. intros st H. exact H. Qed.

Lemma grows_raise {A} x : grows e sid r (@raise A x).
Proof. intros st H. exact H. Qed.

Lemma grows_gets {A} (f : state -> A) : grows e sid r (gets f).
Proof. intros st H. exact H. Qed.

Lemma grows_bind {A B} (m : M A) (k : A -> M B) :
  grows e sid r m -> (forall a, grows e sid r (k a)) -> grows e sid r (bind m k).
Proof.
  intros Hm Hk st H. unfold bind. specialize (Hm st H).
  destruct (m e st) as [st' [a|x]]; cbn in *; [apply Hk|]; done.
Qed.

Lemma grows_try_except {A} (m : M A) hs h :
  grows e sid r m -> (forall x, grows e sid r (h x)) ->
  grows e sid r (try_except m hs h).
Proof.
  intros Hm Hh st H. unfold try_except. specialize (Hm st H).
  destruct (m e st) as [st' [a|x]]; cbn in *; [done|].
  destruct (hs x); [apply Hh|]; done.
Qed.

Lemma grows_when b m : grows e sid r m -> grows e sid r (when b m).
Proof. destruct b; [done|]. intros _. apply grows_ret. Qed.

Lemma grows_for_each {A} (l : list A) f :
  (forall x, grows e sid r (f x)) -> grows e sid r (for_each l f).
Proof.
  intros Hf. induction l as [|x l IH]; cbn; [apply grows_ret|].
  apply grows_bind; [apply Hf | intros _; exact IH].
Qed.

Lemma grows_frame {A} (m : M A) :
  (forall st, sessions (fst (m e st)) = sessions st /\
              uuids (fst (m e st)) = uuids st) ->
  grows e sid r m.
Proof.
  intros Hf st [(r' & H1 & H2) H3]. destruct (Hf st) as [Hs Hu].
  split; [exists r'; by rewrite Hs|]. unfold unused. by rewrite Hu.
Qed.

Lemma grows_modify f :
  (forall st, sessions (f st) = sessions st /\ uuids (f st) = uuids st) ->
  grows e sid r (modify f).
Proof. intros Hf. apply grows_frame. intros st. apply Hf. Qed.

Lemma grows_setitem k x :
  k <> sid -> grows e sid r (Manager.sessions_setitem k x).
Proof.
  intros Hk st [(r0 & H1 & H2) H3]. split; [|exact H3].
  exists r0. cbn. by rewrite lookup_insert_ne.
Qed.

Lemma grows_assign k f :
  (forall x, evolves r x -> evolves r (f x)) ->
  grows e sid r (Manager.assign k f).
Proof.
  intros Hf st [(r0 & H1 & H2) H3]. unfold tracked, Manager.assign.
  munfold.
  destruct (sessions st !! k) as [x|] eqn:Hk; msimpl; [|split; [by exists r0|done]].
  split; [|exact H3].
  destruct (decide (k = sid)) as [->|Hne].
  - exists (f x). rewrite lookup_insert_eq. split; [done|]. apply Hf. congruence.
  - exists r0. by rewrite lookup_insert_ne.
Qed.

End Evolving.

Create HintDb grows.

Ltac evolves_step :=
  let x := fresh "x" in
  let H := fresh "H" in
  intros x H; unfold evolves in *; destruct x; cbn in *;
  repeat split; try tauto; try lia;
  try (apply prefix_app_r; tauto).

Ltac grows_prim :=
  first
    [ solve [auto with grows nocore] | apply grows_ret | apply grows_raise
    | apply grows_gets
    | apply grows_modify; intros ?; split; reflexivity
    | apply grows_frame; intros ?; split; reflexivity
    | apply grows_assign; solve [evolves_step] ].

Ltac grows_step :=
  first
    [ grows_prim
    | apply grows_bind; [|intros ?]
    | apply grows_try_except; [|intros ?]
    | apply grows_when
    | apply grows_for_each; intros ?
    | match goal with
      | |- grows _ _ _ (match ?x with _ => _ end) => destruct x
      | |- grows _ _ _ (if ?x then _ else _) => destruct x
      end ].

Ltac grows_auto := cbv zeta; repeat grows_step.

Section Growing.

Variables (e : env) (sid : string) (r : Session.t).

Lemma grows_save_metadata : grows e sid r Manager.save_metadata.
Proof. unfold Manager.save_metadata. grows_auto. Qed.

Lemma grows_utcnow : grows e sid r utcnow.
Proof. apply grows_frame. by split. Qed.

Lemma grows_write_file p q c : grows e sid r (write_file p q c).
Proof. unfold write_file. grows_auto. Qed.

Lemma grows_mkdir_in p d : grows e sid r (mkdir_in p d).
Proof. unfold mkdir_in. grows_auto. Qed.

Lemma grows_mkdir_exist_ok p : grows e sid r (mkdir_exist_ok p).
Proof. unfold mkdir_exist_ok. grows_auto. Qed.

Lemma grows_communicate inv : grows e sid r (communicate idle inv).
Proof.
  apply grows_frame. intros st. unfold communicate, idle.
  by destruct (create_subprocess_exec inv e st).
Qed.

Lemma grows_decode d : grows e sid r (decode d).
Proof. unfold decode. grows_auto. Qed.

Lemma grows_sessions_item k : grows e sid r (Manager.sessions_item k).
Proof. unfold Manager.sessions_item, Manager.sessions_get. grows_auto. Qed.

#[local] Hint Resolve grows_save_metadata grows_utcnow grows_write_file grows_mkdir_in
  grows_mkdir_exist_ok grows_communicate grows_decode grows_sessions_item : grows.

Lemma grows_create_session_context ws info :
  grows e sid r (Manager.create_session_context ws info).
Proof. unfold Manager.create_session_context. grows_auto. Qed.

#[local] Hint Resolve grows_create_session_context : grows.

Lemma grows_create_session name description shared tags :
  grows e sid r (Manager.create_session name description shared tags).
Proof.
  intros st [Ha Hu]. unfold Manager.create_session. unfold bind at 1, uuid4 at 1.
  match goal with
  | |- tracked _ _ _ (fst (?m _ ?s)) => assert (Hk : grows e sid r m); [| apply Hk]
  end.
  - grows_auto. apply grows_setitem, Hu. lia.
  - split; [exact Ha|]. intros n Hn. apply Hu. cbn in Hn. lia.
Qed.

#[local] Hint Resolve grows_create_session : grows.

Lemma grows_record_activity ws k : grows e sid r (Api.record_activity ws k).
Proof. unfold Api.record_activity, Api.discover, Manager.sessions_get. grows_auto. Qed.

#[local] Hint Resolve grows_record_activity : grows.

Lemma grows_execute_claude p ws k c : grows e sid r (Api.execute_claude p ws k c).
Proof. unfold Api.execute_claude, Api.execute_claude_during, Manager.sessions_get. grows_auto. Qed.

#[local] Hint Resolve grows_execute_claude : grows.

Lemma grows_notify k d : grows e sid r (Api.notify_session_update k d).
Proof.
  unfold Api.notify_session_update. grows_auto.
  apply grows_modify. intros st.
  match goal with |- context [fold_left _ ?cs ?s] =>
    destruct (log_sent_frame d cs s) as (H1 & _)
  end.
  split; [exact H1|]. by rewrite log_sent_uuids.
Qed.

#[local] Hint Resolve grows_notify : grows.

Lemma grows_add_participant k p role :
  grows e sid r (Manager.add_participant k p role).
Proof. unfold Manager.add_participant, Manager.sessions_get. grows_auto. Qed.

#[local] Hint Resolve grows_add_participant : grows.

Lemma grows_copy_item src dst it : grows e sid r (Manager.copy_item src dst it).
Proof. unfold Manager.copy_item. grows_auto. Qed.

#[local] Hint Resolve grows_copy_item : grows.

Lemma grows_manager_clone k new_name :
  grows e sid r (Manager.clone_session k new_name).
Proof.
  unfold Manager.clone_session, Manager.iterdir, Manager.sessions_get. grows_auto.
Qed.

Lemma grows_manager_archive k : grows e sid r (Manager.archive_session k).
Proof. unfold Manager.archive_session, Manager.sessions_get. grows_auto. Qed.

#[local] Hint Resolve grows_manager_clone grows_manager_archive : grows.

Lemma grows_handle q : grows e sid r (handle q).
Proof.
  destruct q; cbn [handle];
    unfold Api.create_session, Api.list_sessions, Api.get_session,
      Api.get_session_history, Manager.get_session_history, Manager.read_jsonl,
      Api.send_message, Api.note_participant, Api.update_session,
      Api.clone_session, Api.clone_session_during, Api.receive_knowledge,
      Api.archive_session,
      Api.register_claude_session, Api.discover, Manager.sessions_get, stat, exists_;
    change (Api.execute_claude_during idle) with Api.execute_claude;
    grows_auto.
Qed.

Lemma serve_grows qs st : tracked e sid r st -> tracked e sid r (serve qs e st).
Proof.
  revert st. induction qs as [|q qs IH]; intros st H; cbn; [done|].
  apply IH, grows_handle, H.
Qed.

End Growing.

(** X20.  Whatever requests are served, a session stays in the table, and
    its identifier, name, creation time and workspace never change (the
    uuid source is assumed not to produce the identifier again). *)
Theorem session_identity_is_fixed e st sid r qs :
  sessions st !! sid = Some r ->
  unused e sid st ->
  exists r',
    sessions (serve qs e st) !! sid = Some r' /\
    Session.id r' = Session.id r /\
    Session.name r' = Session.name r /\
    Session.created_at r' = Session.created_at r /\
    Session.workspace r' = Session.workspace r.
Proof.
  intros Hs Hu.
  destruct (serve_grows e sid r qs st) as [(r' & Hr' & Hev) _].
  { split; [|exact Hu]. exists r. split; [exact Hs | apply evolves_refl]. }
  exists r'. split; [exact Hr'|]. unfold evolves in Hev. tauto.
Qed.

Lemma session_identity_is_fixed_witness :
  let qs := [SendMessage "u" (MessageRequest.mk "hi" (Some "alice"));
             CloneSession "u" "B-fork";
             UpdateSession "u" (SessionUpdateRequest.mk (Some "second") None None);
             ArchiveSession "u"] in
  sessions Example.one !! "u" = Some Example.a /\
  unused Example.world "u" Example.one /\
  exists r',
    sessions (serve qs Example.world Example.one) !! "u" = Some r' /\
    Session.id r' = "u" /\ Session.name r' = "A" /\
    Session.created_at r' = "t" /\
    Session.workspace r' = "/tmp/claude-sessions/u".
Proof.
  intros qs.
  assert (Hu : unused Example.world "u" Example.one)
    by (intros [|n] Hn; [vm_compute in Hn; lia | discriminate]).
  split; [reflexivity|]. split; [exact Hu|].
  apply (session_identity_is_fixed Example.world Example.one "u" Example.a qs);
    [reflexivity | exact Hu].
Defined.

(** X21.  Whatever requests are served, [message_count] of a session never
    decreases and its participants are only added to, at the end of the
    list (the uuid source is assumed not to produce the identifier
    again). *)
Theorem session_activity_only_grows e st sid r qs :
  sessions st !! sid = Some r ->
  unused e sid st ->
  exists r',
    sessions (serve qs e st) !! sid = Some r' /\
    Session.message_count r <= Session.message_count r' /\
    Session.participants r `prefix_of` Session.participants r'.
Proof.
  intros Hs Hu.
  destruct (serve_grows e sid r qs st) as [(r' & Hr' & Hev) _].
  { split; [|exact Hu]. exists r. split; [exact Hs | apply evolves_refl]. }
  exists r'. split; [exact Hr'|]. unfold evolves in Hev. tauto.
Qed.

Lemma session_activity_only_grows_witness :
  let qs := [SendMessage "u" (MessageRequest.mk "more" (Some "bob"));
             UpdateSession "u" (SessionUpdateRequest.mk (Some "second") None None);
             ArchiveSession "u"] in
  exists r alice r',
    sessions Example.talked !! "u" = Some r /\
    Session.message_count r = 1 /\
    Session.participants r = [alice] /\
    unused Example.world "u" Example.talked /\
    sessions (serve qs Example.world Example.talked) !! "u" = Some r' /\
    1 <= Session.message_count r' /\
    [alice] `prefix_of` Session.participants r' /\
    Session.message_count r' = 2 /\
    length (Session.participants r') = 2%nat.
Proof.
  intros qs.
  assert (Hu : unused Example.world "u" Example.talked)
    by (intros [|n] Hn; [vm_compute in Hn; lia | discriminate]).
  assert (Hs : exists r, sessions Example.talked !! "u" = Some r)
    by (eexists; vm_compute; reflexivity).
  destruct Hs as [r Hs].
  assert (Hc : Session.message_count r = 1)
    by (vm_compute in Hs; injection Hs as <-; reflexivity).
  assert (Hp : exists alice, Session.participants r = [alice])
    by (vm_compute in Hs; injection Hs as <-; eexists; reflexivity).
  destruct Hp as [alice Hp].
  destruct (session_activity_only_grows Example.world Example.talked "u" r qs Hs Hu)
    as (r' & Hr' & Hcount & Hpre).
  assert (Hn : Session.message_count r' = 2 /\
               length (Session.participants r') = 2%nat)
    by (vm_compute in Hr'; injection Hr' as <-; split; reflexivity).
  exists r, alice, r'. rewrite Hc, Hp in *.
  split; [exact Hs|]. split; [reflexivity|]. split; [reflexivity|].
  split; [exact Hu|]. split; [exact Hr'|]. split; [exact Hcount|].
  split; [exact Hpre | exact Hn].
Defined.

(** ** Creating a session *)

Lemma create_session_fresh_run name description shared tags e st :
  fs st !! path_join sessions_dir (uuid e (uuids st)) = None ->
  let session_id := uuid e (uuids st) in
  let info :=
    {| Session.id := session_id;
       Session.name := name;
       Session.description := description;
       Session.created_at := clock e (ticks st);
       Session.last_accessed := clock e (S (ticks st));
       Session.shared := shared;
       Session.tags := default [] tags;
       Session.workspace := path_join sessions_dir session_id;
       Session.participants := [];
       Session.claude_session_id := None;
       Session.message_count := 0;
       Session.tool_usage := ∅;
       Session.status := "active";
       Session.archived_at := None;
       Session.knowledge_received := None;
       Session.parent_session := None;
       Session.knowledge_transfer := None;
       Session.fork_instruction_sent := None;
       Session.awaiting_knowledge_transfer := None |} in
  exists st',
    Manager.create_session name description shared tags e st = (st', Returns info) /\
    sessions st' = <[session_id := info]> (sessions st) /\
    metadata_file st' = Some (sessions st') /\
    fs st' = <[path_join sessions_dir session_id := provisioned info]> (fs st) /\
    spawns st' = spawns st /\ uuids st' = S (uuids st).
Proof.
  intros Hf session_id info.
  unfold Manager.create_session, Manager.create_session_context.
  mrun. cbn. mrun. cbn. mrun. cbn. mrun. cbn. mrun.
  eexists. split; [reflexivity|]. cbn. rewrite !insert_insert_eq. done.
Qed.

(** X22.  [create_session] of the session manager, when no workspace of
    the new identifier exists yet: the record has the given name,
    description, sharing and tags (none for [None]), no participants, no
    handle, no messages and status [active]; it is stored under its
    identifier and saved; and the workspace holds the context document and
    the three session files, and nothing else. *)
Theorem create_session_fresh name description shared tags e st :
  fs st !! path_join sessions_dir (uuid e (uuids st)) = None ->
  exists st' info,
    run (Manager.create_session name description shared tags) e st
    = (st', Returns info) /\
    sessions st' = <[uuid e (uuids st) := info]> (sessions st) /\
    metadata_file st' = Some (sessions st') /\
    fs st'
    = <[path_join sessions_dir (uuid e (uuids st)) :=
          Dir [("CLAUDE.md", File (Text (Manager.claude_md info)));
               (".session",
                Dir [("state.json", File (Text "{}"));
                     ("decisions.md",
                      File (Text ("# Decisions Log - " ++ name ++ Str.nl ++ Str.nl)));
                     ("todos.md",
                      File (Text ("# Action Items - " ++ name ++ Str.nl ++ Str.nl)))])]]>
        (fs st) /\
    Session.id info = uuid e (uuids st) /\
    Session.workspace info = path_join sessions_dir (uuid e (uuids st)) /\
    Session.name info = name /\ Session.description info = description /\
    Session.shared info = shared /\ Session.tags info = default [] tags /\
    Session.participants info = [] /\ Session.claude_session_id info = None /\
    Session.message_count info = 0 /\ Session.status info = "active".
Proof.
  intros Hf.
  destruct (create_session_fresh_run name description shared tags e st Hf)
    as (st' & Hrun & Hses & Hmeta & Hfs & _).
  eexists st', _. split; [exact Hrun|]. split; [exact Hses|]. split; [exact Hmeta|].
  split; [exact Hfs|]. repeat split.
Qed.

Lemma create_session_fresh_witness :
  fs Example.empty !! path_join sessions_dir (uuid Example.world (uuids Example.empty))
  = None /\
  exists st',
    run (Manager.create_session "A" "first" true (Some ["demo"])) Example.world Example.empty
    = (st', Returns Example.a) /\
    sessions st' = {[ "u" := Example.a ]} /\
    metadata_file st' = Some (sessions st').
Proof.
  split; [reflexivity|].
  destruct (create_session_fresh "A" "first" true (Some ["demo"]) Example.world
              Example.empty) as (st' & info & Hrun & Hses & Hmeta & _);
    [reflexivity|].
  exists st'. vm_compute in Hrun. injection Hrun as <- <-.
  split; [vm_compute; reflexivity|]. split; [vm_compute; reflexivity|].
  vm_compute. reflexivity.
Defined.

(** X23.  [POST /sessions], when no workspace of the new identifier exists
    yet, always answers with the new session, also when the run of the
    initial prompt fails.  Without a prompt, or with the empty one, no
    process is started; with a prompt exactly one process is started, and
    a run that succeeds counts as the first message of the session. *)
Theorem create_session_with_prompt request e st :
  fs st !! path_join sessions_dir (uuid e (uuids st)) = None ->
  exists st' session result,
    run (Api.create_session request) e st = (st', Returns (session, result)) /\
    sessions st' !! uuid e (uuids st) = Some session /\
    Session.id session = uuid e (uuids st) /\
    Session.status session = "active" /\
    if Str.truthy_opt (SessionCreateRequest.initial_prompt request)
    then
      spawns st' = S (spawns st) /\
      exists r, result = Some r /\
                (success r = true -> Session.message_count session = 1)
    else
      spawns st' = spawns st /\ result = None /\ Session.message_count session = 0.
Proof.
  intros Hf. unfold Api.create_session, run. unfold bind at 1.
  destruct (create_session_fresh_run (SessionCreateRequest.name request)
              (SessionCreateRequest.description request)
              (SessionCreateRequest.shared request)
              (SessionCreateRequest.tags request) e st Hf)
    as (st1 & Hrun & Hses & Hmeta & Hfs & Hsp & _).
  rewrite Hrun. cbv zeta. cbn [Session.id Session.workspace].
  set (session_id := uuid e (uuids st)) in *.
  match type of Hrun with _ = (_, Returns ?i) => set (info := i) in * end.
  assert (Hs1 : sessions st1 !! session_id = Some info)
    by (rewrite Hses; apply lookup_insert_eq).
  destruct (SessionCreateRequest.initial_prompt request) as [p|]; cbn [Str.truthy_opt].
  2: { unfold ret. exists st1, info, None. repeat split; done. }
  destruct (Str.truthy p).
  2: { unfold ret. exists st1, info, None. repeat split; done. }
  unfold bind at 1.
  destruct (execute_claude_run p (path_join sessions_dir session_id) session_id false e st1)
    as (st2 & res & Hexec & _ & _ & _ & Hsp2 & Hout).
  unfold run in Hexec. rewrite Hexec. cbv zeta in Hout. rewrite Hs1 in Hout.
  assert (Hcase : exists s, sessions st2 !! session_id = Some s /\
            Session.id s = session_id /\ Session.status s = "active" /\
            (success res = true -> Session.message_count s = 1)).
  { destruct (create_subprocess_exec _ e st1) as [why|rc out err logs].
    - destruct Hout as (-> & Hs2 & _). exists info. rewrite Hs2. done.
    - destruct (rc =? 0).
      + destruct Hout as (_ & h & Hs2 & _). eexists. rewrite Hs2, lookup_insert_eq.
        split; [reflexivity|]. done.
      + destruct Hout as (-> & Hs2 & _). exists info. rewrite Hs2. done. }
  destruct Hcase as (s & Hs2 & Hid & Hst & Hmc). mrun.
  exists st2, s, (Some res). split; [reflexivity|]. split; [done|]. split; [done|].
  split; [done|]. split; [lia|]. eauto.
Qed.

Lemma create_session_with_prompt_witness :
  let request := SessionCreateRequest.mk "A" "first" true (Some ["demo"]) (Some "hello") in
  exists st' session,
    run (Api.create_session request) Example.failing Example.empty
    = (st', Returns (session, Some (Failure "boom"))) /\
    sessions st' !! "u" = Some session /\
    Session.status session = "active" /\
    spawns st' = 1%nat.
Proof.
  intros request.
  destruct (create_session_with_prompt request Example.failing Example.empty)
    as (st' & session & result & Hrun & Hs & _ & Hst & Hsp & _); [reflexivity|].
  exists st', session. vm_compute in Hrun. injection Hrun as <- <- <-.
  split; [vm_compute; reflexivity|]. split; [vm_compute; reflexivity|].
  split; reflexivity.
Defined.

(** ** Cloning, continued *)

Lemma copy_item_skips src dst n x e st es :
  fs st !! dst = Some (Dir es) ->
  (forall c, (n, x) <> (".claude", File c)) ->
  exists es',
    fs (fst (Manager.copy_item src dst (n, x) e st)) !! dst = Some (Dir es') /\
    FS.lookup ".claude" es' = FS.lookup ".claude" es.
Proof.
  intros Hd Hx. destruct (String.eqb_spec n ".claude") as [->|Hne].
  - destruct x as [c|sub]; [by destruct (Hx c)|].
    unfold Manager.copy_item. mrun. cbn. by exists es.
  - apply copy_item_other; [done|]. congruence.
Qed.

Lemma copy_loop_skips src dst items e st es :
  fs st !! dst = Some (Dir es) ->
  (forall c, (".claude", File c) ∉ items) ->
  exists es',
    fs (fst (for_each items (Manager.copy_item src dst) e st)) !! dst = Some (Dir es') /\
    FS.lookup ".claude" es' = FS.lookup ".claude" es.
Proof.
  revert st es. induction items as [|[n x] items IH]; intros st es Hd Hm; cbn.
  - by exists es.
  - destruct (copy_item_skips src dst n x e st es Hd) as (es1 & Hd1 & Hl1).
    { intros c [= -> ->]. apply (Hm c). apply list_elem_of_here. }
    unfold bind.
    destruct (Manager.copy_item src dst (n, x) e st) as [st1 [[]|err]]; cbn in *.
    + destruct (IH st1 es1 Hd1) as (es2 & Hd2 & Hl2).
      { intros c Hin. apply (Hm c). by apply list_elem_of_further. }
      exists es2. split; [done|]. congruence.
    + by exists es1.
Qed.

(** X24.  The clone of a session does not get the [.claude] directory of
    the source: unless the source workspace holds a file of that name at
    its top, the workspace of the child has no entry [.claude]. *)
Theorem clone_leaves_claude_directory sid new_name a items e st st' b :
  sessions st !! sid = Some a ->
  fs st !! Session.workspace a = Some (Dir items) ->
  (forall c, (".claude", File c) ∉ items) ->
  fs st !! path_join sessions_dir (uuid e (uuids st)) = None ->
  run (Manager.clone_session sid new_name) e st = (st', Returns b) ->
  exists dst,
    fs st' !! Session.workspace b = Some (Dir dst) /\
    FS.lookup ".claude" dst = None.
Proof.
  intros Hs Hw Hno Hfresh. unfold Manager.clone_session, run. mrun.
  destruct (create_session_fresh_run new_name ("Cloned from " ++ Session.name a)
              (Session.shared a) (Some (Session.tags a ++ ["cloned"])%list) e st Hfresh)
    as (st1 & Hrun & Hses & _ & Hfs1 & _).
  rewrite Hrun. clear Hrun. cbv zeta. cbn [Session.id Session.workspace].
  set (new_id := uuid e (uuids st)) in *.
  set (dst := path_join sessions_dir new_id) in *.
  match type of Hses with _ = <[_ := ?i]> _ => set (info := i) in * end.
  assert (Hne : Session.workspace a <> dst) by congruence.
  assert (Hinfo : sessions st1 !! new_id = Some info)
    by (rewrite Hses; apply lookup_insert_eq).
  assert (Hsrc : fs st1 !! Session.workspace a = Some (Dir items))
    by (rewrite Hfs1, lookup_insert_ne; done).
  assert (Hdst : fs st1 !! dst = Some (provisioned info))
    by (rewrite Hfs1; apply lookup_insert_eq).
  unfold Manager.iterdir.
  assert (Hloop : forall s, fs s = fs st1 ->
    exists es,
      fs (fst (for_each items (Manager.copy_item (Session.workspace a) dst) e s)) !! dst
      = Some (Dir es) /\ FS.lookup ".claude" es = None).
  { intros s Hfs.
    destruct (copy_loop_skips (Session.workspace a) dst items e s _
                ltac:(rewrite Hfs; exact Hdst) Hno) as (es & H1 & H2).
    exists es. split; [exact H1|]. rewrite H2. reflexivity. }
  destruct (Str.truthy_opt (Session.claude_session_id a)); mrun.
  - match goal with |- context [for_each items ?f ?e ?s] =>
      destruct (Hloop s eq_refl) as (es & Hes & Hnone);
      destruct (copy_loop_frame (Session.workspace a) dst items e s) as [H1 _];
      destruct (for_each items f e s) as [st2 [[]|x]]; [|done]
    end.
    cbn in H1, Hes. mrun. rewrite H1, lookup_insert_eq. intros [= <- <-].
    exists es. done.
  - match goal with |- context [for_each items ?f ?e ?s] =>
      destruct (Hloop s eq_refl) as (es & Hes & Hnone);
      destruct (copy_loop_frame (Session.workspace a) dst items e s) as [H1 _];
      destruct (for_each items f e s) as [st2 [[]|x]]; [|done]
    end.
    cbn in H1, Hes. mrun. rewrite H1, Hinfo. intros [= <- <-].
    exists es. done.
Qed.

Lemma clone_leaves_claude_directory_witness :
  exists items sub st' b dst,
    sessions Example.configured !! "u" = Some Example.a /\
    fs Example.configured !! Session.workspace Example.a = Some (Dir items) /\
    FS.lookup ".claude" items = Some (Dir sub) /\
    run (Manager.clone_session "u" "B-fork") Example.world Example.configured
    = (st', Returns b) /\
    fs st' !! Session.workspace b = Some (Dir dst) /\
    FS.lookup ".claude" dst = None.
Proof.
  assert (Hw : exists items,
            fs Example.configured !! Session.workspace Example.a = Some (Dir items) /\
            (exists sub, FS.lookup ".claude" items = Some (Dir sub)) /\
            forall c, (".claude", File c) ∉ items).
  { eexists. split; [vm_compute; reflexivity|]. split; [eexists; reflexivity|].
    intros c Hin.
    repeat (apply elem_of_cons in Hin as [Hin|Hin]; [discriminate Hin|]).
    by apply elem_of_nil in Hin. }
  destruct Hw as (items & Hw & (sub & Hsub) & Hno).
  assert (Hrun : exists st' b,
            run (Manager.clone_session "u" "B-fork") Example.world Example.configured
            = (st', Returns b)) by (eexists _, _; vm_compute; reflexivity).
  destruct Hrun as (st' & b & Hrun).
  destruct (clone_leaves_claude_directory "u" "B-fork" Example.a items Example.world
              Example.configured st' b eq_refl Hw Hno eq_refl Hrun)
    as (dst & Hdst & Hnone).
  exists items, sub, st', b, dst. repeat split; assumption.
Defined.
